(** * Contributor-risk engine of mcp-oss-metrics (src/app.py): a shallow embedding

    The development follows [ProjectRiskAnalyzer] of [src/app.py]:
    the identity classifier ([_classify_email_domain], [_is_bot_account]),
    the activity aggregator, trend detector and concentration scorer
    ([_analyze_contributor_concentration] with its local [get_quarter]),
    the recommendation synthesizer ([_generate_recommendations]) and the
    batch driver ([analyze_repositories]); then the identifier parser
    ([_parse_github_url]), the repository statistics
    ([_calculate_repository_statistics]), the driver of one analysis
    ([analyze_single_repository]), the paging loops of the commit and
    contributor fetches, and the tool handler ([handle_call_tool]).

    Modelling conventions.
    - Python [int] is [Z]; Python [float] is read as an exact rational [Q]
      (the counts involved are far below 2^53, so the comparisons against
      30, 70, 1.5 and 0.67 come out as on the exact quotients).
    - Python [str] is [string]; [lower] acts on the ASCII letters.
    - The JSON records handed over by the fetch layer are typed records whose
      optional keys are [option] fields; a timestamp field is the instant
      that [datetime.fromisoformat] reads from it, in microseconds, or [None]
      when the key is missing, empty or rejected by the parser.
    - A Python exception is the [Raise] branch of [result].
    - A [dict] whose iteration order matters (the contributor ledger) is an
      association list in insertion order.
    - Code that talks to the network or reads the clock passes a world
      along; the requests themselves are parameters of the section that
      uses them, and a loop around them carries fuel. *)

From Stdlib Require Import ZArith QArith Qminmax Lia Lqa Ascii String List
  Permutation Sorted.
From stdpp Require Import base option list strings gmap.

Local Open Scope string_scope.
Local Open Scope Z_scope.

(** ** Exceptions and results *)

Inductive exn : Type :=
| ZeroDivisionError
| IndexError
| KeyError.

Inductive result (A : Type) : Type :=
| Ok (a : A)
| Raise (e : exn).

Arguments Ok {A} a.
Arguments Raise {A} e.

Definition rbind {A B : Type} (r : result A) (k : A -> result B) : result B :=
  match r with
  | Ok a => k a
  | Raise e => Raise e
  end.

Notation "'let!' x ':=' r 'in' k" := (rbind r (fun x => k))
  (at level 10, x name, r at level 100, k at level 200).

(** A [for] loop over [xs] whose body may raise. *)
Fixpoint for_each {A S : Type} (body : A -> S -> result S) (xs : list A) (s : S)
  : result S :=
  match xs with
  | [] => Ok s
  | x :: xs' => let! s' := body x s in for_each body xs' s'
  end.

(** ** Python string primitives *)

Module PyStr.

Definition lower_ascii (c : ascii) : ascii :=
  let n := nat_of_ascii c in
  if ((65 <=? n) && (n <=? 90))%nat then ascii_of_nat (n + 32) else c.

(** [s.lower()] *)
Fixpoint lower (s : string) : string :=
  match s with
  | EmptyString => EmptyString
  | String c s' => String (lower_ascii c) (lower s')
  end.

(** [needle in hay] *)
Fixpoint contains (needle hay : string) : bool :=
  String.prefix needle hay
  || match hay with
     | EmptyString => false
     | String _ hay' => contains needle hay'
     end.

(** [s.endswith(suffix)] *)
Fixpoint endswith (s suffix : string) : bool :=
  String.eqb s suffix
  || match s with
     | EmptyString => false
     | String _ s' => endswith s' suffix
     end.

(** [s.split(sep)] for a one-character separator: one more piece than
    there are separators, never the empty list. *)
Fixpoint split (sep : ascii) (s : string) : list string :=
  match s with
  | EmptyString => [EmptyString]
  | String c s' =>
      if Ascii.eqb c sep then EmptyString :: split sep s'
      else match split sep s' with
           | piece :: rest => String c piece :: rest
           | [] => [String c EmptyString]
           end
  end.

(** [xs[-1]] *)
Fixpoint last_item {A : Type} (xs : list A) : result A :=
  match xs with
  | [] => Raise IndexError
  | [x] => Ok x
  | _ :: xs' => last_item xs'
  end.

(** [x in xs] for a list or set of strings *)
Definition mem (x : string) (xs : list string) : bool :=
  existsb (String.eqb x) xs.

(** Truthiness of a string: [not s] is [negb (truthy s)]. *)
Definition truthy (s : string) : bool :=
  match s with EmptyString => false | _ => true end.

End PyStr.

(** ** Identity classifier *)

Definition company_domains : list string :=
  [ "microsoft.com"; "google.com"; "facebook.com"; "meta.com"; "apple.com";
    "amazon.com"; "netflix.com"; "uber.com"; "airbnb.com"; "twitter.com";
    "linkedin.com"; "github.com"; "gitlab.com"; "atlassian.com"; "salesforce.com";
    "oracle.com"; "ibm.com"; "intel.com"; "nvidia.com"; "amd.com"; "cisco.com";
    "vmware.com"; "redhat.com"; "canonical.com"; "mozilla.org"; "spotify.com";
    "dropbox.com"; "slack.com"; "zoom.us"; "docker.com"; "hashicorp.com" ].

Definition personal_domains : list string :=
  [ "gmail.com"; "yahoo.com"; "hotmail.com"; "outlook.com"; "live.com";
    "icloud.com"; "protonmail.com"; "mail.com"; "yandex.com"; "qq.com";
    "163.com"; "126.com"; "sina.com"; "sohu.com"; "naver.com"; "daum.net";
    "web.de"; "gmx.de"; "t-online.de"; "free.fr"; "laposte.net" ].

Definition academic_tlds : list string :=
  [ ".edu"; ".ac.uk"; ".edu.au"; ".ac.jp"; ".edu.cn" ].

Definition no_email_available : string := "no email available".

(** [_classify_email_domain]; [custom_domains] is the analyzer's
    [self.custom_domains]. *)
Definition _classify_email_domain (custom_domains : list string) (email : string)
  : result string :=
  if negb (PyStr.truthy email) || negb (PyStr.contains "@" email)
  then Ok no_email_available
  else
    let! piece := PyStr.last_item (PyStr.split "@"%char email) in
    let domain := PyStr.lower piece in
    if PyStr.mem domain custom_domains then Ok "custom"
    else if PyStr.mem domain company_domains then Ok "company"
    else if existsb (fun tld => PyStr.endswith domain tld) academic_tlds
         then Ok "academic"
    else if PyStr.mem domain personal_domains then Ok "personal"
    else Ok "personal".

Definition bot_indicators : list string :=
  [ "bot"; "automated"; "auto"; "ci"; "cd"; "deploy"; "build";
    "github-actions"; "dependabot"; "renovate"; "greenkeeper";
    "codecov"; "codeclimate"; "travis"; "appveyor"; "jenkins";
    "drone"; "circleci"; "gitlab-ci"; "azure-devops"; "teamcity";
    "service"; "automation"; "pipeline"; "workflow"; "action" ].

Definition bot_email_patterns : list string :=
  [ "noreply"; "no-reply"; "automation"; "bot"; "ci"; "cd";
    "github-actions"; "dependabot"; "renovate" ].

(** [_is_bot_account] *)
Definition _is_bot_account (login name email : string) : bool :=
  if negb (PyStr.truthy login) then false
  else
    let login_lower := PyStr.lower login in
    let name_lower := if PyStr.truthy name then PyStr.lower name else "" in
    if existsb (fun indicator => PyStr.contains indicator login_lower) bot_indicators
    then true
    else if existsb (fun indicator => PyStr.contains indicator name_lower) bot_indicators
    then true
    else if PyStr.truthy email
            && existsb (fun pattern => PyStr.contains pattern (PyStr.lower email))
                 bot_email_patterns
    then true
    else if PyStr.endswith login_lower "[bot]" || PyStr.endswith name_lower "[bot]"
    then true
    else false.

(** ** Python list and number primitives *)

Module PyList.

(** [xs[i]], with Python's negative indices. *)
Definition item (xs : list Z) (i : Z) : result Z :=
  let n := Z.of_nat (length xs) in
  let j := if i <? 0 then i + n else i in
  if (0 <=? j) && (j <? n)
  then match xs !! Z.to_nat j with
       | Some x => Ok x
       | None => Raise IndexError
       end
  else Raise IndexError.

(** [xs[i] += 1] *)
Definition incr (xs : list Z) (i : Z) : result (list Z) :=
  let! x := item xs i in
  let n := Z.of_nat (length xs) in
  let j := if i <? 0 then i + n else i in
  Ok (<[Z.to_nat j := x + 1]> xs).

(** [sum(xs)] *)
Definition sum (xs : list Z) : Z := fold_left Z.add xs 0.

End PyList.

Module PyNum.

(** [max(a, b)] and [min(a, b)] keep their first argument unless the
    second one is strictly larger, respectively smaller. *)
Definition max (a b : Q) : Q := if Qle_bool b a then a else b.
Definition min (a b : Q) : Q := if Qle_bool a b then a else b.

Definition gt (a b : Q) : bool := negb (Qle_bool a b).
Definition lt (a b : Q) : bool := negb (Qle_bool b a).

(** [a / b] on integers (true division); the caller guards [b]. *)
Definition truediv (a b : Z) : Q := inject_Z a / inject_Z b.

End PyNum.

(** ** Input records *)

(** Microseconds in a day: [timedelta(days=1)]. *)
Definition day : Z := 86400000000.

(** A commit object: [commit["author"]["login"]] and the name, email and
    date under [commit["commit"]["author"]]. *)
Record commit_record : Type := {
  commit_login : option string;
  commit_name : option string;
  commit_email : option string;
  commit_date : option Z
}.

(** A nested review: [review["user"]["login"]]; its own timestamp
    [submitted_at] is carried but never read by the aggregator. *)
Record review_record : Type := {
  review_login : option string;
  review_submitted_at : option Z
}.

(** An issue or pull request: [issue["user"]["login"]], [created_at],
    [closed_at], truthiness of [pull_request], [reviews], [comments] and
    [participants]. *)
Record issue_record : Type := {
  issue_login : option string;
  issue_created_at : option Z;
  issue_closed_at : option Z;
  issue_pull_request : bool;
  issue_reviews : list review_record;
  issue_comments : Z;
  issue_participants : list string
}.

(** ** The contributor ledger *)

Record contributor : Type := {
  name : string;
  email : string;
  email_type : string;
  commits : Z;
  issues_created : Z;
  prs_created : Z;
  reviews_given : Z;
  comments_made : Z;
  total_activity : Z;
  quarterly_activity : list Z;
  activity_trend : option string
}.

Definition new_contributor (n e t : string) : contributor :=
  {| name := n; email := e; email_type := t;
     commits := 0; issues_created := 0; prs_created := 0;
     reviews_given := 0; comments_made := 0; total_activity := 0;
     quarterly_activity := [0; 0; 0; 0];
     activity_trend := None |}.

Definition add_commits (k : Z) (c : contributor) : contributor :=
  {| name := name c; email := email c; email_type := email_type c;
     commits := commits c + k; issues_created := issues_created c;
     prs_created := prs_created c; reviews_given := reviews_given c;
     comments_made := comments_made c; total_activity := total_activity c;
     quarterly_activity := quarterly_activity c;
     activity_trend := activity_trend c |}.

Definition add_issues_created (k : Z) (c : contributor) : contributor :=
  {| name := name c; email := email c; email_type := email_type c;
     commits := commits c; issues_created := issues_created c + k;
     prs_created := prs_created c; reviews_given := reviews_given c;
     comments_made := comments_made c; total_activity := total_activity c;
     quarterly_activity := quarterly_activity c;
     activity_trend := activity_trend c |}.

Definition add_prs_created (k : Z) (c : contributor) : contributor :=
  {| name := name c; email := email c; email_type := email_type c;
     commits := commits c; issues_created := issues_created c;
     prs_created := prs_created c + k; reviews_given := reviews_given c;
     comments_made := comments_made c; total_activity := total_activity c;
     quarterly_activity := quarterly_activity c;
     activity_trend := activity_trend c |}.

Definition add_reviews_given (k : Z) (c : contributor) : contributor :=
  {| name := name c; email := email c; email_type := email_type c;
     commits := commits c; issues_created := issues_created c;
     prs_created := prs_created c; reviews_given := reviews_given c + k;
     comments_made := comments_made c; total_activity := total_activity c;
     quarterly_activity := quarterly_activity c;
     activity_trend := activity_trend c |}.

Definition add_comments_made (k : Z) (c : contributor) : contributor :=
  {| name := name c; email := email c; email_type := email_type c;
     commits := commits c; issues_created := issues_created c;
     prs_created := prs_created c; reviews_given := reviews_given c;
     comments_made := comments_made c + k; total_activity := total_activity c;
     quarterly_activity := quarterly_activity c;
     activity_trend := activity_trend c |}.

Definition set_total_activity (k : Z) (c : contributor) : contributor :=
  {| name := name c; email := email c; email_type := email_type c;
     commits := commits c; issues_created := issues_created c;
     prs_created := prs_created c; reviews_given := reviews_given c;
     comments_made := comments_made c; total_activity := k;
     quarterly_activity := quarterly_activity c;
     activity_trend := activity_trend c |}.

Definition set_quarterly_activity (q : list Z) (c : contributor) : contributor :=
  {| name := name c; email := email c; email_type := email_type c;
     commits := commits c; issues_created := issues_created c;
     prs_created := prs_created c; reviews_given := reviews_given c;
     comments_made := comments_made c; total_activity := total_activity c;
     quarterly_activity := q;
     activity_trend := activity_trend c |}.

Definition set_activity_trend (t : string) (c : contributor) : contributor :=
  {| name := name c; email := email c; email_type := email_type c;
     commits := commits c; issues_created := issues_created c;
     prs_created := prs_created c; reviews_given := reviews_given c;
     comments_made := comments_made c; total_activity := total_activity c;
     quarterly_activity := quarterly_activity c;
     activity_trend := Some t |}.

(** [c["quarterly_activity"][quarter] += 1] *)
Definition bump_quarter (quarter : Z) (c : contributor) : result contributor :=
  let! q := PyList.incr (quarterly_activity c) quarter in
  Ok (set_quarterly_activity q c).

(** [active_contributors]: login to entry, in insertion order. *)
Definition ledger : Type := list (string * contributor).

Module Ledger.

(** [d.get(login)] *)
Fixpoint get (login : string) (d : ledger) : option contributor :=
  match d with
  | [] => None
  | (k, c) :: d' => if String.eqb k login then Some c else get login d'
  end.

(** [login in d] *)
Definition mem (login : string) (d : ledger) : bool :=
  match get login d with Some _ => true | None => false end.

(** [d[login] = c]: in place for a known key, at the end for a new one. *)
Fixpoint set (login : string) (c : contributor) (d : ledger) : ledger :=
  match d with
  | [] => [(login, c)]
  | (k, c0) :: d' =>
      if String.eqb k login then (k, c) :: d' else (k, c0) :: set login c d'
  end.

(** [d[login]] read, modified by [f] and stored back in place. *)
Fixpoint update (login : string) (f : contributor -> result contributor)
    (d : ledger) : result ledger :=
  match d with
  | [] => Raise KeyError
  | (k, c) :: d' =>
      if String.eqb k login
      then let! c' := f c in Ok ((k, c') :: d')
      else let! d'' := update login f d' in Ok ((k, c) :: d'')
  end.

Definition keys (d : ledger) : list string := map fst d.

End Ledger.

(** ** The report of [_analyze_contributor_concentration]

    The returned dictionary doubles as the risk-factor bundle read by
    [_generate_recommendations].  Keys that only one of the two return
    statements sets are [option] fields.  The [sentiment_analysis]
    annotation, which is fetched over the network and touches no other key,
    is left out. *)

Module Report.

Record activity_breakdown : Type := {
  commits : Z;
  issues_created : Z;
  prs_created : Z;
  reviews_given : Z;
  comments_made : Z
}.

Record contributor_info : Type := {
  login : string;
  name : string;
  email : string;
  email_type : string;
  breakdown : activity_breakdown;
  total_activity : Z;
  activity_percentage : Q;
  quarterly_activity : list Z;
  activity_trend : string
}.

Record top_contributor_info : Type := {
  top_login : string;
  top_name : string;
  top_total_activity : Z;
  top_percentage : Q
}.

Record repository_statistics : Type := {
  total_issues : Z;
  total_prs : Z;
  closed_issues : Z;
  closed_prs : Z;
  avg_issue_close_time_days : option Q;
  avg_pr_close_time_days : option Q;
  avg_response_time_days : option Q;
  total_commits : Z;
  commit_frequency_per_day : Q
}.

Record t : Type := {
  contributor_concentration_risk : Q;
  total_active_contributors : Z;
  recent_commits_analyzed : Z;
  recent_issues_analyzed : Z;
  total_activity_events : option Z;
  repository_stats : option repository_statistics;
  top_contributor : option top_contributor_info;
  active_contributors : list contributor_info;
  top_contributor_percentage : option Q;
  activity_distribution : gmap string Q
}.

End Report.

(** [float('inf')] next to the finite quotients. *)
Inductive pyfloat : Type :=
| Finite (q : Q)
| Infinity.

Definition pyfloat_gt (x : pyfloat) (b : Q) : bool :=
  match x with Finite q => PyNum.gt q b | Infinity => true end.

Definition pyfloat_lt (x : pyfloat) (b : Q) : bool :=
  match x with Finite q => PyNum.lt q b | Infinity => false end.

(** ** The analyzer *)

Section Analyzer.

(** [self.custom_domains] and [self.analysis_window_days]. *)
Variable custom_domains : list string.
Variable analysis_window_days : Z.

(** The readings of [datetime.now()] in [_filter_recent_commits], in
    [_filter_recent_issues] and in [_analyze_contributor_concentration]. *)
Variable now_commits now_issues now : Z.

(** [_calculate_repository_statistics] (close-time averages rounded to two
    decimals) is taken as given. *)
Variable _calculate_repository_statistics :
  list issue_record -> list commit_record -> Report.repository_statistics.

Definition _filter_recent_commits (commits : list commit_record)
  : list commit_record :=
  let cutoff_date := now_commits - analysis_window_days * day in
  List.filter
    (fun commit => match commit_date commit with
                   | Some commit_date => cutoff_date <=? commit_date
                   | None => false
                   end)
    commits.

Definition _filter_recent_issues (issues : list issue_record)
  : list issue_record :=
  let cutoff_date := now_issues - analysis_window_days * day in
  List.filter
    (fun issue => match issue_created_at issue with
                  | Some created_at => cutoff_date <=? created_at
                  | None => false
                  end)
    issues.

(** [get_quarter]: [None] stands for Python's [None]. *)
Definition get_quarter (date_obj : option Z) : result (option Z) :=
  let quarter_length := analysis_window_days / 4 in
  match date_obj with
  | None => Ok None
  | Some date_obj =>
      let days_ago := (now - date_obj) / day in
      if (days_ago <? 0) || (days_ago >? analysis_window_days) then Ok None
      else if quarter_length =? 0 then Raise ZeroDivisionError
      else
        let quarter := Z.min 3 (days_ago / quarter_length) in
        Ok (Some (3 - quarter))
  end.

(** [if quarter is not None: d[login]["quarterly_activity"][quarter] += 1] *)
Definition bump (login : string) (quarter : option Z) (d : ledger)
  : result ledger :=
  match quarter with
  | Some q => Ledger.update login (bump_quarter q) d
  | None => Ok d
  end.

(** Step 1: one iteration of the loop over [recent_commits]. *)
Definition track_commit (commit : commit_record) (d : ledger) : result ledger :=
  let author_login := default "unknown" (commit_login commit) in
  let author_name := default "Unknown" (commit_name commit) in
  let author_email := default "" (commit_email commit) in
  let author_login :=
    if String.eqb author_login "unknown" && negb (String.eqb author_name "Unknown")
    then author_name else author_login in
  if _is_bot_account author_login author_name author_email then Ok d
  else
    let! d :=
      (if Ledger.mem author_login d then Ok d
       else
         let! email_type := _classify_email_domain custom_domains author_email in
         Ok (Ledger.set author_login
               (new_contributor author_name author_email email_type) d)) in
    let! d := Ledger.update author_login (fun c => Ok (add_commits 1 c)) d in
    let! quarter := get_quarter (commit_date commit) in
    bump author_login quarter d.

(** Step 3: one iteration of the loop over the reviews of a record whose
    author is [author_login] and whose creation quarter is [quarter]. *)
Definition track_review (author_login : string) (quarter : option Z)
    (review : review_record) (d : ledger) : result ledger :=
  let reviewer_login := default "unknown" (review_login review) in
  if String.eqb reviewer_login "unknown" || _is_bot_account reviewer_login "" ""
  then Ok d
  else if negb (String.eqb reviewer_login author_login) then
    let d :=
      if Ledger.mem reviewer_login d then d
      else Ledger.set reviewer_login (new_contributor reviewer_login "" "N/A") d in
    let! d := Ledger.update reviewer_login (fun c => Ok (add_reviews_given 1 c)) d in
    bump reviewer_login quarter d
  else Ok d.

Definition human_participants (participants : list string) : list string :=
  List.filter (fun p => PyStr.truthy p && negb (_is_bot_account p "" ""))
    participants.

(** Step 4: the comment share of one record. *)
Definition track_comments (issue : issue_record) (d : ledger) : result ledger :=
  let comments_count := issue_comments issue in
  let participants := issue_participants issue in
  if (comments_count >? 0) && negb (Nat.eqb (length participants) 0) then
    let humans := human_participants participants in
    match humans with
    | [] => Ok d
    | _ :: _ =>
        let comments_per_participant :=
          Z.max 1 (comments_count / Z.of_nat (length humans)) in
        for_each
          (fun participant d =>
             if Ledger.mem participant d
             then Ledger.update participant
                    (fun c => Ok (add_comments_made comments_per_participant c)) d
             else Ok d)
          humans d
    end
  else Ok d.

(** Steps 2 to 4: one iteration of the loop over [recent_issues]. *)
Definition track_issue (issue : issue_record) (d : ledger) : result ledger :=
  let author_login := default "unknown" (issue_login issue) in
  if String.eqb author_login "unknown" then Ok d
  else if _is_bot_account author_login "" "" then Ok d
  else
    let d :=
      if Ledger.mem author_login d then d
      else Ledger.set author_login (new_contributor author_login "" "N/A") d in
    let! quarter := get_quarter (issue_created_at issue) in
    let! d :=
      (if issue_pull_request issue
       then Ledger.update author_login (fun c => Ok (add_prs_created 1 c)) d
       else Ledger.update author_login (fun c => Ok (add_issues_created 1 c)) d) in
    let! d := bump author_login quarter d in
    let! d := for_each (track_review author_login quarter) (issue_reviews issue) d in
    track_comments issue d.

(** The trend label of an entry with ten or more activities. *)
Definition compute_trend (quarters : list Z) : result string :=
  let! q2 := PyList.item quarters 2 in
  let! q3 := PyList.item quarters 3 in
  let recent_half := q2 + q3 in
  let! q0 := PyList.item quarters 0 in
  let! q1 := PyList.item quarters 1 in
  let older_half := q0 + q1 in
  if (older_half =? 0) && (recent_half >? 0) then Ok "increasing"
  else if (recent_half =? 0) && (older_half >? 0) then Ok "decreasing"
  else if (older_half =? 0) && (recent_half =? 0) then Ok "stable"
  else
    let ratio :=
      if older_half >? 0 then Finite (PyNum.truediv recent_half older_half)
      else Infinity in
    if pyfloat_gt ratio (3 # 2) then Ok "increasing"
    else if pyfloat_lt ratio (67 # 100) then Ok "decreasing"
    else Ok "stable".

(** Body of the loop that sets [total_activity] and [activity_trend]. *)
Definition finalize_contributor (c : contributor) : result contributor :=
  let c :=
    set_total_activity
      (commits c + issues_created c + prs_created c + reviews_given c
       + comments_made c) c in
  if total_activity c >=? 10 then
    let! trend := compute_trend (quarterly_activity c) in
    Ok (set_activity_trend trend c)
  else Ok (set_activity_trend "insufficient_data" c).

Fixpoint finalize (d : ledger) : result ledger :=
  match d with
  | [] => Ok []
  | (login, c) :: d' =>
      let! c' := finalize_contributor c in
      let! d'' := finalize d' in
      Ok ((login, c') :: d'')
  end.

(** The ledger once all records are folded in (steps 1 to 4). *)
Definition fold_records (commits : list commit_record)
    (issues : list issue_record) : result ledger :=
  let recent_commits := _filter_recent_commits commits in
  let recent_issues := _filter_recent_issues issues in
  let! d := for_each track_commit recent_commits [] in
  for_each track_issue recent_issues d.

(** The ledger after the totals and trends are set (step 6). *)
Definition aggregate (commits : list commit_record)
    (issues : list issue_record) : result ledger :=
  let! d := fold_records commits issues in
  finalize d.

(** [sorted(active_contributors.items(), key=total_activity, reverse=True)]:
    a stable sort, entries of equal total keep their ledger order. *)
Fixpoint insert_sorted (x : string * contributor) (l : ledger) : ledger :=
  match l with
  | [] => [x]
  | y :: l' =>
      if total_activity (snd y) <=? total_activity (snd x)
      then x :: y :: l'
      else y :: insert_sorted x l'
  end.

Definition sorted_contributors (d : ledger) : ledger :=
  fold_right insert_sorted [] d.

Definition activity_sum (l : ledger) : Z :=
  PyList.sum (map (fun c => total_activity (snd c)) l).

(** [(part / total_activity * 100) if total_activity > 0 else 0] *)
Definition percentage (part total_activity : Z) : Q :=
  if total_activity >? 0
  then (PyNum.truediv part total_activity * 100)%Q
  else 0%Q.

(** [min(1.0, max(0.0, (top_contributor_percentage - 30) / 40))] *)
Definition concentration_risk (top_contributor_percentage : Q) : Q :=
  PyNum.min 1 (PyNum.max 0 ((top_contributor_percentage - 30) / 40)).

Definition contributor_info_of (total : Z) (entry : string * contributor)
  : result Report.contributor_info :=
  let data := snd entry in
  let! trend :=
    match activity_trend data with
    | Some trend => Ok trend
    | None => Raise KeyError
    end in
  Ok {| Report.login := fst entry;
        Report.name := name data;
        Report.email := email data;
        Report.email_type := email_type data;
        Report.breakdown :=
          {| Report.commits := commits data;
             Report.issues_created := issues_created data;
             Report.prs_created := prs_created data;
             Report.reviews_given := reviews_given data;
             Report.comments_made := comments_made data |};
        Report.total_activity := total_activity data;
        Report.activity_percentage := percentage (total_activity data) total;
        Report.quarterly_activity := quarterly_activity data;
        Report.activity_trend := trend |}.

Fixpoint contributor_list (total : Z) (l : ledger)
  : result (list Report.contributor_info) :=
  match l with
  | [] => Ok []
  | entry :: l' =>
      let! info := contributor_info_of total entry in
      let! infos := contributor_list total l' in
      Ok (info :: infos)
  end.

Definition _analyze_contributor_concentration (commits : list commit_record)
    (issues : list issue_record) : result Report.t :=
  let recent_commits := _filter_recent_commits commits in
  let recent_issues := _filter_recent_issues issues in
  let! active_contributors := aggregate commits issues in
  let repo_stats := _calculate_repository_statistics recent_issues recent_commits in
  let sorted := sorted_contributors active_contributors in
  match sorted with
  | [] =>
      Ok {| Report.contributor_concentration_risk := 1;
            Report.total_active_contributors := 0;
            Report.recent_commits_analyzed := Z.of_nat (length recent_commits);
            Report.recent_issues_analyzed := Z.of_nat (length recent_issues);
            Report.total_activity_events := None;
            Report.repository_stats := None;
            Report.top_contributor := None;
            Report.active_contributors := [];
            Report.top_contributor_percentage := Some (100 : Q);
            Report.activity_distribution := ∅ |}
  | top_contributor :: _ =>
      let total_activity_all := activity_sum sorted in
      let top_contributor_activity := total_activity (snd top_contributor) in
      let top_contributor_percentage :=
        percentage top_contributor_activity total_activity_all in
      let risk := concentration_risk top_contributor_percentage in
      let! infos := contributor_list total_activity_all sorted in
      let activity_distribution : gmap string Q :=
        <["top_1_contributor_percentage" := top_contributor_percentage]>
          (<["top_3_contributors_percentage" :=
               percentage (activity_sum (take 3 sorted)) total_activity_all]>
             (<["top_5_contributors_percentage" :=
                  percentage (activity_sum (take 5 sorted)) total_activity_all]>
                ∅)) in
      Ok {| Report.contributor_concentration_risk := risk;
            Report.total_active_contributors :=
              Z.of_nat (length active_contributors);
            Report.recent_commits_analyzed := Z.of_nat (length recent_commits);
            Report.recent_issues_analyzed := Z.of_nat (length recent_issues);
            Report.total_activity_events := Some total_activity_all;
            Report.repository_stats := Some repo_stats;
            Report.top_contributor :=
              Some {| Report.top_login := fst top_contributor;
                      Report.top_name := name (snd top_contributor);
                      Report.top_total_activity := top_contributor_activity;
                      Report.top_percentage := top_contributor_percentage |};
            Report.active_contributors := infos;
            Report.top_contributor_percentage := None;
            Report.activity_distribution := activity_distribution |}
  end.

End Analyzer.

(** ** Recommendation synthesizer *)

Definition abandonment_risk_message : string :=
  " ABANDONMENT RISK: Primary contributor (non-company email) shows declining activity - high risk of project abandonment".

Definition capacity_risk_message : string :=
  " CAPACITY RISK: Project heavily dependent on single non-company contributor - risk of burnout or 'Nebraska problem' (single point of failure)".

Definition recruit_message : string :=
  "Consider actively recruiting additional maintainers to reduce dependency on single contributor".

Definition monitor_message : string :=
  "Monitor contributor diversity - one person is doing a significant portion of the work".

Definition critical_count_message : string :=
  "Critical: Very few active contributors - prioritize community building and contributor recruitment".

Definition low_count_message : string :=
  "Low contributor count - consider ways to encourage more community participation".

Definition knowledge_sharing_message : string :=
  "Top 3 contributors handle most activity - implement knowledge sharing and mentoring programs".

Definition healthy_message : string :=
  "Project shows good contributor diversity and activity distribution".

Section Recommendations.

(** [f"{x:.1f}"], the float rendered with one decimal. *)
Variable format_1f : Q -> string.

Definition security_risk_message (avg_pr_close_time : Q) : string :=
  " SECURITY RISK: Average PR close time (" +:+ format_1f avg_pr_close_time
  +:+ " days) exceeds 5 days - security patches may not be applied quickly enough".

(** The abandonment / capacity block at the head of
    [_generate_recommendations]. *)
Definition primary_contributor_risk (risk_factors : Report.t) : list string :=
  let total_contributors := Report.total_active_contributors risk_factors in
  let concentration_risk := Report.contributor_concentration_risk risk_factors in
  let contributors := Report.active_contributors risk_factors in
  if PyNum.gt concentration_risk (1 # 2) && (total_contributors <=? 3) then
    match contributors with
    | top_contributor_data :: _ =>
        let email_type := Report.email_type top_contributor_data in
        let activity_trend := Report.activity_trend top_contributor_data in
        if PyStr.mem email_type ["personal"; "N/A"; "unknown"] then
          if String.eqb activity_trend "decreasing"
          then [abandonment_risk_message]
          else if PyStr.mem activity_trend ["stable"; "increasing"]
          then [capacity_risk_message]
          else []
        else []
    | [] => []
    end
  else [].

Definition _generate_recommendations (risk_factors : Report.t) : list string :=
  let total_contributors := Report.total_active_contributors risk_factors in
  let concentration_risk := Report.contributor_concentration_risk risk_factors in
  let recommendations := primary_contributor_risk risk_factors in
  let avg_pr_close_time :=
    match Report.repository_stats risk_factors with
    | Some repo_stats => Report.avg_pr_close_time_days repo_stats
    | None => None
    end in
  let recommendations :=
    match avg_pr_close_time with
    | Some avg =>
        if PyNum.gt avg 5
        then (recommendations ++ [security_risk_message avg])%list
        else recommendations
    | None => recommendations
    end in
  let recommendations :=
    if PyNum.gt concentration_risk (7 # 10)
    then (recommendations ++ [recruit_message])%list
    else if PyNum.gt concentration_risk (4 # 10)
    then (recommendations ++ [monitor_message])%list
    else recommendations in
  let recommendations :=
    if total_contributors <? 3
    then (recommendations ++ [critical_count_message])%list
    else if total_contributors <? 5
    then (recommendations ++ [low_count_message])%list
    else recommendations in
  let top_3_pct :=
    default (0 : Q)
      (Report.activity_distribution risk_factors
         !! "top_3_contributors_percentage") in
  let recommendations :=
    if PyNum.gt top_3_pct 80
    then (recommendations ++ [knowledge_sharing_message])%list
    else recommendations in
  match recommendations with
  | [] => [healthy_message]
  | _ :: _ => recommendations
  end.

End Recommendations.

(** ** Batch driver *)

(** The [risk_factors] dictionary of a [RiskAnalysis]: the report keys of a
    completed analysis, or the single key ["error"]. *)
Inductive risk_factor_dict : Type :=
| Factors (report : Report.t)
| ErrorOnly (error : string).

Record RiskAnalysis : Type := {
  repository : string;
  overall_risk_score : Q;
  risk_factors : risk_factor_dict;
  recommendations : list string;
  analysis_date : string
}.

(** What a call may raise: an instance of [Exception], which
    [except Exception] catches, or of [BaseException] only (interpreter exit,
    task cancellation), which it lets through.  [exception_str] is [str(e)]. *)
Record py_exception : Type := {
  is_Exception : bool;
  exception_str : string
}.

Inductive outcome (A : Type) : Type :=
| Returned (a : A)
| Raised (e : py_exception).

Arguments Returned {A} a.
Arguments Raised {A} e.

Section Batch.

(** The outside world (network, clock) is threaded through the calls.
    [analyze_single_repository] fetches over the network and is taken as
    given; [now_isoformat] is [datetime.now().isoformat()]. *)
Variable world : Type.
Variable analyze_single_repository :
  string -> world -> outcome RiskAnalysis * world.
Variable now_isoformat : world -> string.

Definition unable_to_analyze : string := "Unable to analyze repository".

(** The [except Exception] branch of [analyze_repositories]. *)
Definition error_analysis (repo_url : string) (e : py_exception) (w : world)
  : RiskAnalysis :=
  {| repository := repo_url;
     overall_risk_score := 1;
     risk_factors := ErrorOnly (exception_str e);
     recommendations := [unable_to_analyze];
     analysis_date := now_isoformat w |}.

(** The loop of [analyze_repositories], with [analyses] as accumulator. *)
Fixpoint analyze_loop (repo_urls : list string) (analyses : list RiskAnalysis)
    (w : world) : outcome (list RiskAnalysis) * world :=
  match repo_urls with
  | [] => (Returned analyses, w)
  | repo_url :: rest =>
      match analyze_single_repository repo_url w with
      | (Returned analysis, w') =>
          analyze_loop rest (analyses ++ [analysis])%list w'
      | (Raised e, w') =>
          if is_Exception e
          then analyze_loop rest (analyses ++ [error_analysis repo_url e w'])%list w'
          else (Raised e, w')
      end
  end.

Definition analyze_repositories (repo_urls : list string) (w : world)
  : outcome (list RiskAnalysis) * world :=
  analyze_loop repo_urls [] w.

(** The outcomes of the successive calls of [analyze_single_repository]
    that a batch over [repo_urls] makes when no call escapes the handler,
    each with the world it leaves behind. *)
Fixpoint call_trace (repo_urls : list string) (w : world)
  : list (outcome RiskAnalysis * world) :=
  match repo_urls with
  | [] => []
  | repo_url :: rest =>
      let r := analyze_single_repository repo_url w in
      r :: call_trace rest (snd r)
  end.

End Batch.

(** ** Vocabulary of the properties *)

(** [email] has an ['@'] somewhere. *)
Definition has_at (email : string) : Prop :=
  exists pre post, email = pre ++ "@" ++ post.

(** [domain] is the part of [email] after its last ['@']. *)
Definition domain_of (email domain : string) : Prop :=
  (exists pre, email = pre ++ "@" ++ domain) /\ ~ has_at domain.

Definition is_suffix_of (suffix s : string) : Prop :=
  exists p, s = p ++ suffix.


(** [d1] is [d] with the entry of [k] created or replaced by [c1]: every
    other entry is untouched and a new key goes to the end. *)
Definition stored (k : string) (c1 : contributor) (d d1 : ledger) : Prop :=
  Ledger.get k d1 = Some c1
  /\ (forall k', k' <> k -> Ledger.get k' d1 = Ledger.get k' d)
  /\ Ledger.keys d1
     = (Ledger.keys d ++ if Ledger.mem k d then [] else [k])%list.

(** Four quarterly slots, no negative counter. *)
Definition shape_ok (c : contributor) : Prop :=
  length (quarterly_activity c) = 4%nat
  /\ Forall (Z.le 0) (quarterly_activity c)
  /\ 0 <= commits c /\ 0 <= issues_created c /\ 0 <= prs_created c
  /\ 0 <= reviews_given c /\ 0 <= comments_made c.

(** At least one commit, issue, pull request or review. *)
Definition active (c : contributor) : Prop :=
  1 <= commits c + issues_created c + prs_created c + reviews_given c.

Definition entry_ok (c : contributor) : Prop := shape_ok c /\ active c.

(** The ledger is a dictionary (no key twice) of well-formed entries. *)
Definition ledger_ok (d : ledger) : Prop :=
  NoDup (Ledger.keys d)
  /\ forall k c, Ledger.get k d = Some c -> entry_ok c.

(** Slot [j] of a quarterly vector, 0 outside. *)
Definition slot (j : Z) (quarters : list Z) : Z :=
  if j <? 0 then 0 else nth (Z.to_nat j) quarters 0.

(** The entry after [if quarter is not None: ...[quarter] += 1]. *)
Definition bumped (quarter : option Z) (c : contributor) : contributor :=
  match quarter with
  | Some q =>
      set_quarterly_activity
        (<[Z.to_nat q := slot q (quarterly_activity c) + 1]>
           (quarterly_activity c)) c
  | None => c
  end.

(** A bucket is absent or one of 0, 1, 2, 3. *)
Definition quarter_in_range (quarter : option Z) : Prop :=
  match quarter with
  | Some q => 0 <= q <= 3
  | None => True
  end.

(** The login under which a commit is booked: the linked account, else the
    raw author name, else the placeholder ["unknown"]. *)
Definition commit_author (commit : commit_record) : string :=
  let author_login := default "unknown" (commit_login commit) in
  let author_name := default "Unknown" (commit_name commit) in
  if String.eqb author_login "unknown" && negb (String.eqb author_name "Unknown")
  then author_name else author_login.

(** The bot test as the commit loop applies it. *)
Definition commit_is_bot (commit : commit_record) : bool :=
  _is_bot_account (commit_author commit)
    (default "Unknown" (commit_name commit))
    (default "" (commit_email commit)).

(** The author of an issue or pull request is known and passes the bot
    test of the issue loop. *)
Definition issue_author (issue : issue_record) : string :=
  default "unknown" (issue_login issue).

Definition issue_is_tracked (issue : issue_record) : bool :=
  negb (String.eqb (issue_author issue) "unknown")
  && negb (_is_bot_account (issue_author issue) "" "").

(** The review is by a known, non-bot login other than [author_login]. *)
Definition reviewer (review : review_record) : string :=
  default "unknown" (review_login review).

Definition review_counts (author_login : string) (review : review_record) : bool :=
  negb (String.eqb (reviewer review) "unknown")
  && negb (_is_bot_account (reviewer review) "" "")
  && negb (String.eqb (reviewer review) author_login).

(** An integer read-out of an entry (a counter, a quarterly slot), and its
    value for a login, 0 when the login has no entry. *)
Definition counter : Type := contributor -> Z.

Definition count_of (f : counter) (login : string) (d : ledger) : Z :=
  match Ledger.get login d with
  | Some c => f c
  | None => 0
  end.

Definition starts_at_zero (f : counter) : Prop :=
  forall n e t, f (new_contributor n e t) = 0.

(** On well-formed entries, [g] moves the read-out [f] by [delta]. *)
Definition steps_by (f : counter) (g : contributor -> contributor) (delta : Z)
  : Prop :=
  forall c, shape_ok c -> f (g c) = f c + delta.

Definition quarter_slot (j : Z) : counter :=
  fun c => slot j (quarterly_activity c).

(** 1 when the bucket is [j], else 0. *)
Definition in_quarter (quarter : option Z) (j : Z) : Z :=
  match quarter with
  | Some q => if q =? j then 1 else 0
  | None => 0
  end.

(** How many of [reviews], on a record by [author_login], count as a review
    given by [login]. *)
Definition reviews_by (login author_login : string)
    (reviews : list review_record) : Z :=
  Z.of_nat
    (length
       (List.filter
          (fun review =>
             review_counts author_login review
             && String.eqb (reviewer review) login)
          reviews)).

(** How often [login] occurs in a list of participants. *)
Definition occurrences (login : string) (participants : list string) : Z :=
  Z.of_nat
    (length (List.filter (fun p => String.eqb p login) participants)).

(** The share of one human participant of a record:
    [max(1, comments // len(human_participants))]. *)
Definition comment_share (issue : issue_record) : Z :=
  Z.max 1
    (issue_comments issue
     / Z.of_nat (length (human_participants (issue_participants issue)))).

(** How many shares of the record's comments go to [login] when it has an
    entry: none unless the comment count is positive, else one for each of
    its occurrences among the human participants. *)
Definition comment_hits (login : string) (issue : issue_record) : Z :=
  if issue_comments issue >? 0
  then occurrences login (human_participants (issue_participants issue))
  else 0.

(** What the author of a tracked record is credited with. *)
Definition author_step (issue : issue_record) (c : contributor) : contributor :=
  if issue_pull_request issue then add_prs_created 1 c
  else add_issues_created 1 c.

(** The bucket of a date when [get_quarter] returns one. *)
Definition quarter_or_none (analysis_window_days now : Z) (date_obj : option Z)
  : option Z :=
  match get_quarter analysis_window_days now date_obj with
  | Ok quarter => quarter
  | Raise _ => None
  end.

Definition sum_over {A : Type} (g : A -> Z) (xs : list A) : Z :=
  fold_right (fun x acc => g x + acc) 0 xs.

(** The commit is booked under [login]. *)
Definition commit_counts_for (login : string) (commit : commit_record) : bool :=
  negb (commit_is_bot commit) && String.eqb (commit_author commit) login.

(** The trend rule in the words of the specification, for the quarterly
    buckets [q0] (oldest) to [q3] (newest) and the total activity. *)
Definition trend_as_specified (q0 q1 q2 q3 total : Z) (label : string) : Prop :=
  let recent := q2 + q3 in
  let older := q0 + q1 in
  (total < 10 -> label = "insufficient_data")
  /\ (10 <= total ->
      (older = 0 /\ 0 < recent -> label = "increasing")
      /\ (recent = 0 /\ 0 < older -> label = "decreasing")
      /\ (older = 0 /\ recent = 0 -> label = "stable")
      /\ (~ (older = 0 /\ 0 < recent) -> ~ (recent = 0 /\ 0 < older) ->
          ~ (older = 0 /\ recent = 0) ->
          let ratio := (inject_Z recent / inject_Z older)%Q in
          ((3 # 2) < ratio -> label = "increasing")%Q
          /\ (ratio < (67 # 100) -> label = "decreasing")%Q
          /\ (~ (3 # 2) < ratio -> ~ ratio < (67 # 100) -> label = "stable")%Q)).

(** Sum of the five counters of an entry. *)
Definition five_counters (c : contributor) : Z :=
  commits c + issues_created c + prs_created c + reviews_given c
  + comments_made c.

(** ** Sample records *)

Definition commit_by (login email : string) (date : Z) : commit_record :=
  {| commit_login := Some login; commit_name := Some login;
     commit_email := Some email; commit_date := Some date |}.

Definition review_by (login : string) : review_record :=
  {| review_login := Some login; review_submitted_at := None |}.

(** A pull request opened at instant 0. *)
Definition pull_request_by (login : string) (reviews : list review_record)
    (comments : Z) (participants : list string) : issue_record :=
  {| issue_login := Some login; issue_created_at := Some 0;
     issue_closed_at := None; issue_pull_request := true;
     issue_reviews := reviews; issue_comments := comments;
     issue_participants := participants |}.

(** A pull request opened by a bot and reviewed by a person. *)
Definition bot_pull_request : issue_record :=
  pull_request_by "dependabot[bot]" [review_by "alice"] 0 [].

(** A pull request with nine comments whose participants are its author
    and two people who have no entry. *)
Definition discussed_pull_request : issue_record :=
  pull_request_by "alice" [] 9 ["alice"; "bob"; "carol"].

(** Twelve commits of one person, today. *)
Definition twelve_commits : list commit_record :=
  repeat (commit_by "alice" "alice@gmail.com" 0) 12.

(** ** The claims on the ledger, read literally *)

(** The ledger holds exactly the known, non-bot logins that occur as commit
    author, as issue or pull-request author, or as reviewer in the window. *)
Definition ledger_logins_as_claimed (custom_domains : list string)
    (analysis_window_days now_commits now_issues now : Z)
    (commits : list commit_record) (issues : list issue_record) : Prop :=
  forall d,
    aggregate custom_domains analysis_window_days now_commits now_issues now
      commits issues = Ok d ->
    forall l,
      In l (Ledger.keys d)
      <-> l <> "unknown"
          /\ ((exists commit,
                 In commit (_filter_recent_commits analysis_window_days
                              now_commits commits)
                 /\ commit_author commit = l /\ commit_is_bot commit = false)
              \/ (exists issue,
                    In issue (_filter_recent_issues analysis_window_days
                                now_issues issues)
                    /\ issue_author issue = l
                    /\ _is_bot_account l "" "" = false)
              \/ (exists issue review,
                    In issue (_filter_recent_issues analysis_window_days
                                now_issues issues)
                    /\ In review (issue_reviews issue)
                    /\ reviewer review = l
                    /\ _is_bot_account l "" "" = false)).

(** Every review on an in-window pull request by a known, non-bot reviewer
    other than the author is counted for the reviewer. *)
Definition every_review_is_credited (custom_domains : list string)
    (analysis_window_days now_commits now_issues now : Z)
    (commits : list commit_record) (issues : list issue_record) : Prop :=
  forall d issue review l,
    aggregate custom_domains analysis_window_days now_commits now_issues now
      commits issues = Ok d ->
    In issue (_filter_recent_issues analysis_window_days now_issues issues) ->
    issue_pull_request issue = true ->
    In review (issue_reviews issue) ->
    review_login review = Some l ->
    l <> "unknown" -> _is_bot_account l "" "" = false ->
    l <> issue_author issue ->
    Ledger.mem l d = true /\ 1 <= count_of reviews_given l d.

(** Every human participant of a record with comments receives the share
    [max(1, comments // humans)]. *)
Definition every_participant_gets_a_share (analysis_window_days now : Z)
    (issue : issue_record) (d : ledger) : Prop :=
  forall d1,
    track_issue analysis_window_days now issue d = Ok d1 ->
    1 <= issue_comments issue ->
    forall p,
      In p (human_participants (issue_participants issue)) ->
      count_of comments_made p d1
      = count_of comments_made p d + comment_share issue.

(** Statistics of a repository without issues or pull requests. *)
Definition no_statistics (issues : list issue_record)
    (commits : list commit_record) : Report.repository_statistics :=
  {| Report.total_issues := 0; Report.total_prs := 0;
     Report.closed_issues := 0; Report.closed_prs := 0;
     Report.avg_issue_close_time_days := None;
     Report.avg_pr_close_time_days := None;
     Report.avg_response_time_days := None;
     Report.total_commits := Z.of_nat (length commits);
     Report.commit_frequency_per_day := 0 |}.

(** Twelve commits of one person with a university address, all of them
    three hundred days old. *)
Definition academic_commits : list commit_record :=
  repeat (commit_by "alice" "alice@mit.edu" (-300 * day)) 12.

(** The risk-factor bundle that the analysis of [academic_commits] returns:
    one contributor, with a university address and a declining trend, does
    all the work. *)
Definition academic_bundle : Report.t :=
  {| Report.contributor_concentration_risk := 1;
     Report.total_active_contributors := 1;
     Report.recent_commits_analyzed := 12;
     Report.recent_issues_analyzed := 0;
     Report.total_activity_events := Some 12;
     Report.repository_stats := Some (no_statistics [] academic_commits);
     Report.top_contributor :=
       Some {| Report.top_login := "alice"; Report.top_name := "alice";
               Report.top_total_activity := 12;
               Report.top_percentage := 1200 # 12 |};
     Report.active_contributors :=
       [ {| Report.login := "alice"; Report.name := "alice";
            Report.email := "alice@mit.edu"; Report.email_type := "academic";
            Report.breakdown :=
              {| Report.commits := 12; Report.issues_created := 0;
                 Report.prs_created := 0; Report.reviews_given := 0;
                 Report.comments_made := 0 |};
            Report.total_activity := 12;
            Report.activity_percentage := 1200 # 12;
            Report.quarterly_activity := [12; 0; 0; 0];
            Report.activity_trend := "decreasing" |} ];
     Report.top_contributor_percentage := None;
     Report.activity_distribution :=
       <["top_1_contributor_percentage" := 1200 # 12]>
         (<["top_3_contributors_percentage" := 1200 # 12]>
            (<["top_5_contributors_percentage" := 1200 # 12]> ∅)) |}.

(** ** The claims on the report, read literally *)

(** With a concentration risk above 0.5 and at most three contributors, a
    top contributor whose email category is not ["company"] triggers the
    abandonment message on a decreasing trend and the capacity message on a
    stable or increasing one; a ["company"] category triggers neither. *)
Definition primary_risk_as_claimed (format_1f : Q -> string)
    (risk_factors : Report.t) : Prop :=
  forall top rest,
    Report.active_contributors risk_factors = top :: rest ->
    (1 # 2 < Report.contributor_concentration_risk risk_factors)%Q ->
    Report.total_active_contributors risk_factors <= 3 ->
    let recommendations := _generate_recommendations format_1f risk_factors in
    (Report.email_type top <> "company" ->
     (Report.activity_trend top = "decreasing" ->
      In abandonment_risk_message recommendations)
     /\ (Report.activity_trend top = "stable"
         \/ Report.activity_trend top = "increasing" ->
         In capacity_risk_message recommendations))
    /\ (Report.email_type top = "company" ->
        ~ In abandonment_risk_message recommendations
        /\ ~ In capacity_risk_message recommendations).

(** With an empty ledger the risk is 1 and every distribution figure,
    the top-contributor percentage included, is zero or empty. *)
Definition empty_ledger_figures_as_claimed (custom_domains : list string)
    (analysis_window_days now_commits now_issues now : Z)
    (statistics :
       list issue_record -> list commit_record -> Report.repository_statistics)
    (raw_commits : list commit_record) (raw_issues : list issue_record)
  : Prop :=
  aggregate custom_domains analysis_window_days now_commits now_issues now
    raw_commits raw_issues = Ok [] ->
  exists report,
    _analyze_contributor_concentration custom_domains analysis_window_days
      now_commits now_issues now statistics raw_commits raw_issues = Ok report
    /\ (Report.contributor_concentration_risk report == 1)%Q
    /\ Report.total_active_contributors report = 0
    /\ Report.active_contributors report = []
    /\ Report.activity_distribution report = ∅
    /\ (forall pct, Report.top_contributor_percentage report = Some pct ->
                    (pct == 0)%Q).

(** ** Vocabulary of the scorer *)

(** [x] brought into the interval from [lo] to [hi]. *)
Definition clamp (x lo hi : Q) : Q := Qmax lo (Qmin hi x).

(** [top] is an entry of [d] that no entry exceeds in total activity. *)
Definition is_top_entry (top : string * contributor) (d : ledger) : Prop :=
  In top d
  /\ forall e, In e d -> total_activity (snd e) <= total_activity (snd top).

(** The share of the top entry, in percent. *)
Definition top_share (top : string * contributor) (d : ledger) : Q :=
  (inject_Z (total_activity (snd top)) / inject_Z (activity_sum d) * 100)%Q.

(** Later entries never exceed earlier ones. *)
Definition by_total_descending (x y : string * contributor) : Prop :=
  total_activity (snd y) <= total_activity (snd x).

(** ** Vocabulary of the batch driver *)

(** The report that the batch holds for [repo_url] after the call with
    outcome [r]. *)
Definition report_of {world : Type} (now_isoformat : world -> string)
    (repo_url : string) (r : outcome RiskAnalysis * world) : RiskAnalysis :=
  match r with
  | (Returned analysis, _) => analysis
  | (Raised e, w') => error_analysis world now_isoformat repo_url e w'
  end.

(** The call returned, or what it raised is an [Exception]. *)
Definition handled {world : Type} (r : outcome RiskAnalysis * world) : Prop :=
  match fst r with
  | Returned _ => True
  | Raised e => is_Exception e = true
  end.

(** A sample analyzer over a world that counts the calls made: the
    identifier ["broken/repo"] fails with a fetch error, every other one
    yields a low-risk analysis. *)
Definition sample_analysis (repo_url : string) : RiskAnalysis :=
  {| repository := repo_url; overall_risk_score := 0;
     risk_factors := ErrorOnly ""; recommendations := [healthy_message];
     analysis_date := "" |}.

Definition sample_analyzer (repo_url : string) (calls : nat)
  : outcome RiskAnalysis * nat :=
  if String.eqb repo_url "broken/repo"
  then (Raised {| is_Exception := true; exception_str := "404 Not Found" |},
        S calls)
  else (Returned (sample_analysis repo_url), S calls).

(** A commit without linked account and without author name. *)
Definition anonymous_commit : commit_record :=
  {| commit_login := None; commit_name := None; commit_email := None;
     commit_date := Some 0 |}.

(** The bundle of a sole contributor whose commits carry no address. *)
Definition no_email_bundle : Report.t :=
  {| Report.contributor_concentration_risk := 1;
     Report.total_active_contributors := 1;
     Report.recent_commits_analyzed := 12;
     Report.recent_issues_analyzed := 0;
     Report.total_activity_events := Some 12;
     Report.repository_stats := None;
     Report.top_contributor := None;
     Report.active_contributors :=
       [ {| Report.login := "alice"; Report.name := "alice";
            Report.email := ""; Report.email_type := no_email_available;
            Report.breakdown :=
              {| Report.commits := 12; Report.issues_created := 0;
                 Report.prs_created := 0; Report.reviews_given := 0;
                 Report.comments_made := 0 |};
            Report.total_activity := 12;
            Report.activity_percentage := 100;
            Report.quarterly_activity := [12; 0; 0; 0];
            Report.activity_trend := "decreasing" |} ];
     Report.top_contributor_percentage := None;
     Report.activity_distribution := ∅ |}.

(** * Further vocabulary *)

(** ** Conditions of the recommendations *)

(** [repo_stats.get("avg_pr_close_time_days")] of a bundle. *)
Definition avg_pr_close_time (risk_factors : Report.t) : option Q :=
  match Report.repository_stats risk_factors with
  | Some repo_stats => Report.avg_pr_close_time_days repo_stats
  | None => None
  end.

(** [activity_dist.get("top_3_contributors_percentage", 0)] of a bundle. *)
Definition top_3_pct (risk_factors : Report.t) : Q :=
  default (0 : Q)
    (Report.activity_distribution risk_factors
       !! "top_3_contributors_percentage").

(** ** Vocabulary of the report *)

Definition breakdown_sum (b : Report.activity_breakdown) : Z :=
  Report.commits b + Report.issues_created b + Report.prs_created b
  + Report.reviews_given b + Report.comments_made b.

(** Later contributors of the report never exceed earlier ones. *)
Definition info_descending (x y : Report.contributor_info) : Prop :=
  Report.total_activity y <= Report.total_activity x.

(** The listed contributor renders the ledger entry. *)
Definition renders (total : Z) (entry : string * contributor)
    (info : Report.contributor_info) : Prop :=
  contributor_info_of total entry = Ok info.

(** ** Vocabulary of the counters *)

(** How many elements of [xs] satisfy [p]. *)
Definition count_where {A : Type} (p : A -> bool) (xs : list A) : Z :=
  Z.of_nat (length (List.filter p xs)).

(** The record is tracked, opened by [login], and is (not) a pull request. *)
Definition opened_by (login : string) (pull_request : bool)
    (issue : issue_record) : bool :=
  issue_is_tracked issue
  && String.eqb (issue_author issue) login
  && Bool.eqb (issue_pull_request issue) pull_request.

(** 1 when the date got no bucket, else 0. *)
Definition no_bucket (quarter : option Z) : Z :=
  match quarter with
  | Some _ => 0
  | None => 1
  end.

(** The activities of an entry that a quarterly slot can hold, minus the
    four slots. *)
Definition unbucketed : counter :=
  fun c =>
    commits c + issues_created c + prs_created c + reviews_given c
    - (quarter_slot 0 c + quarter_slot 1 c + quarter_slot 2 c
       + quarter_slot 3 c).

(** The date lies after [now]. *)
Definition dated_after (now : Z) (date : option Z) : bool :=
  match date with
  | Some t => now <? t
  | None => false
  end.

(** An issue opened at instant 0. *)
Definition issue_by (login : string) : issue_record :=
  {| issue_login := Some login; issue_created_at := Some 0;
     issue_closed_at := None; issue_pull_request := false;
     issue_reviews := []; issue_comments := 0; issue_participants := [] |}.

(** Two commits of one person, one of them dated a day ahead of the clock. *)
Definition commits_with_a_late_one : list commit_record :=
  [commit_by "alice" "alice@gmail.com" 0;
   commit_by "alice" "alice@gmail.com" (2 * day)].

(** ** Vocabulary of the window *)

(** [(now - date_obj).days] *)
Definition elapsed_days (now t : Z) : Z := (now - t) / day.

(** The date is at most [analysis_window_days] whole days old and not ahead
    of the clock. *)
Definition falls_in_window (analysis_window_days now : Z) (date : option Z)
  : bool :=
  match date with
  | Some t =>
      (0 <=? elapsed_days now t) && (elapsed_days now t <=? analysis_window_days)
  | None => false
  end.

(** The records whose date the aggregation passes to [get_quarter] and
    finds inside the window. *)
Definition commit_is_bucketed (analysis_window_days now : Z)
    (commit : commit_record) : bool :=
  negb (commit_is_bot commit)
  && falls_in_window analysis_window_days now (commit_date commit).

Definition issue_is_bucketed (analysis_window_days now : Z)
    (issue : issue_record) : bool :=
  issue_is_tracked issue
  && falls_in_window analysis_window_days now (issue_created_at issue).

(** The bucket by age in whole days, quarters of [quarter_length] days
    counted back from today. *)
Definition bucket_by_age (quarter_length days_ago : Z) : Z :=
  if days_ago <? quarter_length then 3
  else if days_ago <? 2 * quarter_length then 2
  else if days_ago <? 3 * quarter_length then 1
  else 0.

(** ** Vocabulary of letter case *)

Definition capital_letters : string := "ABCDEFGHIJKLMNOPQRSTUVWXYZ".
Definition small_letters : string := "abcdefghijklmnopqrstuvwxyz".

(** The letter of [smalls] that stands where [c] stands in [capitals], or
    [c] itself when it is not among them. *)
Fixpoint small_of (capitals smalls : string) (c : ascii) : ascii :=
  match capitals, smalls with
  | String capital capitals', String small smalls' =>
      if Ascii.eqb c capital then small else small_of capitals' smalls' c
  | _, _ => c
  end.

(** A word with each of its capital letters A to Z replaced by the small
    letter; every other character stays. *)
Fixpoint lowercase (word : string) : string :=
  match word with
  | EmptyString => EmptyString
  | String c word' =>
      String (small_of capital_letters small_letters c) (lowercase word')
  end.

(** The word is written in ASCII characters only (codes 0 to 127), on
    which [str.lower()] changes nothing but the letters A to Z. *)
Definition ascii_only (word : string) : Prop :=
  forallb (fun c => (nat_of_ascii c <? 128)%nat) (list_ascii_of_string word)
  = true.

(** ** Vocabulary of the bot test *)

(** [needle] occurs somewhere in [hay]. *)
Definition occurs_in (needle hay : string) : Prop :=
  exists pre post, hay = pre ++ needle ++ post.

(** Some keyword of the list occurs in the word once its capital letters
    are made small. *)
Definition has_keyword (keywords : list string) (word : string) : Prop :=
  exists keyword, In keyword keywords /\ occurs_in keyword (lowercase word).

(** ** Repository identifiers *)

Module PyUrl.

(** [s.lstrip(c)] for a one-character set. *)
Fixpoint lstrip (c : ascii) (s : string) : string :=
  match s with
  | EmptyString => EmptyString
  | String a s' => if Ascii.eqb a c then lstrip c s' else s
  end.

(** [s.rstrip(c)] for a one-character set. *)
Fixpoint rstrip (c : ascii) (s : string) : string :=
  match s with
  | EmptyString => EmptyString
  | String a s' =>
      match rstrip c s' with
      | EmptyString => if Ascii.eqb a c then EmptyString else String a EmptyString
      | r => String a r
      end
  end.

(** [s.strip(c)] *)
Definition strip (c : ascii) (s : string) : string := rstrip c (lstrip c s).

(** [s.replace(needle, '')] for a non-empty [needle]: the occurrences are
    found from the left and do not overlap; [skip] counts the characters of
    a found occurrence that are still to be dropped. *)
Fixpoint remove_from (needle : string) (skip : nat) (s : string) : string :=
  match s with
  | EmptyString => EmptyString
  | String a s' =>
      match skip with
      | S k => remove_from needle k s'
      | O =>
          if String.prefix needle s
          then remove_from needle (String.length needle - 1) s'
          else String a (remove_from needle 0 s')
      end
  end.

Definition remove (needle s : string) : string := remove_from needle 0 s.

(** [xs[-k]] for [k >= 1]; [None] stands for [IndexError]. *)
Definition item_from_end {A : Type} (xs : list A) (k : nat) : option A :=
  if (length xs <? k)%nat then None else xs !! (length xs - k)%nat.

End PyUrl.

Inductive url_exn : Type :=
| UrlIndexError
| UrlValueError.

Inductive parse_outcome : Type :=
| Parsed (owner repo : string)
| ParseRaise (e : url_exn).

(** [_parse_github_url]: a failed tuple unpacking raises [ValueError], a
    missing list item [IndexError]. *)
Definition _parse_github_url (repo_url : string) : parse_outcome :=
  if PyStr.contains "github.com" repo_url then
    let parts := PyStr.split "/"%char (PyUrl.strip "/"%char repo_url) in
    match PyUrl.item_from_end parts 2 with
    | None => ParseRaise UrlIndexError
    | Some owner =>
        match PyUrl.item_from_end parts 1 with
        | None => ParseRaise UrlIndexError
        | Some last => Parsed owner (PyUrl.remove ".git" last)
        end
    end
  else
    match PyStr.split "/"%char repo_url with
    | [owner; repo] => Parsed owner repo
    | _ => ParseRaise UrlValueError
    end.

(** The character does not occur in the string. *)
Definition char_free (c : ascii) (s : string) : Prop :=
  ~ In c (list_ascii_of_string s).

(** [n] copies of a character. *)
Fixpoint repeat_char (c : ascii) (n : nat) : string :=
  match n with
  | O => EmptyString
  | S n' => String c (repeat_char c n')
  end.

(** [sep.join(pieces)] *)
Fixpoint join (sep : ascii) (pieces : list string) : string :=
  match pieces with
  | [] => EmptyString
  | piece :: rest =>
      match rest with
      | [] => piece
      | _ :: _ => piece ++ String sep (join sep rest)
      end
  end.

(** ** Repository statistics *)

(** The counters and the three lists of close times that the loop of
    [_calculate_repository_statistics] keeps. *)
Record close_times : Type := {
  seen_issues : Z;
  seen_prs : Z;
  seen_closed_issues : Z;
  seen_closed_prs : Z;
  issue_close_times : list Q;
  pr_close_times : list Q;
  response_times : list Q
}.

Definition no_close_times : close_times :=
  {| seen_issues := 0; seen_prs := 0; seen_closed_issues := 0;
     seen_closed_prs := 0; issue_close_times := []; pr_close_times := [];
     response_times := [] |}.

(** [(closed_at - created_at).total_seconds() / (24 * 3600)] *)
Definition close_time_days (created_at closed_at : Z) : Q :=
  (inject_Z (closed_at - created_at) / 1000000 / inject_Z (24 * 3600))%Q.

(** One iteration of the loop over the issues; a record without a readable
    [created_at] is skipped, one without a readable [closed_at] is counted
    as open. *)
Definition record_issue (st : close_times) (issue : issue_record) : close_times :=
  match issue_created_at issue with
  | None => st
  | Some created_at =>
      let is_pr := issue_pull_request issue in
      let st :=
        if is_pr
        then {| seen_issues := seen_issues st; seen_prs := seen_prs st + 1;
                seen_closed_issues := seen_closed_issues st;
                seen_closed_prs := seen_closed_prs st;
                issue_close_times := issue_close_times st;
                pr_close_times := pr_close_times st;
                response_times := response_times st |}
        else {| seen_issues := seen_issues st + 1; seen_prs := seen_prs st;
                seen_closed_issues := seen_closed_issues st;
                seen_closed_prs := seen_closed_prs st;
                issue_close_times := issue_close_times st;
                pr_close_times := pr_close_times st;
                response_times := response_times st |} in
      match issue_closed_at issue with
      | None => st
      | Some closed_at =>
          let days := close_time_days created_at closed_at in
          let response_time_days := close_time_days created_at closed_at in
          if is_pr
          then {| seen_issues := seen_issues st; seen_prs := seen_prs st;
                  seen_closed_issues := seen_closed_issues st;
                  seen_closed_prs := seen_closed_prs st + 1;
                  issue_close_times := issue_close_times st;
                  pr_close_times := (pr_close_times st ++ [days])%list;
                  response_times :=
                    (response_times st ++ [response_time_days])%list |}
          else {| seen_issues := seen_issues st; seen_prs := seen_prs st;
                  seen_closed_issues := seen_closed_issues st + 1;
                  seen_closed_prs := seen_closed_prs st;
                  issue_close_times := (issue_close_times st ++ [days])%list;
                  pr_close_times := pr_close_times st;
                  response_times :=
                    (response_times st ++ [response_time_days])%list |}
      end
  end.

Section Statistics.

(** [self.analysis_window_days] and [round(x, 2)]. *)
Variable analysis_window_days : Z.
Variable round2 : Q -> Q.

(** [round(sum(xs) / len(xs), 2)] if [xs] is not empty, else [None]. *)
Definition average (xs : list Q) : option Q :=
  match xs with
  | [] => None
  | _ :: _ =>
      Some (round2 (fold_left Qplus xs 0 / inject_Z (Z.of_nat (length xs))))%Q
  end.

Definition _calculate_repository_statistics (issues : list issue_record)
    (commits : list commit_record) : Report.repository_statistics :=
  match issues with
  | [] =>
      {| Report.total_issues := 0; Report.total_prs := 0;
         Report.closed_issues := 0; Report.closed_prs := 0;
         Report.avg_issue_close_time_days := None;
         Report.avg_pr_close_time_days := None;
         Report.avg_response_time_days := None;
         Report.total_commits := Z.of_nat (length commits);
         Report.commit_frequency_per_day := 0 |}
  | _ :: _ =>
      let st := fold_left record_issue issues no_close_times in
      {| Report.total_issues := seen_issues st;
         Report.total_prs := seen_prs st;
         Report.closed_issues := seen_closed_issues st;
         Report.closed_prs := seen_closed_prs st;
         Report.avg_issue_close_time_days := average (issue_close_times st);
         Report.avg_pr_close_time_days := average (pr_close_times st);
         Report.avg_response_time_days := average (response_times st);
         Report.total_commits := Z.of_nat (length commits);
         Report.commit_frequency_per_day :=
           if analysis_window_days >? 0
           then round2 (PyNum.truediv (Z.of_nat (length commits))
                          analysis_window_days)
           else 0 |}
  end.

End Statistics.

(** The record has a creation date, is (not) a pull request, and, when
    [closed] is set, has a closing date. *)
Definition is_counted (pull_request closed : bool) (issue : issue_record) : bool :=
  match issue_created_at issue with
  | None => false
  | Some _ =>
      Bool.eqb (issue_pull_request issue) pull_request
      && (negb closed
          || match issue_closed_at issue with Some _ => true | None => false end)
  end.

(** The close times, in days, of the dated and closed records. *)
Definition closed_days (issue : issue_record) : list Q :=
  match issue_created_at issue, issue_closed_at issue with
  | Some created_at, Some closed_at => [close_time_days created_at closed_at]
  | _, _ => []
  end.

(** An issue opened at instant 0 and closed two days later. *)
Definition closed_issue : issue_record :=
  {| issue_login := Some "alice"; issue_created_at := Some 0;
     issue_closed_at := Some (2 * day); issue_pull_request := false;
     issue_reviews := []; issue_comments := 0; issue_participants := [] |}.

(** The close times of the issues ([pull_request = false]) or of the pull
    requests of a list, in its order. *)
Definition close_times_of (pull_request : bool) (issues : list issue_record)
  : list Q :=
  flat_map
    (fun issue =>
       if Bool.eqb (issue_pull_request issue) pull_request
       then closed_days issue else [])
    issues.

(** ** The tool handler of [app.py] *)

(** The ["summary"] object of the reply. *)
Record risk_summary : Type := {
  total_repositories : Z;
  high_risk_count : Z;
  medium_risk_count : Z;
  low_risk_count : Z
}.

(** One element of the ["analyses"] list of the reply. *)
Record analysis_entry : Type := {
  entry_repository : string;
  entry_overall_risk_score : Q;
  risk_level : string;
  key_risk_factors : risk_factor_dict;
  entry_recommendations : list string;
  entry_analysis_date : string
}.

(** The text of the reply: a plain message, or the serialised results. *)
Inductive reply_text : Type :=
| Message (text : string)
| Results (summary : risk_summary) (analyses : list analysis_entry).

(** ["High" if score > 0.7 else "Medium" if score > 0.3 else "Low"] *)
Definition risk_level_of (score : Q) : string :=
  if PyNum.gt score (7 # 10) then "High"
  else if PyNum.gt score (3 # 10) then "Medium"
  else "Low".

(** [sum(1 for a in analyses if cond(a))] *)
Definition count_if (cond : RiskAnalysis -> bool) (analyses : list RiskAnalysis)
  : Z :=
  PyList.sum (map (fun _ => 1) (List.filter cond analyses)).

Section Handler.

Variable world : Type.
Variable analyze_single_repository :
  string -> world -> outcome RiskAnalysis * world.
Variable now_isoformat : world -> string.

(** [round(x, 3)] *)
Variable round3 : Q -> Q.

Definition summary_of (analyses : list RiskAnalysis) : risk_summary :=
  {| total_repositories := Z.of_nat (length analyses);
     high_risk_count :=
       count_if (fun a => PyNum.gt (overall_risk_score a) (7 # 10)) analyses;
     medium_risk_count :=
       count_if
         (fun a =>
            PyNum.lt (3 # 10) (overall_risk_score a)
            && Qle_bool (overall_risk_score a) (7 # 10))
         analyses;
     low_risk_count :=
       count_if (fun a => Qle_bool (overall_risk_score a) (3 # 10)) analyses |}.

Definition entry_of (a : RiskAnalysis) : analysis_entry :=
  {| entry_repository := repository a;
     entry_overall_risk_score := round3 (overall_risk_score a);
     risk_level := risk_level_of (overall_risk_score a);
     key_risk_factors := risk_factors a;
     entry_recommendations := recommendations a;
     entry_analysis_date := analysis_date a |}.

(** [handle_call_tool] of [app.py]; [repositories] is the argument of that
    name, [None] when it is absent. *)
Definition handle_call_tool (name : string) (repositories : option (list string))
    (w : world) : outcome reply_text * world :=
  if String.eqb name "analyze_project_risk" then
    let repositories := default [] repositories in
    match repositories with
    | [] => (Returned (Message "Error: No repositories provided for analysis"), w)
    | _ :: _ =>
        match analyze_repositories world analyze_single_repository now_isoformat
                repositories w with
        | (Returned analyses, w') =>
            (Returned (Results (summary_of analyses) (map entry_of analyses)), w')
        | (Raised e, w') =>
            if is_Exception e
            then (Returned
                    (Message ("Error analyzing repositories: " ++ exception_str e)),
                  w')
            else (Raised e, w')
        end
    end
  else (Returned (Message ("Unknown tool: " ++ name)), w).

End Handler.

(** The call failed. *)
Definition call_failed {world : Type} (r : outcome RiskAnalysis * world) : bool :=
  match fst r with
  | Returned _ => false
  | Raised _ => true
  end.

(** The entry carries the label. *)
Definition has_level (level : string) (entry : analysis_entry) : bool :=
  String.eqb (risk_level entry) level.

(** ** One repository *)

Section Single.

(** The outside world is threaded through the calls.  The four fetches and
    the sentiment pass talk to the network and are taken as given, each
    returning or raising; [read_clock] is [datetime.now()], in
    microseconds, and [now_isoformat] is [datetime.now().isoformat()].
    [exn_message] and [url_exn_message] are [str(e)] of the exceptions that
    the analysis and the identifier parser raise, [format_1f] and [round2]
    are the float formatting of the messages and [round(x, 2)]. *)
Variable world : Type.
Variable repo_data contributors_data : Type.
Variable custom_domains : list string.
Variable analysis_window_days : Z.
Variable _fetch_repository_data :
  string -> string -> world -> outcome repo_data * world.
Variable _fetch_commits_data :
  string -> string -> world -> outcome (list commit_record) * world.
Variable _fetch_contributors_data :
  string -> string -> world -> outcome contributors_data * world.
Variable _fetch_issues_data :
  string -> string -> world -> outcome (list issue_record) * world.
Variable _analyze_contributor_sentiment :
  string -> string -> ledger -> world -> outcome unit * world.
Variable read_clock : world -> Z * world.
Variable now_isoformat : world -> string.
Variable exn_message : exn -> string.
Variable url_exn_message : url_exn -> string.
Variable format_1f : Q -> string.
Variable round2 : Q -> Q.

(** An exception of the analyzer's own code, all of them [Exception]s. *)
Definition raised_with (message : string) : py_exception :=
  {| is_Exception := true; exception_str := message |}.

(** [_analyze_contributor_concentration] with its clock readings and its
    sentiment pass, which runs once the ledger is complete. *)
Definition analyze_concentration (owner repo : string)
    (commits : list commit_record) (issues : list issue_record) (w : world)
  : outcome Report.t * world :=
  let (now_commits, w) := read_clock w in
  let (now_issues, w) := read_clock w in
  let (now, w) := read_clock w in
  match aggregate custom_domains analysis_window_days now_commits now_issues now
          commits issues with
  | Raise e => (Raised (raised_with (exn_message e)), w)
  | Ok active_contributors =>
      match _analyze_contributor_sentiment owner repo active_contributors w with
      | (Raised e, w) => (Raised e, w)
      | (Returned _, w) =>
          match _analyze_contributor_concentration custom_domains
                  analysis_window_days now_commits now_issues now
                  (_calculate_repository_statistics analysis_window_days round2)
                  commits issues with
          | Raise e => (Raised (raised_with (exn_message e)), w)
          | Ok contributor_risk => (Returned contributor_risk, w)
          end
      end
  end.

(** [analyze_single_repository] *)
Definition analyze_single_repository (repo_url : string) (w : world)
  : outcome RiskAnalysis * world :=
  match _parse_github_url repo_url with
  | ParseRaise e => (Raised (raised_with (url_exn_message e)), w)
  | Parsed owner repo =>
      match _fetch_repository_data owner repo w with
      | (Raised e, w) => (Raised e, w)
      | (Returned _, w) =>
      match _fetch_commits_data owner repo w with
      | (Raised e, w) => (Raised e, w)
      | (Returned commits_data, w) =>
      match _fetch_contributors_data owner repo w with
      | (Raised e, w) => (Raised e, w)
      | (Returned _, w) =>
      match _fetch_issues_data owner repo w with
      | (Raised e, w) => (Raised e, w)
      | (Returned issues_data, w) =>
      match analyze_concentration owner repo commits_data issues_data w with
      | (Raised e, w) => (Raised e, w)
      | (Returned contributor_risk, w) =>
          let risk_factors := contributor_risk in
          let overall_risk :=
            Report.contributor_concentration_risk contributor_risk in
          let recommendations :=
            _generate_recommendations format_1f risk_factors in
          (Returned
             {| repository := repo_url;
                overall_risk_score := overall_risk;
                risk_factors := Factors risk_factors;
                recommendations := recommendations;
                analysis_date := now_isoformat w |},
           w)
      end end end end end
  end.

End Single.

(** A world that counts the requests made and whose clock stands still; the
    repository it serves has the twelve commits of one person and nothing
    else. *)
Definition quiet_fetch {A : Type} (a : A) (owner repo : string) (requests : nat)
  : outcome A * nat :=
  (Returned a, S requests).

Definition no_sentiment (owner repo : string) (d : ledger) (requests : nat)
  : outcome unit * nat :=
  (Returned tt, requests).

Definition still_clock (requests : nat) : Z * nat := (0, requests).

Abbreviation sample_single analysis_window_days :=
  (analyze_single_repository nat unit unit [] analysis_window_days
     (quiet_fetch tt) (quiet_fetch twelve_commits) (quiet_fetch tt)
     (quiet_fetch []) no_sentiment still_clock (fun _ => "")
     (fun _ => "division by zero") (fun _ => "malformed identifier")
     (fun _ => "") (fun x => x)).

(** ** Paged fetches *)

(** The answer to one page request: the decoded JSON list, an HTTP error
    status ([raise_for_status] raises [HTTPStatusError]), or any other
    failure of the request. *)
Inductive page_response (A : Type) : Type :=
| PageItems (items : list A)
| StatusError
| RequestFailed (e : py_exception).

Arguments PageItems {A} items.
Arguments StatusError {A}.
Arguments RequestFailed {A} e.

Section PagedFetch.

(** [get_page page] is [client.get(url, params={..., "page": page})]
    followed by [raise_for_status()] and [json()]. *)
Variable world : Type.
Variable A : Type.
Variable get_page : nat -> world -> page_response A * world.

(** [params["per_page"]] *)
Definition per_page : nat := 100.

(** The loop [while len(all_items) < limit], with the handlers around it:
    an HTTP error status gives the empty list, any other failure is raised
    again.  [None] stands for a loop that is still running when the fuel
    is used up. *)
Fixpoint fetch_pages (limit fuel page : nat) (all_items : list A) (w : world)
  : option (outcome (list A) * world) :=
  if (length all_items <? limit)%nat then
    match fuel with
    | O => None
    | S fuel' =>
        match get_page page w with
        | (StatusError, w') => Some (Returned [], w')
        | (RequestFailed e, w') => Some (Raised e, w')
        | (PageItems items, w') =>
            match items with
            | [] => Some (Returned all_items, w')
            | _ :: _ =>
                let all_items := (all_items ++ items)%list in
                if (length items <? per_page)%nat
                then Some (Returned all_items, w')
                else fetch_pages limit fuel' (page + 1) all_items w'
            end
        end
    end
  else Some (Returned all_items, w).

(** [_fetch_commits_data]: up to 500 commits. *)
Definition _fetch_commits_data (fuel : nat) (w : world)
  : option (outcome (list A) * world) :=
  fetch_pages 500 fuel 1 [] w.

(** [_fetch_contributors_data]: up to 200 contributors. *)
Definition _fetch_contributors_data (fuel : nat) (w : world)
  : option (outcome (list A) * world) :=
  fetch_pages 200 fuel 1 [] w.

(** The items of the [k] pages from [page] on and the world behind them,
    when each of these pages holds [per_page] items or more. *)
Fixpoint full_pages (k page : nat) (w : world) : option (list A * world) :=
  match k with
  | O => Some ([], w)
  | S k' =>
      match get_page page w with
      | (PageItems items, w') =>
          if (length items <? per_page)%nat then None
          else match full_pages k' (page + 1) w' with
               | Some (rest, w'') => Some ((items ++ rest)%list, w'')
               | None => None
               end
      | _ => None
      end
  end.

End PagedFetch.

(** A server with endless full pages, and one whose second page fails. *)
Definition endless_pages (page : nat) (requests : nat)
  : page_response nat * nat :=
  (PageItems (repeat page 100), S requests).

Definition failing_second_page (page : nat) (requests : nat)
  : page_response nat * nat :=
  if (page =? 1)%nat then (PageItems (repeat page 100), S requests)
  else (StatusError, S requests).

(** ** Vocabulary of the share *)

(** The sum of the totals of all entries. *)
Definition sum_of_totals (d : ledger) : Z :=
  sum_over (fun entry => total_activity (snd entry)) d.

(** The total of [top] divided by the sum of all totals, times 100. *)
Definition share_of_total (top : string * contributor) (d : ledger) : Q :=
  (inject_Z (total_activity (snd top)) / inject_Z (sum_of_totals d) * 100)%Q.

(** Twelve commits each of two people, today. *)
Definition shared_commits : list commit_record :=
  (repeat (commit_by "alice" "alice@gmail.com" 0) 12
   ++ repeat (commit_by "bob" "bob@gmail.com" 0) 12)%list.

(** One commit each of three people, today. *)
Definition three_equal_commits : list commit_record :=
  [commit_by "alice" "alice@gmail.com" 0;
   commit_by "bob" "bob@gmail.com" 0;
   commit_by "carol" "carol@gmail.com" 0].

(** * Properties *)

(** ** Results *)

Lemma rbind_ok {A B : Type} (r : result A) (k : A -> result B) (b : B) :
  rbind r k = Ok b -> exists a, r = Ok a /\ k a = Ok b.
Proof. destruct r as [a|e]; simpl; intros H; [eauto | discriminate]. Qed.

Ltac bind_inv H :=
  let a := fresh "a" in
  let Ha := fresh "Ha" in
  apply rbind_ok in H; destruct H as (a & Ha & H).

(** ** Strings *)

Module PyStrFacts.
Import PyStr.

Lemma prefix_empty (s : string) : String.prefix "" s = true.
Proof. destruct s; reflexivity. Qed.

Lemma prefix_char_cons (a b : ascii) (s : string) :
  String.prefix (String a "") (String b s) = Ascii.eqb a b.
Proof.
  simpl. destruct (ascii_dec a b) as [->|Hne].
  - rewrite prefix_empty. symmetry. apply Ascii.eqb_refl.
  - symmetry. apply Ascii.eqb_neq. exact Hne.
Qed.

Lemma contains_char_cons (a b : ascii) (s : string) :
  contains (String a "") (String b s)
  = Ascii.eqb a b || contains (String a "") s.
Proof.
  change (contains (String a "") (String b s))
    with (String.prefix (String a "") (String b s) || contains (String a "") s).
  now rewrite prefix_char_cons.
Qed.

Lemma contains_char_nil (a : ascii) : contains (String a "") "" = false.
Proof. reflexivity. Qed.

Lemma contains_at_iff (s : string) :
  contains "@" s = true <-> has_at s.
Proof.
  unfold has_at. induction s as [|b s IH].
  - split; [discriminate|]. intros (pre & post & H).
    destruct pre; discriminate.
  - rewrite contains_char_cons, orb_true_iff, IH. split.
    + intros [Hb | (pre & post & ->)].
      * apply Ascii.eqb_eq in Hb. subst b. exists "", s. reflexivity.
      * exists (String b pre), post. reflexivity.
    + intros (pre & post & H). destruct pre as [|c pre]; simpl in H.
      * injection H as -> _. left. apply Ascii.eqb_refl.
      * injection H as _ ->. right. eauto.
Qed.

Lemma contains_at_false (s : string) :
  contains "@" s = false <-> ~ has_at s.
Proof.
  rewrite <- contains_at_iff. destruct (contains "@" s); split; congruence.
Qed.

Lemma split_nonempty (sep : ascii) (s : string) : split sep s <> [].
Proof.
  destruct s as [|c s]; simpl; [discriminate|].
  destruct (Ascii.eqb c sep); [discriminate|].
  destruct (split sep s); discriminate.
Qed.

Lemma split_without_sep (s : string) :
  contains "@" s = false -> split "@" s = [s].
Proof.
  induction s as [|c s IH]; [reflexivity|].
  rewrite contains_char_cons, orb_false_iff. intros [Hc Hs].
  simpl. rewrite Ascii.eqb_sym, Hc, (IH Hs). reflexivity.
Qed.

Lemma split_app_sep (sep : ascii) (pre post : string) :
  exists l, l <> [] /\
    split sep (pre ++ String sep post) = (l ++ split sep post)%list.
Proof.
  induction pre as [|c pre (l & Hl & IH)]; simpl.
  - rewrite Ascii.eqb_refl. exists [""]. split; [discriminate | reflexivity].
  - destruct (Ascii.eqb c sep).
    + exists ("" :: l). rewrite IH. split; [discriminate | reflexivity].
    + rewrite IH. destruct l as [|x l]; [contradiction|].
      exists (String c x :: l). split; [discriminate | reflexivity].
Qed.

Lemma last_item_app {A : Type} (l m : list A) :
  m <> [] -> last_item (l ++ m)%list = last_item m.
Proof.
  intros Hm. induction l as [|x l IH]; [reflexivity|].
  simpl. rewrite IH. destruct (l ++ m)%list eqn:E; [|reflexivity].
  apply app_eq_nil in E. tauto.
Qed.

(** [email.split("@")[-1]] is the part after the last ['@']. *)
Lemma last_item_split (email domain : string) :
  domain_of email domain ->
  last_item (split "@" email) = Ok domain.
Proof.
  intros [(pre & ->) Hno]. apply contains_at_false in Hno.
  destruct (split_app_sep "@" pre domain) as (l & _ & Hsplit).
  change (pre ++ "@" ++ domain) with (pre ++ String "@" domain).
  rewrite Hsplit, last_item_app by apply split_nonempty.
  rewrite (split_without_sep _ Hno). reflexivity.
Qed.

(** Every address with an ['@'] has a part after the last one. *)
Lemma domain_of_exists (email : string) :
  has_at email -> exists domain, domain_of email domain.
Proof.
  induction email as [|c s IH].
  - intros (pre & post & H). destruct pre; discriminate.
  - intros Hat. destruct (contains "@" s) eqn:Hs.
    + apply contains_at_iff in Hs. destruct (IH Hs) as (d & (pre & ->) & Hd).
      exists d. split; [|exact Hd]. exists (String c pre). reflexivity.
    + apply contains_at_false in Hs.
      destruct Hat as (pre & post & H). destruct pre as [|c' pre]; simpl in H.
      * injection H as -> ->. exists post. split; [|exact Hs].
        exists "". reflexivity.
      * injection H as _ ->. exfalso. apply Hs. exists pre, post. reflexivity.
Qed.

Lemma mem_In (x : string) (xs : list string) : mem x xs = true <-> In x xs.
Proof.
  unfold mem. rewrite existsb_exists. split.
  - intros (y & Hy & Heq). apply String.eqb_eq in Heq. now subst.
  - intros H. exists x. split; [exact H | apply String.eqb_refl].
Qed.


Lemma endswith_iff (s suffix : string) :
  endswith s suffix = true <-> is_suffix_of suffix s.
Proof.
  unfold is_suffix_of. induction s as [|c s IH].
  - change (endswith "" suffix) with (String.eqb "" suffix || false).
    rewrite orb_false_r, String.eqb_eq. split.
    + intros <-. exists "". reflexivity.
    + intros (p & H). destruct p; [exact H | discriminate].
  - change (endswith (String c s) suffix)
      with (String.eqb (String c s) suffix || endswith s suffix).
    rewrite orb_true_iff, IH, String.eqb_eq. split.
    + intros [<- | (p & ->)]; [exists "" | exists (String c p)]; reflexivity.
    + intros (p & H). destruct p as [|c' p]; simpl in H.
      * left. exact H.
      * injection H as _ ->. right. eauto.
Qed.


End PyStrFacts.

(** ** Identity classifier *)

Lemma classify_without_at (custom_domains : list string) (email : string) :
  email = "" \/ ~ has_at email ->
  _classify_email_domain custom_domains email = Ok no_email_available.
Proof.
  intros [-> | Hno]; [reflexivity|].
  apply PyStrFacts.contains_at_false in Hno.
  unfold _classify_email_domain. rewrite Hno, orb_true_r. reflexivity.
Qed.

Lemma classify_with_domain (custom_domains : list string) (email domain : string) :
  domain_of email domain ->
  _classify_email_domain custom_domains email =
    let d := PyStr.lower domain in
    if PyStr.mem d custom_domains then Ok "custom"
    else if PyStr.mem d company_domains then Ok "company"
    else if existsb (fun tld => PyStr.endswith d tld) academic_tlds
    then Ok "academic"
    else Ok "personal".
Proof.
  intros Hdom. pose proof (PyStrFacts.last_item_split _ _ Hdom) as Hlast.
  destruct Hdom as [(pre & Hemail) _].
  assert (Hat : PyStr.contains "@" email = true).
  { apply PyStrFacts.contains_at_iff. exists pre, domain. exact Hemail. }
  assert (Htruthy : PyStr.truthy email = true).
  { subst email. destruct pre; reflexivity. }
  unfold _classify_email_domain. rewrite Hat, Htruthy, Hlast.
  cbn [rbind negb orb]. cbv zeta.
  destruct (PyStr.mem (PyStr.lower domain) custom_domains); [reflexivity|].
  destruct (PyStr.mem (PyStr.lower domain) company_domains); [reflexivity|].
  destruct (existsb _ academic_tlds); [reflexivity|].
  destruct (PyStr.mem (PyStr.lower domain) personal_domains); reflexivity.
Qed.

Lemma classify_returns (custom_domains : list string) (email : string) :
  exists category, _classify_email_domain custom_domains email = Ok category.
Proof.
  destruct (PyStr.contains "@" email) eqn:Hat.
  - apply PyStrFacts.contains_at_iff, PyStrFacts.domain_of_exists in Hat.
    destruct Hat as (domain & Hdom).
    rewrite (classify_with_domain _ _ _ Hdom). cbv zeta.
    repeat match goal with
           | |- context [if ?b then _ else _] => destruct b
           end; eauto.
  - apply PyStrFacts.contains_at_false in Hat.
    rewrite classify_without_at by (right; exact Hat). eauto.
Qed.

(** On every character [str.lower()] as embedded and the table of the
    letters agree. *)
Lemma lower_ascii_is_small (c : ascii) :
  PyStr.lower_ascii c = small_of capital_letters small_letters c.
Proof.
  destruct c as [b0 b1 b2 b3 b4 b5 b6 b7].
  destruct b0, b1, b2, b3, b4, b5, b6, b7; vm_compute; reflexivity.
Qed.

Lemma lower_is_lowercase (word : string) : PyStr.lower word = lowercase word.
Proof.
  induction word as [|c word IH]; [reflexivity|].
  cbn [PyStr.lower lowercase]. now rewrite IH, lower_ascii_is_small.
Qed.



(** ** Quarter assignment *)

Section QuarterFacts.

Variable analysis_window_days : Z.
Variable now : Z.

Let quarter_of := get_quarter analysis_window_days now.

(** Days elapsed since [t], as [(now - t).days] counts them. *)
Let days_ago (t : Z) : Z := (now - t) / day.

Lemma get_quarter_missing_date : quarter_of None = Ok None.
Proof. reflexivity. Qed.

Lemma get_quarter_outside (t : Z) :
  days_ago t < 0 \/ analysis_window_days < days_ago t ->
  quarter_of (Some t) = Ok None.
Proof.
  intros H. unfold quarter_of, get_quarter. fold (days_ago t).
  destruct (days_ago t <? 0) eqn:E1; [reflexivity|].
  destruct (days_ago t >? analysis_window_days) eqn:E2; [reflexivity|].
  lia.
Qed.

Lemma get_quarter_inside (t : Z) :
  0 <= days_ago t <= analysis_window_days ->
  quarter_of (Some t) =
    if analysis_window_days / 4 =? 0 then Raise ZeroDivisionError
    else Ok (Some (3 - Z.min 3 (days_ago t / (analysis_window_days / 4)))).
Proof.
  intros H. unfold quarter_of, get_quarter. fold (days_ago t).
  destruct (days_ago t <? 0) eqn:E1; [lia|].
  destruct (days_ago t >? analysis_window_days) eqn:E2; [lia|].
  reflexivity.
Qed.

(** A returned bucket is one of 0, 1, 2, 3. *)
Lemma get_quarter_range (date_obj : option Z) (q : Z) :
  quarter_of date_obj = Ok (Some q) -> 0 <= q <= 3.
Proof.
  destruct date_obj as [t|]; [|discriminate].
  destruct (Z_lt_dec (days_ago t) 0) as [Hneg|Hpos].
  { rewrite get_quarter_outside by lia. discriminate. }
  destruct (Z_lt_dec analysis_window_days (days_ago t)) as [Hold|Hin].
  { rewrite get_quarter_outside by lia. discriminate. }
  rewrite get_quarter_inside by lia.
  destruct (analysis_window_days / 4 =? 0) eqn:E; [discriminate|].
  intros [= <-].
  assert (0 < analysis_window_days / 4).
  { assert (0 <= analysis_window_days / 4) by (apply Z.div_pos; lia). lia. }
  assert (0 <= days_ago t / (analysis_window_days / 4))
    by (apply Z.div_pos; lia).
  lia.
Qed.

(** From four days on, the quarter length is positive and nothing raises. *)
Lemma get_quarter_returns (date_obj : option Z) :
  4 <= analysis_window_days -> exists q, quarter_of date_obj = Ok q.
Proof.
  intros Hw. destruct date_obj as [t|]; [|eexists; reflexivity].
  destruct (Z_lt_dec (days_ago t) 0) as [Hneg|Hpos].
  { rewrite get_quarter_outside by lia. eauto. }
  destruct (Z_lt_dec analysis_window_days (days_ago t)) as [Hold|Hin].
  { rewrite get_quarter_outside by lia. eauto. }
  rewrite get_quarter_inside by lia.
  assert (1 <= analysis_window_days / 4).
  { apply Z.div_le_lower_bound; lia. }
  destruct (analysis_window_days / 4 =? 0) eqn:E; [lia | eauto].
Qed.

(** What the quarter assignment does on windows of four days and more:
    a bucket among 0..3 inside the window, bucket 3 for today, buckets
    that do not grow with age, and no bucket for the future or for more
    than [analysis_window_days] elapsed days. *)
Lemma get_quarter_from_four_days :
  4 <= analysis_window_days ->
  (forall t, 0 <= days_ago t <= analysis_window_days ->
     exists q, quarter_of (Some t) = Ok (Some q) /\ 0 <= q <= 3)
  /\ (forall t, days_ago t = 0 -> quarter_of (Some t) = Ok (Some 3))
  /\ (forall t1 t2 q1 q2,
        0 <= days_ago t1 <= days_ago t2 ->
        days_ago t2 <= analysis_window_days ->
        quarter_of (Some t1) = Ok (Some q1) ->
        quarter_of (Some t2) = Ok (Some q2) ->
        q2 <= q1)
  /\ (forall t, days_ago t < 0 \/ analysis_window_days < days_ago t ->
        quarter_of (Some t) = Ok None).
Proof.
  intros Hw.
  assert (Hql : 1 <= analysis_window_days / 4)
    by (apply Z.div_le_lower_bound; lia).
  assert (Hne : (analysis_window_days / 4 =? 0) = false) by lia.
  repeat split.
  - intros t Ht. rewrite get_quarter_inside, Hne by lia.
    eexists. split; [reflexivity|].
    assert (0 <= days_ago t / (analysis_window_days / 4))
      by (apply Z.div_pos; lia).
    lia.
  - intros t Ht. rewrite get_quarter_inside, Hne, Ht by lia.
    rewrite Z.div_0_l by lia. reflexivity.
  - intros t1 t2 q1 q2 H12 H2.
    rewrite !get_quarter_inside, Hne by lia.
    intros [= <-] [= <-].
    assert (days_ago t1 / (analysis_window_days / 4)
            <= days_ago t2 / (analysis_window_days / 4))
      by (apply Z.div_le_mono; lia).
    lia.
  - apply get_quarter_outside.
Qed.

(** C6. On a window of one, two or three days the quarter length
    [analysis_window_days // 4] is zero, and [get_quarter] raises
    [ZeroDivisionError] on every timestamp inside the window instead of
    returning a bucket. *)
Theorem get_quarter_raises_on_short_window (t : Z) :
  1 <= analysis_window_days <= 3 ->
  0 <= (now - t) / day <= analysis_window_days ->
  get_quarter analysis_window_days now (Some t) = Raise ZeroDivisionError.
Proof.
  intros Hw Ht. fold quarter_of. rewrite get_quarter_inside by exact Ht.
  assert (analysis_window_days / 4 = 0) as -> by (apply Z.div_small; lia).
  reflexivity.
Qed.

End QuarterFacts.

Lemma get_quarter_raises_on_short_window_witness :
  get_quarter 3 0 (Some 0) = Raise ZeroDivisionError.
Proof.
  apply (get_quarter_raises_on_short_window 3 0 0); vm_compute; split; congruence.
Defined.

(** ** The ledger as a dictionary *)

Module LedgerFacts.
Import Ledger.

Lemma mem_true (k : string) (d : ledger) :
  mem k d = true <-> exists c, get k d = Some c.
Proof.
  unfold mem. destruct (get k d); split; eauto; try discriminate.
  intros (c & H). discriminate.
Qed.

Lemma mem_false (k : string) (d : ledger) :
  mem k d = false <-> get k d = None.
Proof. unfold mem. destruct (get k d); split; congruence. Qed.

Lemma get_None_keys (k : string) (d : ledger) :
  get k d = None <-> ~ In k (keys d).
Proof.
  induction d as [|[k0 c0] d IH]; simpl.
  - tauto.
  - destruct (String.eqb_spec k0 k) as [->|Hne].
    + split; [discriminate | tauto].
    + rewrite IH. tauto.
Qed.

Lemma get_Some_keys (k : string) (c : contributor) (d : ledger) :
  get k d = Some c -> In k (keys d).
Proof.
  intros H. destruct (in_dec string_dec k (keys d)) as [Hin|Hout]; [exact Hin|].
  apply get_None_keys in Hout. congruence.
Qed.

Lemma mem_keys (k : string) (d : ledger) :
  mem k d = true <-> In k (keys d).
Proof.
  destruct (mem k d) eqn:E.
  - apply mem_true in E as (c & Hc). apply get_Some_keys in Hc. tauto.
  - apply mem_false, get_None_keys in E. split; [discriminate | tauto].
Qed.

Lemma get_In (k : string) (c : contributor) (d : ledger) :
  get k d = Some c -> In (k, c) d.
Proof.
  induction d as [|[k0 c0] d IH]; simpl; [discriminate|].
  destruct (String.eqb_spec k0 k) as [->|Hne].
  - intros [= ->]. now left.
  - intros H. right. auto.
Qed.

Lemma In_get (k : string) (c : contributor) (d : ledger) :
  NoDup (keys d) -> In (k, c) d -> get k d = Some c.
Proof.
  induction d as [|[k0 c0] d IH]; simpl; [tauto|].
  intros Hnd [[= -> ->] | Hin].
  - now rewrite String.eqb_refl.
  - apply NoDup_cons in Hnd as [Hout Hnd].
    destruct (String.eqb_spec k0 k) as [->|Hne].
    + exfalso. apply Hout, list_elem_of_In.
      change k with (fst (k, c)). now apply in_map.
    + auto.
Qed.

Lemma set_absent (k : string) (c : contributor) (d : ledger) :
  get k d = None -> set k c d = (d ++ [(k, c)])%list.
Proof.
  induction d as [|[k0 c0] d IH]; simpl; [reflexivity|].
  destruct (String.eqb_spec k0 k) as [->|Hne]; [discriminate|].
  intros H. now rewrite IH.
Qed.

Lemma get_app_last (k k0 : string) (c0 : contributor) (d : ledger) :
  get k (d ++ [(k0, c0)])%list =
    match get k d with
    | Some c => Some c
    | None => if String.eqb k0 k then Some c0 else None
    end.
Proof.
  induction d as [|[k1 c1] d IH]; simpl; [reflexivity|].
  destruct (String.eqb k1 k); [reflexivity | exact IH].
Qed.

Lemma keys_app (d1 d2 : ledger) : keys (d1 ++ d2)%list = (keys d1 ++ keys d2)%list.
Proof. apply map_app. Qed.

(** A first entry for [k]. *)
Lemma set_stored (k : string) (c : contributor) (d : ledger) :
  get k d = None -> stored k c d (set k c d).
Proof.
  intros Hnone. rewrite (set_absent _ _ _ Hnone). repeat split.
  - rewrite get_app_last, Hnone, String.eqb_refl. reflexivity.
  - intros k' Hne. rewrite get_app_last.
    destruct (get k' d); [reflexivity|].
    destruct (String.eqb_spec k k'); [congruence | reflexivity].
  - apply mem_false in Hnone. rewrite Hnone, keys_app. reflexivity.
Qed.

(** Reading, modifying and storing back a known entry. *)
Lemma update_stored (k : string) (f : contributor -> result contributor)
    (c c' : contributor) (d : ledger) :
  get k d = Some c -> f c = Ok c' ->
  exists d1, update k f d = Ok d1 /\ stored k c' d d1.
Proof.
  intros Hget Hf.
  assert (Hmem : mem k d = true) by (apply mem_true; eauto).
  unfold stored. rewrite Hmem, app_nil_r. clear Hmem.
  induction d as [|[k0 c0] d IH]; simpl in *; [discriminate|].
  destruct (String.eqb_spec k0 k) as [->|Hne].
  - injection Hget as ->. rewrite Hf. simpl. eexists. split; [reflexivity|].
    simpl. rewrite String.eqb_refl. repeat split.
    intros k' Hk'. destruct (String.eqb_spec k k'); congruence.
  - destruct (IH Hget) as (d1 & -> & Hk & Hother & Hkeys). simpl.
    eexists. split; [reflexivity|]. simpl.
    destruct (String.eqb_spec k0 k); [congruence|]. repeat split.
    + exact Hk.
    + intros k' Hk'. destruct (String.eqb k0 k'); auto.
    + now rewrite Hkeys.
Qed.

Lemma update_raises (k : string) (f : contributor -> result contributor)
    (c : contributor) (e : exn) (d : ledger) :
  get k d = Some c -> f c = Raise e -> update k f d = Raise e.
Proof.
  intros Hget Hf. induction d as [|[k0 c0] d IH]; simpl in *; [discriminate|].
  destruct (String.eqb_spec k0 k) as [->|Hne].
  - injection Hget as ->. now rewrite Hf.
  - now rewrite IH.
Qed.

Lemma stored_mem (k : string) (c1 : contributor) (d d1 : ledger) (k' : string) :
  stored k c1 d d1 -> mem k' d1 = String.eqb k k' || mem k' d.
Proof.
  intros (Hk & Hother & _). unfold mem.
  destruct (String.eqb_spec k k') as [<-|Hne].
  - now rewrite Hk.
  - rewrite Hother by congruence. reflexivity.
Qed.

Lemma stored_trans (k : string) (c1 c2 : contributor) (d d1 d2 : ledger) :
  stored k c1 d d1 -> stored k c2 d1 d2 -> stored k c2 d d2.
Proof.
  intros (Hk1 & Ho1 & Hkeys1) (Hk2 & Ho2 & Hkeys2). repeat split.
  - exact Hk2.
  - intros k' Hne. rewrite Ho2, Ho1 by exact Hne. reflexivity.
  - assert (mem k d1 = true) as Hm by (apply mem_true; eauto).
    rewrite Hkeys2, Hm, app_nil_r. exact Hkeys1.
Qed.

Lemma stored_ok (k : string) (c1 : contributor) (d d1 : ledger) :
  ledger_ok d -> stored k c1 d d1 -> entry_ok c1 -> ledger_ok d1.
Proof.
  intros [Hnd Hentries] (Hk & Hother & Hkeys) Hc1. split.
  - rewrite Hkeys. destruct (mem k d) eqn:Hm.
    + now rewrite app_nil_r.
    + apply mem_false, get_None_keys in Hm.
      apply NoDup_app. repeat split.
      * exact Hnd.
      * intros x Hx. rewrite list_elem_of_In in *.
        simpl. intros [<- | []]. contradiction.
      * apply NoDup_singleton.
  - intros k' c Hget. destruct (string_dec k' k) as [->|Hne].
    + congruence.
    + rewrite Hother in Hget by exact Hne. eauto.
Qed.

Lemma empty_ok : ledger_ok [].
Proof. split; [constructor | discriminate]. Qed.

End LedgerFacts.

(** ** Entries *)

Ltac entry_facts :=
  unfold entry_ok, shape_ok, active in *; simpl in *; intuition (try lia).

Lemma item_in_range (xs : list Z) (i : Z) :
  0 <= i < Z.of_nat (length xs) -> PyList.item xs i = Ok (slot i xs).
Proof.
  intros Hi. unfold PyList.item, slot.
  assert ((i <? 0) = false) as -> by lia.
  assert ((0 <=? i) && (i <? Z.of_nat (length xs)) = true) as -> by lia.
  destruct (xs !! Z.to_nat i) as [x|] eqn:E.
  - now rewrite (nth_lookup_Some _ _ _ _ E).
  - apply lookup_ge_None in E. lia.
Qed.

Lemma incr_in_range (xs : list Z) (i : Z) :
  0 <= i < Z.of_nat (length xs) ->
  PyList.incr xs i = Ok (<[Z.to_nat i := slot i xs + 1]> xs).
Proof.
  intros Hi. unfold PyList.incr. rewrite item_in_range by exact Hi.
  simpl. assert ((i <? 0) = false) as -> by lia. reflexivity.
Qed.

Lemma bump_quarter_ok (q : Z) (c : contributor) :
  shape_ok c -> 0 <= q <= 3 -> bump_quarter q c = Ok (bumped (Some q) c).
Proof.
  intros (Hlen & _) Hq. unfold bump_quarter.
  rewrite incr_in_range by (rewrite Hlen; lia). reflexivity.
Qed.

Lemma slot_nonneg (j : Z) (quarters : list Z) :
  Forall (Z.le 0) quarters -> 0 <= slot j quarters.
Proof.
  intros H. unfold slot. destruct (j <? 0); [lia|].
  destruct (quarters !! Z.to_nat j) as [x|] eqn:E.
  - rewrite (nth_lookup_Some _ _ _ _ E).
    rewrite Forall_forall in H. apply H.
    apply list_elem_of_lookup. eauto.
  - rewrite nth_overflow; [lia|]. now apply lookup_ge_None.
Qed.

Lemma bumped_shape (quarter : option Z) (c : contributor) :
  shape_ok c -> shape_ok (bumped quarter c).
Proof.
  destruct quarter as [q|]; [|tauto].
  intros (Hlen & Hnn & Hrest). unfold shape_ok. simpl.
  rewrite length_insert. repeat split; try tauto.
  apply Forall_insert; [exact Hnn|].
  pose proof (slot_nonneg q _ Hnn). lia.
Qed.

Lemma bumped_ok (quarter : option Z) (c : contributor) :
  entry_ok c -> entry_ok (bumped quarter c).
Proof.
  intros [Hs Ha]. split; [now apply bumped_shape|].
  destruct quarter; exact Ha.
Qed.

Lemma new_contributor_shape (n e t : string) : shape_ok (new_contributor n e t).
Proof. unfold shape_ok. simpl. repeat split; try lia. repeat constructor; lia. Qed.

Lemma default_shape (k : string) (fresh : contributor) (d : ledger) :
  ledger_ok d -> shape_ok fresh -> shape_ok (default fresh (Ledger.get k d)).
Proof.
  intros [_ Hentries] Hfresh. destruct (Ledger.get k d) as [c|] eqn:E; simpl.
  - apply (Hentries _ _ E).
  - exact Hfresh.
Qed.

(** ** Create-or-fetch, then count *)

Section Steps.

Variable custom_domains : list string.
Variable analysis_window_days : Z.
Variable now : Z.

Let quarter_of := get_quarter analysis_window_days now.

(** [if k not in d: d[k] = fresh] followed by [d[k][field] += 1]. *)
Lemma touch_stored (k : string) (fresh : contributor)
    (g : contributor -> contributor) (d : ledger) :
  exists d1,
    Ledger.update k (fun c => Ok (g c))
      (if Ledger.mem k d then d else Ledger.set k fresh d) = Ok d1
    /\ stored k (g (default fresh (Ledger.get k d))) d d1.
Proof.
  destruct (Ledger.mem k d) eqn:Hm.
  - apply LedgerFacts.mem_true in Hm as (c & Hc). rewrite Hc. simpl.
    now apply LedgerFacts.update_stored with (c := c).
  - apply LedgerFacts.mem_false in Hm. rewrite Hm. simpl.
    pose proof (LedgerFacts.set_stored k fresh d Hm) as Hset.
    destruct (LedgerFacts.update_stored k (fun c => Ok (g c)) fresh (g fresh)
                (Ledger.set k fresh d)) as (d1 & Hupd & Hst).
    { apply Hset. }
    { reflexivity. }
    exists d1. split; [exact Hupd|].
    eapply LedgerFacts.stored_trans; eassumption.
Qed.

(** [if quarter is not None: d[k]["quarterly_activity"][quarter] += 1] on a
    well-formed entry. *)
Lemma bump_stored (k : string) (quarter : option Z) (c : contributor)
    (d : ledger) :
  Ledger.get k d = Some c -> shape_ok c -> quarter_in_range quarter ->
  exists d1, bump k quarter d = Ok d1 /\ stored k (bumped quarter c) d d1.
Proof.
  intros Hget Hshape Hq. destruct quarter as [q|]; simpl.
  - apply LedgerFacts.update_stored with (c := c); [exact Hget|].
    now apply bump_quarter_ok.
  - exists d. split; [reflexivity|]. repeat split.
    + exact Hget.
    + assert (Ledger.mem k d = true) as -> by (apply LedgerFacts.mem_true; eauto).
      now rewrite app_nil_r.
Qed.

Lemma quarter_of_in_range (date_obj : option Z) (quarter : option Z) :
  quarter_of date_obj = Ok quarter -> quarter_in_range quarter.
Proof.
  destruct quarter as [q|]; [|constructor].
  apply get_quarter_range.
Qed.

End Steps.

(** ** Read-outs of the ledger *)

Lemma stored_count (f : counter) (k : string) (fresh : contributor)
    (g : contributor -> contributor) (delta : Z) (d d1 : ledger) (l : string) :
  ledger_ok d -> shape_ok fresh -> f fresh = 0 -> steps_by f g delta ->
  stored k (g (default fresh (Ledger.get k d))) d d1 ->
  count_of f l d1 = count_of f l d + (if String.eqb k l then delta else 0).
Proof.
  intros Hok Hfresh Hzero Hstep (Hk & Hother & _). unfold count_of.
  destruct (String.eqb_spec k l) as [<-|Hne].
  - rewrite Hk, Hstep by (now apply default_shape).
    destruct (Ledger.get k d); simpl; [reflexivity | now rewrite Hzero].
  - rewrite Hother by congruence. lia.
Qed.

Lemma slot_insert (j q v : Z) (xs : list Z) :
  0 <= q < Z.of_nat (length xs) ->
  slot j (<[Z.to_nat q := v]> xs) = if q =? j then v else slot j xs.
Proof.
  intros Hq. unfold slot. destruct (Z.eqb_spec q j) as [<-|Hne].
  - assert ((q <? 0) = false) as -> by lia.
    apply nth_lookup_Some, list_lookup_insert_eq. lia.
  - destruct (j <? 0) eqn:Hj; [reflexivity|].
    assert (Z.to_nat q <> Z.to_nat j) by lia.
    destruct (xs !! Z.to_nat j) as [x|] eqn:E.
    + rewrite (nth_lookup_Some _ _ _ _ E). apply nth_lookup_Some.
      rewrite list_lookup_insert_ne by assumption. exact E.
    + apply lookup_ge_None in E.
      rewrite !nth_overflow; [reflexivity | lia | rewrite length_insert; lia].
Qed.

Lemma quarter_slot_bumped (j : Z) (quarter : option Z) (c : contributor) :
  shape_ok c -> quarter_in_range quarter ->
  quarter_slot j (bumped quarter c) = quarter_slot j c + in_quarter quarter j.
Proof.
  intros (Hlen & _) Hq. unfold quarter_slot, in_quarter.
  destruct quarter as [q|]; simpl in *; [|lia].
  rewrite slot_insert by (rewrite Hlen; lia).
  destruct (Z.eqb_spec q j) as [->|]; lia.
Qed.

Lemma quarter_slot_zero (j : Z) : starts_at_zero (quarter_slot j).
Proof.
  intros n e t. unfold quarter_slot, slot. simpl.
  destruct (j <? 0); [reflexivity|].
  destruct (Z.to_nat j) as [|[|[|[|[|?]]]]]; reflexivity.
Qed.

Lemma add_commits_ok (c : contributor) : shape_ok c -> entry_ok (add_commits 1 c).
Proof. entry_facts. Qed.

Lemma add_issues_created_ok (c : contributor) :
  shape_ok c -> entry_ok (add_issues_created 1 c).
Proof. entry_facts. Qed.

Lemma add_prs_created_ok (c : contributor) :
  shape_ok c -> entry_ok (add_prs_created 1 c).
Proof. entry_facts. Qed.

Lemma add_reviews_given_ok (c : contributor) :
  shape_ok c -> entry_ok (add_reviews_given 1 c).
Proof. entry_facts. Qed.

Lemma add_comments_made_ok (k : Z) (c : contributor) :
  0 <= k -> entry_ok c -> entry_ok (add_comments_made k c).
Proof. entry_facts. Qed.

(** ** One record at a time *)

Section StepFacts.

Variable custom_domains : list string.
Variable analysis_window_days : Z.
Variable now : Z.

Let quarter_of := get_quarter analysis_window_days now.

(** Create-or-fetch, count one activity, book it in its quarter. *)
Lemma touch_bump_stored (k : string) (fresh : contributor)
    (g : contributor -> contributor) (quarter : option Z) (d : ledger) :
  ledger_ok d -> shape_ok fresh -> (forall c, shape_ok c -> entry_ok (g c)) ->
  quarter_in_range quarter ->
  exists d1,
    (let! d' := Ledger.update k (fun c => Ok (g c))
                  (if Ledger.mem k d then d else Ledger.set k fresh d) in
     bump k quarter d') = Ok d1
    /\ stored k (bumped quarter (g (default fresh (Ledger.get k d)))) d d1
    /\ ledger_ok d1.
Proof.
  intros Hok Hfresh Hg Hq.
  destruct (touch_stored k fresh g d) as (d' & -> & Hst). simpl.
  pose proof (default_shape k fresh d Hok Hfresh) as Hc0.
  destruct (Hg _ Hc0) as [Hshape Hactive].
  destruct (bump_stored k quarter _ d' (proj1 Hst) Hshape Hq) as (d1 & -> & Hst1).
  exists d1. split; [reflexivity|].
  assert (Hst2 : stored k (bumped quarter (g (default fresh (Ledger.get k d)))) d d1)
    by (eapply LedgerFacts.stored_trans; eassumption).
  split; [exact Hst2|].
  eapply LedgerFacts.stored_ok; [exact Hok | exact Hst2 |].
  apply bumped_ok. now apply Hg.
Qed.

Lemma track_commit_eq (commit : commit_record) (d : ledger) :
  track_commit custom_domains analysis_window_days now commit d =
    let k := commit_author commit in
    let n := default "Unknown" (commit_name commit) in
    let e := default "" (commit_email commit) in
    if commit_is_bot commit then Ok d
    else
      let! d :=
        (if Ledger.mem k d then Ok d
         else
           let! email_type := _classify_email_domain custom_domains e in
           Ok (Ledger.set k (new_contributor n e email_type) d)) in
      let! d := Ledger.update k (fun c => Ok (add_commits 1 c)) d in
      let! quarter := quarter_of (commit_date commit) in
      bump k quarter d.
Proof. reflexivity. Qed.

Lemma track_commit_skipped (commit : commit_record) (d : ledger) :
  commit_is_bot commit = true ->
  track_commit custom_domains analysis_window_days now commit d = Ok d.
Proof. intros H. rewrite track_commit_eq. cbv zeta. now rewrite H. Qed.

Lemma track_commit_kept (commit : commit_record) (d : ledger) :
  commit_is_bot commit = false -> ledger_ok d ->
  exists email_type,
    let fresh :=
      new_contributor (default "Unknown" (commit_name commit))
        (default "" (commit_email commit)) email_type in
    match quarter_of (commit_date commit) with
    | Raise e =>
        track_commit custom_domains analysis_window_days now commit d = Raise e
    | Ok quarter =>
        exists d1,
          track_commit custom_domains analysis_window_days now commit d = Ok d1
          /\ stored (commit_author commit)
               (bumped quarter
                  (add_commits 1
                     (default fresh (Ledger.get (commit_author commit) d))))
               d d1
          /\ ledger_ok d1
    end.
Proof.
  intros Hbot Hok.
  destruct (classify_returns custom_domains (default "" (commit_email commit)))
    as (email_type & Hclass).
  exists email_type. intros fresh. rewrite track_commit_eq. cbv zeta.
  rewrite Hbot, Hclass. cbn [rbind]. fold fresh.
  set (k := commit_author commit).
  assert (Hsame :
    (if Ledger.mem k d then Ok d else Ok (Ledger.set k fresh d))
    = Ok (if Ledger.mem k d then d else Ledger.set k fresh d))
    by (destruct (Ledger.mem k d); reflexivity).
  rewrite Hsame. cbn [rbind].
  destruct (quarter_of (commit_date commit)) as [quarter|e] eqn:Hquarter.
  - pose proof (quarter_of_in_range _ _ _ _ Hquarter) as Hrange.
    destruct (touch_bump_stored k fresh (add_commits 1) quarter d Hok
                (new_contributor_shape _ _ _) add_commits_ok Hrange)
      as (d1 & Hrun & Hst & Hok1).
    exists d1. split; [|split; assumption].
    destruct (Ledger.update k _ _); simpl in *; [exact Hrun | discriminate].
  - destruct (touch_stored k fresh (add_commits 1) d) as (d' & -> & _).
    reflexivity.
Qed.

Lemma track_review_eq (author_login : string) (quarter : option Z)
    (review : review_record) (d : ledger) :
  track_review author_login quarter review d =
    let k := reviewer review in
    if review_counts author_login review then
      let! d' := Ledger.update k (fun c => Ok (add_reviews_given 1 c))
                   (if Ledger.mem k d then d
                    else Ledger.set k (new_contributor k "" "N/A") d) in
      bump k quarter d'
    else Ok d.
Proof.
  unfold track_review, review_counts. fold (reviewer review). cbv zeta.
  destruct (String.eqb (reviewer review) "unknown"),
    (_is_bot_account (reviewer review) "" ""),
    (String.eqb (reviewer review) author_login); reflexivity.
Qed.

Lemma track_review_kept (author_login : string) (quarter : option Z)
    (review : review_record) (d : ledger) :
  review_counts author_login review = true -> ledger_ok d ->
  quarter_in_range quarter ->
  exists d1,
    track_review author_login quarter review d = Ok d1
    /\ stored (reviewer review)
         (bumped quarter
            (add_reviews_given 1
               (default (new_contributor (reviewer review) "" "N/A")
                  (Ledger.get (reviewer review) d))))
         d d1
    /\ ledger_ok d1.
Proof.
  intros Hcounts Hok Hrange. rewrite track_review_eq. cbv zeta. rewrite Hcounts.
  apply touch_bump_stored; auto using new_contributor_shape, add_reviews_given_ok.
Qed.

Lemma track_review_skipped (author_login : string) (quarter : option Z)
    (review : review_record) (d : ledger) :
  review_counts author_login review = false ->
  track_review author_login quarter review d = Ok d.
Proof. intros H. rewrite track_review_eq. cbv zeta. now rewrite H. Qed.



Lemma stored_keys_In (k : string) (c1 : contributor) (d d1 : ledger) (l : string) :
  stored k c1 d d1 -> In l (Ledger.keys d1) <-> In l (Ledger.keys d) \/ l = k.
Proof.
  intros (_ & _ & Hkeys). rewrite Hkeys, in_app_iff.
  destruct (Ledger.mem k d) eqn:Hm; simpl.
  - apply LedgerFacts.mem_keys in Hm. split; [tauto|].
    intros [H | ->]; tauto.
  - split.
    + intros [H | [<- | []]]; auto.
    + intros [H | ->]; auto.
Qed.

Lemma stored_count_known (f : counter) (k : string) (c : contributor)
    (g : contributor -> contributor) (delta : Z) (d d1 : ledger) (l : string) :
  Ledger.get k d = Some c -> shape_ok c -> steps_by f g delta ->
  stored k (g c) d d1 ->
  count_of f l d1 = count_of f l d + (if String.eqb k l then delta else 0).
Proof.
  intros Hget Hshape Hstep (Hk & Hother & _). unfold count_of.
  destruct (String.eqb_spec k l) as [<-|Hne].
  - rewrite Hk, Hget. now apply Hstep.
  - rewrite Hother by congruence. lia.
Qed.

Lemma reviews_by_cons (l a : string) (r : review_record)
    (rs : list review_record) :
  reviews_by l a (r :: rs) =
    (if review_counts a r && String.eqb (reviewer r) l then 1 else 0)
    + reviews_by l a rs.
Proof.
  unfold reviews_by. simpl.
  destruct (review_counts a r && String.eqb (reviewer r) l); simpl length; lia.
Qed.

Lemma reviews_by_nonneg (l a : string) (rs : list review_record) :
  0 <= reviews_by l a rs.
Proof. unfold reviews_by. lia. Qed.

Lemma occurrences_cons (l p : string) (ps : list string) :
  occurrences l (p :: ps) = (if String.eqb p l then 1 else 0) + occurrences l ps.
Proof.
  unfold occurrences. simpl. destruct (String.eqb p l); simpl length; lia.
Qed.

(** Step 3 over all reviews of one record. *)
Lemma track_reviews_spec (a : string) (quarter : option Z)
    (reviews : list review_record) (d : ledger) :
  ledger_ok d -> quarter_in_range quarter ->
  exists d1,
    for_each (track_review a quarter) reviews d = Ok d1
    /\ ledger_ok d1
    /\ (forall l, In l (Ledger.keys d1)
                  <-> In l (Ledger.keys d) \/ 0 < reviews_by l a reviews)
    /\ (forall f delta, starts_at_zero f ->
          steps_by f (fun c => bumped quarter (add_reviews_given 1 c)) delta ->
          forall l, count_of f l d1
                    = count_of f l d + delta * reviews_by l a reviews).
Proof.
  intros Hok Hrange. revert d Hok.
  induction reviews as [|r rs IH]; intros d Hok.
  - exists d. split; [reflexivity|]. split; [exact Hok|]. split.
    + intros l. unfold reviews_by. simpl. split; [tauto | intros [H|H]; [exact H | lia]].
    + intros f delta _ _ l. unfold reviews_by. simpl. lia.
  - simpl for_each. destruct (review_counts a r) eqn:Hcounts.
    + destruct (track_review_kept a quarter r d Hcounts Hok Hrange)
        as (d' & -> & Hst & Hok').
      destruct (IH d' Hok') as (d1 & Hrun & Hok1 & Hkeys & Hcount).
      exists d1. cbn [rbind]. split; [exact Hrun|]. split; [exact Hok1|]. split.
      * intros l. rewrite Hkeys, (stored_keys_In _ _ _ _ l Hst), reviews_by_cons.
        rewrite Hcounts. cbn [andb].
        pose proof (reviews_by_nonneg l a rs).
        destruct (String.eqb_spec (reviewer r) l) as [->|Hne].
        -- split; [intros; right; lia | tauto].
        -- split; [intros [[H1 | H1] | H1]; [tauto | congruence | right; lia]
                  | intros [H1 | H1]; [tauto | right; lia]].
      * intros f delta Hzero Hstep l.
        rewrite (Hcount f delta Hzero Hstep l), reviews_by_cons, Hcounts.
        cbn [andb].
        rewrite (stored_count f _ _ _ delta d d' l Hok
                   (new_contributor_shape _ _ _) (Hzero _ _ _) Hstep Hst).
        destruct (String.eqb (reviewer r) l); lia.
    + rewrite (track_review_skipped a quarter r d Hcounts). cbn [rbind].
      destruct (IH d Hok) as (d1 & Hrun & Hok1 & Hkeys & Hcount).
      exists d1. split; [exact Hrun|]. split; [exact Hok1|]. split.
      * intros l. rewrite Hkeys, reviews_by_cons, Hcounts. cbn [andb]. tauto.
      * intros f delta Hzero Hstep l.
        rewrite (Hcount f delta Hzero Hstep l), reviews_by_cons, Hcounts.
        cbn [andb]. lia.
Qed.

(** Step 4: the inner loop over the human participants. *)
Lemma give_comments_spec (share : Z) (humans : list string) (d : ledger) :
  ledger_ok d -> 0 <= share ->
  exists d1,
    for_each
      (fun participant d =>
         if Ledger.mem participant d
         then Ledger.update participant
                (fun c => Ok (add_comments_made share c)) d
         else Ok d)
      humans d = Ok d1
    /\ ledger_ok d1
    /\ Ledger.keys d1 = Ledger.keys d
    /\ (forall f delta, steps_by f (add_comments_made share) delta ->
          forall l, count_of f l d1
                    = count_of f l d
                      + (if Ledger.mem l d then delta * occurrences l humans
                         else 0)).
Proof.
  intros Hok Hshare. revert d Hok.
  induction humans as [|p ps IH]; intros d Hok.
  - exists d. split; [reflexivity|]. split; [exact Hok|]. split; [reflexivity|].
    intros f delta _ l. unfold occurrences. simpl.
    destruct (Ledger.mem l d); lia.
  - simpl for_each. destruct (Ledger.mem p d) eqn:Hmem.
    + pose proof Hmem as Hget. apply LedgerFacts.mem_true in Hget as (c & Hget).
      destruct (LedgerFacts.update_stored p
                  (fun c => Ok (add_comments_made share c)) c
                  (add_comments_made share c) d Hget eq_refl)
        as (d' & -> & Hst).
      assert (Hc : entry_ok c) by (apply (proj2 Hok _ _ Hget)).
      assert (Hok' : ledger_ok d').
      { eapply LedgerFacts.stored_ok; [exact Hok | exact Hst |].
        now apply add_comments_made_ok. }
      destruct (IH d' Hok') as (d1 & Hrun & Hok1 & Hkeys & Hcount).
      exists d1. cbn [rbind]. split; [exact Hrun|]. split; [exact Hok1|]. split.
      * rewrite Hkeys. destruct Hst as (_ & _ & ->).
        rewrite Hmem. apply app_nil_r.
      * intros f delta Hstep l. rewrite (Hcount f delta Hstep l).
        rewrite (stored_count_known f p c _ delta d d' l Hget (proj1 Hc) Hstep Hst).
        rewrite (LedgerFacts.stored_mem _ _ _ _ l Hst), occurrences_cons.
        destruct (String.eqb_spec p l) as [->|Hne]; cbn [orb].
        -- rewrite Hmem. lia.
        -- destruct (Ledger.mem l d); lia.
    + cbn [rbind]. destruct (IH d Hok) as (d1 & Hrun & Hok1 & Hkeys & Hcount).
      exists d1. split; [exact Hrun|]. split; [exact Hok1|]. split; [exact Hkeys|].
      intros f delta Hstep l. rewrite (Hcount f delta Hstep l), occurrences_cons.
      destruct (String.eqb_spec p l) as [->|Hne]; [rewrite Hmem|]; try lia.
      destruct (Ledger.mem l d); lia.
Qed.

Lemma comment_share_pos (issue : issue_record) : 1 <= comment_share issue.
Proof. unfold comment_share. lia. Qed.

Lemma track_comments_spec (issue : issue_record) (d : ledger) :
  ledger_ok d ->
  exists d1,
    track_comments issue d = Ok d1
    /\ ledger_ok d1
    /\ Ledger.keys d1 = Ledger.keys d
    /\ (forall f delta, steps_by f (add_comments_made (comment_share issue)) delta ->
          forall l, count_of f l d1
                    = count_of f l d
                      + (if Ledger.mem l d then delta * comment_hits l issue
                         else 0)).
Proof.
  intros Hok. unfold track_comments, comment_hits. cbv zeta.
  assert (Hnone : forall l, occurrences l [] = 0) by reflexivity.
  assert (Hsame :
    exists d1, Ok d = Ok d1 /\ ledger_ok d1 /\ Ledger.keys d1 = Ledger.keys d
      /\ forall f delta, steps_by f (add_comments_made (comment_share issue)) delta ->
         forall l, count_of f l d1 = count_of f l d
                   + (if Ledger.mem l d then delta * 0 else 0)).
  { exists d. split; [reflexivity|]. split; [exact Hok|]. split; [reflexivity|].
    intros f delta _ l. destruct (Ledger.mem l d); lia. }
  destruct (issue_comments issue >? 0) eqn:Hpos; cbn [andb]; [|exact Hsame].
  destruct (issue_participants issue) as [|p ps] eqn:Hps.
  { exact Hsame. }
  cbn [length Nat.eqb negb].
  destruct (human_participants (p :: ps)) as [|h hs] eqn:Hhumans.
  { destruct Hsame as (d1 & H1 & H2 & H3 & H4). exists d1.
    split; [exact H1|]. split; [exact H2|]. split; [exact H3|].
    intros f delta Hstep l. rewrite (H4 f delta Hstep l), Hnone. reflexivity. }
  assert (Hshare : comment_share issue
                   = Z.max 1 (issue_comments issue / Z.of_nat (length (h :: hs)))).
  { unfold comment_share. now rewrite Hps, Hhumans. }
  rewrite <- Hshare.
  apply give_comments_spec; [exact Hok|]. pose proof (comment_share_pos issue). lia.
Qed.

Lemma author_step_ok (issue : issue_record) (c : contributor) :
  shape_ok c -> entry_ok (author_step issue c).
Proof.
  unfold author_step. destruct (issue_pull_request issue);
    [apply add_prs_created_ok | apply add_issues_created_ok].
Qed.

Lemma mem_same_keys (l : string) (d d' : ledger) :
  Ledger.keys d' = Ledger.keys d -> Ledger.mem l d' = Ledger.mem l d.
Proof.
  intros Hkeys. destruct (Ledger.mem l d) eqn:E.
  - apply LedgerFacts.mem_keys. rewrite Hkeys. now apply LedgerFacts.mem_keys.
  - apply LedgerFacts.mem_false, LedgerFacts.get_None_keys. rewrite Hkeys.
    now apply LedgerFacts.get_None_keys, LedgerFacts.mem_false.
Qed.

Lemma track_issue_eq (issue : issue_record) (d : ledger) :
  track_issue analysis_window_days now issue d =
    let a := issue_author issue in
    if issue_is_tracked issue then
      let d0 :=
        if Ledger.mem a d then d
        else Ledger.set a (new_contributor a "" "N/A") d in
      let! quarter := quarter_of (issue_created_at issue) in
      let! d1 := Ledger.update a (fun c => Ok (author_step issue c)) d0 in
      let! d2 := bump a quarter d1 in
      let! d3 := for_each (track_review a quarter) (issue_reviews issue) d2 in
      track_comments issue d3
    else Ok d.
Proof.
  unfold track_issue, issue_is_tracked, author_step. fold (issue_author issue).
  cbv zeta.
  destruct (String.eqb (issue_author issue) "unknown"),
    (_is_bot_account (issue_author issue) "" ""),
    (issue_pull_request issue); reflexivity.
Qed.

Lemma track_issue_skipped (issue : issue_record) (d : ledger) :
  issue_is_tracked issue = false ->
  track_issue analysis_window_days now issue d = Ok d.
Proof. intros H. rewrite track_issue_eq. cbv zeta. now rewrite H. Qed.

(** Steps 2 to 4 on a record whose author is known and not a bot. *)
Lemma track_issue_kept (issue : issue_record) (d : ledger) :
  issue_is_tracked issue = true -> ledger_ok d ->
  let a := issue_author issue in
  match quarter_of (issue_created_at issue) with
  | Raise e => track_issue analysis_window_days now issue d = Raise e
  | Ok quarter =>
      exists d1,
        track_issue analysis_window_days now issue d = Ok d1
        /\ ledger_ok d1
        /\ (forall l, In l (Ledger.keys d1)
                      <-> In l (Ledger.keys d) \/ l = a
                          \/ 0 < reviews_by l a (issue_reviews issue))
        /\ (forall f da dr dc, starts_at_zero f ->
              steps_by f (fun c => bumped quarter (author_step issue c)) da ->
              steps_by f (fun c => bumped quarter (add_reviews_given 1 c)) dr ->
              steps_by f (add_comments_made (comment_share issue)) dc ->
              forall l,
                count_of f l d1
                = count_of f l d
                  + (if String.eqb a l then da else 0)
                  + dr * reviews_by l a (issue_reviews issue)
                  + (if Ledger.mem l d1 then dc * comment_hits l issue else 0))
  end.
Proof.
  intros Htracked Hok a. rewrite track_issue_eq. cbv zeta. fold a.
  rewrite Htracked.
  destruct (quarter_of (issue_created_at issue)) as [quarter|e] eqn:Hquarter;
    [|reflexivity].
  cbn [rbind].
  pose proof (quarter_of_in_range _ _ _ _ Hquarter) as Hrange.
  destruct (touch_bump_stored a (new_contributor a "" "N/A") (author_step issue)
              quarter d Hok (new_contributor_shape _ _ _)
              (author_step_ok issue) Hrange)
    as (d2 & Hrun & Hst & Hok2).
  destruct (Ledger.update a _ _) as [d1|e]; [|discriminate].
  cbn [rbind] in Hrun |- *. rewrite Hrun. cbn [rbind].
  destruct (track_reviews_spec a quarter (issue_reviews issue) d2 Hok2 Hrange)
    as (d3 & -> & Hok3 & Hkeys3 & Hcount3).
  cbn [rbind].
  destruct (track_comments_spec issue d3 Hok3)
    as (d4 & -> & Hok4 & Hkeys4 & Hcount4).
  exists d4. split; [reflexivity|]. split; [exact Hok4|]. split.
  - intros l. rewrite Hkeys4, Hkeys3, (stored_keys_In _ _ _ _ l Hst). tauto.
  - intros f da dr dc Hzero Ha Hr Hc l.
    rewrite (Hcount4 f dc Hc l), (Hcount3 f dr Hzero Hr l).
    rewrite (stored_count f _ _ _ da d d2 l Hok
               (new_contributor_shape _ _ _) (Hzero _ _ _) Ha Hst).
    rewrite (mem_same_keys l d3 d4 Hkeys4). reflexivity.
Qed.

End StepFacts.

(** ** All records *)

Section LoopFacts.

Variable custom_domains : list string.
Variable analysis_window_days : Z.
Variable now : Z.

Let quarter_of := get_quarter analysis_window_days now.
Let bucket := quarter_or_none analysis_window_days now.

Lemma bucket_in_range (date_obj : option Z) : quarter_in_range (bucket date_obj).
Proof.
  unfold bucket, quarter_or_none.
  destruct (get_quarter analysis_window_days now date_obj) as [q|e] eqn:E;
    [|constructor].
  eapply quarter_of_in_range. exact E.
Qed.

(** Step 1 over a list of commits. *)
Lemma track_commits_spec (commits : list commit_record) (d d1 : ledger) :
  ledger_ok d ->
  for_each (track_commit custom_domains analysis_window_days now) commits d = Ok d1 ->
  ledger_ok d1
  /\ (forall l, In l (Ledger.keys d1)
                <-> In l (Ledger.keys d)
                    \/ exists commit, In commit commits
                                      /\ commit_counts_for l commit = true)
  /\ (forall f dc, starts_at_zero f ->
        (forall q, quarter_in_range q ->
                   steps_by f (fun c => bumped q (add_commits 1 c)) (dc q)) ->
        forall l,
          count_of f l d1
          = count_of f l d
            + sum_over
                (fun commit =>
                   if commit_counts_for l commit
                   then dc (bucket (commit_date commit)) else 0)
                commits).
Proof.
  revert d. induction commits as [|commit commits IH]; intros d Hok Hrun.
  - injection Hrun as <-. split; [exact Hok|]. split.
    + intros l. split; [tauto | intros [H | (c & [] & _)]; exact H].
    + intros f dc _ _ l. simpl. lia.
  - simpl in Hrun. bind_inv Hrun. rename a into d', Ha into Hfirst.
    unfold commit_counts_for in *.
    destruct (commit_is_bot commit) eqn:Hbot.
    + rewrite track_commit_skipped in Hfirst by exact Hbot. injection Hfirst as <-.
      destruct (IH d Hok Hrun) as (Hok1 & Hkeys & Hcount).
      split; [exact Hok1|]. split.
      * intros l. rewrite Hkeys. split.
        -- intros [H | (c & Hin & Hc)]; [tauto|]. right. exists c. split; [now right | exact Hc].
        -- intros [H | (c & [<- | Hin] & Hc)]; [tauto | | right; eauto].
           rewrite Hbot in Hc. discriminate.
      * intros f dc Hzero Hstep l. rewrite (Hcount f dc Hzero Hstep l).
        simpl. rewrite Hbot. simpl. lia.
    + destruct (track_commit_kept custom_domains analysis_window_days now
                  commit d Hbot Hok) as (email_type & Hkept).
      cbv zeta in Hkept. unfold bucket, quarter_or_none.
      destruct (get_quarter analysis_window_days now (commit_date commit))
        as [quarter|e] eqn:Hquarter; [|congruence].
      destruct Hkept as (d'' & Hrun' & Hst & Hok').
      assert (d'' = d') by congruence. subst d''.
      destruct (IH d' Hok' Hrun) as (Hok1 & Hkeys & Hcount).
      split; [exact Hok1|]. split.
      * intros l. rewrite Hkeys, (stored_keys_In _ _ _ _ l Hst). split.
        -- intros [[H | ->] | (c & Hin & Hc)]; [tauto | | right; exists c; split; [now right | exact Hc]].
           right. exists commit. rewrite Hbot, String.eqb_refl. split; [now left | reflexivity].
        -- intros [H | (c & [<- | Hin] & Hc)]; [tauto | | right; eauto].
           rewrite Hbot in Hc. simpl in Hc. apply String.eqb_eq in Hc. auto.
      * intros f dc Hzero Hstep l. rewrite (Hcount f dc Hzero Hstep l).
        pose proof (quarter_of_in_range _ _ _ _ Hquarter) as Hrange.
        rewrite (stored_count f _ _ _ (dc quarter) d d' l Hok
                   (new_contributor_shape _ _ _) (Hzero _ _ _)
                   (Hstep quarter Hrange) Hst).
        simpl sum_over. rewrite Hbot, Hquarter. cbn [negb andb].
        unfold bucket, quarter_or_none. lia.
Qed.

(** Steps 2 to 4 over a list of issues and pull requests; the read-outs
    that the comment shares leave alone. *)
Lemma track_issues_spec (issues : list issue_record) (d d1 : ledger) :
  ledger_ok d ->
  for_each (track_issue analysis_window_days now) issues d = Ok d1 ->
  ledger_ok d1
  /\ (forall l, In l (Ledger.keys d1)
                <-> In l (Ledger.keys d)
                    \/ exists issue,
                         In issue issues /\ issue_is_tracked issue = true
                         /\ (l = issue_author issue
                             \/ 0 < reviews_by l (issue_author issue)
                                      (issue_reviews issue)))
  /\ (forall f da dr, starts_at_zero f ->
        (forall issue q, quarter_in_range q ->
           steps_by f (fun c => bumped q (author_step issue c)) (da issue q)) ->
        (forall q, quarter_in_range q ->
           steps_by f (fun c => bumped q (add_reviews_given 1 c)) (dr q)) ->
        (forall s, steps_by f (add_comments_made s) 0) ->
        forall l,
          count_of f l d1
          = count_of f l d
            + sum_over
                (fun issue =>
                   if issue_is_tracked issue then
                     let q := bucket (issue_created_at issue) in
                     (if String.eqb (issue_author issue) l then da issue q else 0)
                     + dr q * reviews_by l (issue_author issue) (issue_reviews issue)
                   else 0)
                issues).
Proof.
  revert d. induction issues as [|issue issues IH]; intros d Hok Hrun.
  - injection Hrun as <-. split; [exact Hok|]. split.
    + intros l. split; [tauto | intros [H | (c & [] & _)]; exact H].
    + intros f da dr _ _ _ _ l. simpl. lia.
  - simpl in Hrun. bind_inv Hrun. rename a into d', Ha into Hfirst.
    destruct (issue_is_tracked issue) eqn:Htracked.
    + pose proof (track_issue_kept analysis_window_days now issue d Htracked Hok)
        as Hkept.
      cbv zeta in Hkept.
      destruct (get_quarter analysis_window_days now (issue_created_at issue))
        as [quarter|e] eqn:Hquarter; [|congruence].
      assert (Hbucket : bucket (issue_created_at issue) = quarter).
      { unfold bucket, quarter_or_none. now rewrite Hquarter. }
      destruct Hkept as (d'' & Hrun' & Hok' & Hkeys' & Hcount').
      assert (d'' = d') by congruence. subst d''.
      destruct (IH d' Hok' Hrun) as (Hok1 & Hkeys & Hcount).
      split; [exact Hok1|]. split.
      * intros l. rewrite Hkeys, Hkeys'. split.
        -- intros [[H | H] | (i & Hin & Hi)]; [tauto | |].
           ++ right. exists issue. split; [now left|]. split; [exact Htracked | exact H].
           ++ right. exists i. split; [now right | exact Hi].
        -- intros [H | (i & [<- | Hin] & Ht & Hi)]; [tauto | tauto |].
           right. exists i. tauto.
      * intros f da dr Hzero Ha Hr Hc l.
        rewrite (Hcount f da dr Hzero Ha Hr Hc l).
        pose proof (quarter_of_in_range _ _ _ _ Hquarter) as Hrange.
        rewrite (Hcount' f (da issue quarter) (dr quarter) 0 Hzero
                   (Ha issue quarter Hrange) (Hr quarter Hrange) (Hc _) l).
        simpl sum_over. rewrite Htracked. cbv zeta. rewrite Hbucket.
        destruct (Ledger.mem l d'); lia.
    + rewrite track_issue_skipped in Hfirst by exact Htracked. injection Hfirst as <-.
      destruct (IH d Hok Hrun) as (Hok1 & Hkeys & Hcount).
      split; [exact Hok1|]. split.
      * intros l. rewrite Hkeys. split.
        -- intros [H | (i & Hin & Hi)]; [tauto|]. right. exists i. split; [now right | exact Hi].
        -- intros [H | (i & [<- | Hin] & Ht & Hi)]; [tauto | congruence |].
           right. exists i. tauto.
      * intros f da dr Hzero Ha Hr Hc l.
        rewrite (Hcount f da dr Hzero Ha Hr Hc l).
        simpl sum_over. rewrite Htracked. lia.
Qed.

(** On a window of four days or more no record makes the loops raise. *)
Lemma track_commits_return (commits : list commit_record) (d : ledger) :
  4 <= analysis_window_days -> ledger_ok d ->
  exists d1,
    for_each (track_commit custom_domains analysis_window_days now) commits d
    = Ok d1.
Proof.
  intros Hw. revert d. induction commits as [|commit commits IH]; intros d Hok.
  - eexists. reflexivity.
  - simpl. destruct (commit_is_bot commit) eqn:Hbot.
    + rewrite track_commit_skipped by exact Hbot. simpl. auto.
    + destruct (track_commit_kept custom_domains analysis_window_days now
                  commit d Hbot Hok) as (email_type & Hkept).
      cbv zeta in Hkept.
      destruct (get_quarter_returns analysis_window_days now
                  (commit_date commit) Hw) as (q & Hq).
      rewrite Hq in Hkept. destruct Hkept as (d' & -> & _ & Hok'). simpl. auto.
Qed.

Lemma track_issues_return (issues : list issue_record) (d : ledger) :
  4 <= analysis_window_days -> ledger_ok d ->
  exists d1,
    for_each (track_issue analysis_window_days now) issues d = Ok d1.
Proof.
  intros Hw. revert d. induction issues as [|issue issues IH]; intros d Hok.
  - eexists. reflexivity.
  - simpl. destruct (issue_is_tracked issue) eqn:Htracked.
    + pose proof (track_issue_kept analysis_window_days now issue d Htracked Hok)
        as Hkept.
      cbv zeta in Hkept.
      destruct (get_quarter_returns analysis_window_days now
                  (issue_created_at issue) Hw) as (q & Hq).
      rewrite Hq in Hkept. destruct Hkept as (d' & -> & Hok' & _). simpl. auto.
    + rewrite track_issue_skipped by exact Htracked. simpl. auto.
Qed.

End LoopFacts.

(** ** Totals and trends *)

Lemma gt_iff (a b : Q) : PyNum.gt a b = true <-> (b < a)%Q.
Proof.
  unfold PyNum.gt. destruct (Qle_bool a b) eqn:E; simpl.
  - apply Qle_bool_iff in E. split; [discriminate|].
    intros H. exfalso. apply (Qlt_not_le _ _ H E).
  - split; [intros _ | reflexivity].
    apply Qnot_le_lt. intros H. apply Qle_bool_iff in H. congruence.
Qed.

Lemma lt_iff (a b : Q) : PyNum.lt a b = true <-> (a < b)%Q.
Proof.
  unfold PyNum.lt. destruct (Qle_bool b a) eqn:E; simpl.
  - apply Qle_bool_iff in E. split; [discriminate|].
    intros H. exfalso. apply (Qlt_not_le _ _ H E).
  - split; [intros _ | reflexivity].
    apply Qnot_le_lt. intros H. apply Qle_bool_iff in H. congruence.
Qed.

Lemma compute_trend_spec (q0 q1 q2 q3 total : Z) :
  0 <= q0 -> 0 <= q1 -> 0 <= q2 -> 0 <= q3 -> 10 <= total ->
  exists label,
    compute_trend [q0; q1; q2; q3] = Ok label
    /\ trend_as_specified q0 q1 q2 q3 total label.
Proof.
  intros H0 H1 H2 H3 Htotal. unfold compute_trend, trend_as_specified.
  change (PyList.item [q0; q1; q2; q3] 2) with (Ok (A := Z) q2).
  change (PyList.item [q0; q1; q2; q3] 3) with (Ok (A := Z) q3).
  change (PyList.item [q0; q1; q2; q3] 0) with (Ok (A := Z) q0).
  change (PyList.item [q0; q1; q2; q3] 1) with (Ok (A := Z) q1).
  cbn [rbind]. cbv zeta.
  set (recent := q2 + q3). set (older := q0 + q1).
  assert (0 <= recent) by (unfold recent; lia).
  assert (0 <= older) by (unfold older; lia).
  destruct ((older =? 0) && (recent >? 0)) eqn:E1.
  { eexists. split; [reflexivity|]. split; [lia|]. intros _.
    repeat split; intros; try reflexivity; exfalso; lia. }
  destruct ((recent =? 0) && (older >? 0)) eqn:E2.
  { eexists. split; [reflexivity|]. split; [lia|]. intros _.
    repeat split; intros; try reflexivity; exfalso; lia. }
  destruct ((older =? 0) && (recent =? 0)) eqn:E3.
  { eexists. split; [reflexivity|]. split; [lia|]. intros _.
    repeat split; intros; try reflexivity; exfalso; lia. }
  assert (Holder : (older >? 0) = true) by lia.
  rewrite Holder. unfold pyfloat_gt, pyfloat_lt, PyNum.truediv.
  set (ratio := (inject_Z recent / inject_Z older)%Q).
  destruct (PyNum.gt ratio (3 # 2)) eqn:Egt.
  { apply gt_iff in Egt.
    eexists. split; [reflexivity|]. split; [lia|]. intros _.
    split; [intros; exfalso; lia|]. split; [intros; exfalso; lia|].
    split; [intros; exfalso; lia|]. intros _ _ _. cbv zeta. fold ratio.
    split; [reflexivity|]. split; [intros Hlt; exfalso; lra | contradiction]. }
  assert (Hngt : ~ (3 # 2 < ratio)%Q).
  { intros Hlt. apply gt_iff in Hlt. congruence. }
  destruct (PyNum.lt ratio (67 # 100)) eqn:Elt.
  { apply lt_iff in Elt.
    eexists. split; [reflexivity|]. split; [lia|]. intros _.
    split; [intros; exfalso; lia|]. split; [intros; exfalso; lia|].
    split; [intros; exfalso; lia|]. intros _ _ _. cbv zeta. fold ratio.
    split; [contradiction|]. split; [reflexivity | contradiction]. }
  assert (Hnlt : ~ (ratio < 67 # 100)%Q).
  { intros Hlt. apply lt_iff in Hlt. congruence. }
  eexists. split; [reflexivity|]. split; [lia|]. intros _.
  split; [intros; exfalso; lia|]. split; [intros; exfalso; lia|].
  split; [intros; exfalso; lia|]. intros _ _ _. cbv zeta. fold ratio.
  split; [contradiction|]. split; [contradiction | reflexivity].
Qed.

Lemma shape_quarters (c : contributor) :
  shape_ok c ->
  exists q0 q1 q2 q3,
    quarterly_activity c = [q0; q1; q2; q3]
    /\ 0 <= q0 /\ 0 <= q1 /\ 0 <= q2 /\ 0 <= q3.
Proof.
  intros (Hlen & Hnn & _).
  destruct (quarterly_activity c) as [|q0 [|q1 [|q2 [|q3 [|? ?]]]]];
    try discriminate.
  exists q0, q1, q2, q3. split; [reflexivity|].
  repeat match goal with
         | H : Forall _ (_ :: _) |- _ => apply Forall_cons in H as [? H]
         end.
  auto.
Qed.

(** The loop body that sets [total_activity] and [activity_trend]. *)
Lemma finalize_contributor_spec (c : contributor) :
  shape_ok c ->
  exists q0 q1 q2 q3 label,
    quarterly_activity c = [q0; q1; q2; q3]
    /\ finalize_contributor c
       = Ok (set_activity_trend label (set_total_activity (five_counters c) c))
    /\ trend_as_specified q0 q1 q2 q3 (five_counters c) label.
Proof.
  intros Hshape.
  destruct (shape_quarters c Hshape) as (q0 & q1 & q2 & q3 & Hq & H0 & H1 & H2 & H3).
  exists q0, q1, q2, q3. unfold finalize_contributor. fold (five_counters c).
  cbn [total_activity set_total_activity quarterly_activity]. rewrite Hq.
  destruct (five_counters c >=? 10) eqn:E.
  - destruct (compute_trend_spec q0 q1 q2 q3 (five_counters c) H0 H1 H2 H3)
      as (label & -> & Hlabel); [lia|].
    exists label. split; [reflexivity|]. split; [reflexivity | exact Hlabel].
  - exists "insufficient_data". split; [reflexivity|]. split; [reflexivity|].
    split; [reflexivity|]. intros Hge. exfalso. lia.
Qed.

Lemma finalize_spec (d : ledger) :
  (forall k c, In (k, c) d -> shape_ok c) ->
  exists d1,
    finalize d = Ok d1
    /\ Ledger.keys d1 = Ledger.keys d
    /\ Forall2
         (fun old new =>
            fst new = fst old /\ finalize_contributor (snd old) = Ok (snd new))
         d d1.
Proof.
  induction d as [|[k c] d IH]; intros Hshape.
  - exists []. repeat split. constructor.
  - destruct IH as (d1 & Hrun & Hkeys & Hall).
    { intros k' c' Hin. apply (Hshape k' c'). now right. }
    destruct (finalize_contributor_spec c) as (q0 & q1 & q2 & q3 & label & _ & Hc & _).
    { apply (Hshape k c). now left. }
    simpl. rewrite Hc, Hrun. simpl. eexists. split; [reflexivity|].
    split; [simpl; now rewrite Hkeys|].
    constructor; [|exact Hall]. split; [reflexivity | exact Hc].
Qed.

Lemma ledger_ok_In (d : ledger) (k : string) (c : contributor) :
  ledger_ok d -> In (k, c) d -> entry_ok c.
Proof.
  intros [Hnd Hentries] Hin. apply (Hentries k c).
  now apply LedgerFacts.In_get.
Qed.

Lemma reviews_by_pos (l a : string) (reviews : list review_record) :
  0 < reviews_by l a reviews
  <-> exists review, In review reviews /\ review_counts a review = true
                     /\ reviewer review = l.
Proof.
  induction reviews as [|r rs IH].
  - unfold reviews_by. simpl. split; [lia | intros (r & [] & _)].
  - rewrite reviews_by_cons. pose proof (reviews_by_nonneg l a rs).
    destruct (review_counts a r) eqn:Hc; cbn [andb].
    + destruct (String.eqb_spec (reviewer r) l) as [Heq|Hne].
      * split; [intros _ | lia]. exists r. split; [now left | tauto].
      * split.
        -- intros Hpos. destruct IH as [IH _].
           destruct IH as (r' & Hin & Hr'); [lia|]. exists r'. split; [now right | exact Hr'].
        -- intros (r' & [<- | Hin] & Hc' & Hl); [congruence|].
           assert (0 < reviews_by l a rs) by (apply IH; eauto). lia.
    + split.
      * intros Hpos. destruct IH as [IH _].
        destruct IH as (r' & Hin & Hr'); [lia|]. exists r'. split; [now right | exact Hr'].
      * intros (r' & [<- | Hin] & Hc' & Hl); [congruence|].
        assert (0 < reviews_by l a rs) by (apply IH; eauto). lia.
Qed.

Lemma sum_over_pos {A : Type} (g : A -> Z) (xs : list A) :
  (forall x, 0 <= g x) -> 0 < sum_over g xs -> exists x, In x xs /\ 0 < g x.
Proof.
  intros Hg. induction xs as [|x xs IH]; simpl; [lia|].
  intros Hpos. destruct (Z_lt_dec 0 (g x)) as [Hx|Hx].
  - exists x. split; [now left | exact Hx].
  - destruct IH as (y & Hin & Hy); [specialize (Hg x); lia|].
    exists y. split; [now right | exact Hy].
Qed.

Lemma Forall2_finalize_get (d0 d : ledger) (k : string) :
  Forall2
    (fun old new =>
       fst new = fst old /\ finalize_contributor (snd old) = Ok (snd new))
    d0 d ->
  match Ledger.get k d0 with
  | Some c => exists c', Ledger.get k d = Some c'
                         /\ finalize_contributor c = Ok c'
  | None => Ledger.get k d = None
  end.
Proof.
  induction 1 as [|[k0 c0] [k1 c1] d0 d [Hk Hc] Hall IH]; simpl in *.
  - reflexivity.
  - subst k1. destruct (String.eqb k0 k); [eauto | exact IH].
Qed.

Lemma finalize_contributor_fields (c c' : contributor) :
  finalize_contributor c = Ok c' ->
  name c' = name c /\ email c' = email c /\ email_type c' = email_type c
  /\ commits c' = commits c /\ issues_created c' = issues_created c
  /\ prs_created c' = prs_created c /\ reviews_given c' = reviews_given c
  /\ comments_made c' = comments_made c
  /\ quarterly_activity c' = quarterly_activity c
  /\ total_activity c' = five_counters c
  /\ exists label, activity_trend c' = Some label.
Proof.
  unfold finalize_contributor. fold (five_counters c).
  destruct (total_activity _ >=? 10).
  - intros H. bind_inv H. injection H as <-. simpl. repeat split; eauto.
  - intros [= <-]. simpl. repeat split; eauto.
Qed.

(** ** The aggregation pass as a whole *)

Section AggregateFacts.

Variable custom_domains : list string.
Variable analysis_window_days : Z.
Variable now_commits now_issues now : Z.

Let bucket := quarter_or_none analysis_window_days now.
Let recent_commits := _filter_recent_commits analysis_window_days now_commits.
Let recent_issues := _filter_recent_issues analysis_window_days now_issues.
Let run_fold :=
  fold_records custom_domains analysis_window_days now_commits now_issues now.
Let run_aggregate :=
  aggregate custom_domains analysis_window_days now_commits now_issues now.

(** The ledger after steps 1 to 4: which logins it holds, and every
    read-out that the comment shares leave alone. *)
Lemma fold_records_spec (commits : list commit_record)
    (issues : list issue_record) (d : ledger) :
  run_fold commits issues = Ok d ->
  ledger_ok d
  /\ (forall l, In l (Ledger.keys d)
                <-> (exists commit, In commit (recent_commits commits)
                                    /\ commit_counts_for l commit = true)
                    \/ exists issue,
                         In issue (recent_issues issues)
                         /\ issue_is_tracked issue = true
                         /\ (l = issue_author issue
                             \/ 0 < reviews_by l (issue_author issue)
                                      (issue_reviews issue)))
  /\ (forall f dc da dr, starts_at_zero f ->
        (forall q, quarter_in_range q ->
           steps_by f (fun c => bumped q (add_commits 1 c)) (dc q)) ->
        (forall issue q, quarter_in_range q ->
           steps_by f (fun c => bumped q (author_step issue c)) (da issue q)) ->
        (forall q, quarter_in_range q ->
           steps_by f (fun c => bumped q (add_reviews_given 1 c)) (dr q)) ->
        (forall s, steps_by f (add_comments_made s) 0) ->
        forall l,
          count_of f l d
          = sum_over
              (fun commit =>
                 if commit_counts_for l commit
                 then dc (bucket (commit_date commit)) else 0)
              (recent_commits commits)
            + sum_over
                (fun issue =>
                   if issue_is_tracked issue then
                     let q := bucket (issue_created_at issue) in
                     (if String.eqb (issue_author issue) l then da issue q else 0)
                     + dr q * reviews_by l (issue_author issue) (issue_reviews issue)
                   else 0)
                (recent_issues issues)).
Proof.
  unfold run_fold, fold_records. intros Hrun. bind_inv Hrun. rename a into d0.
  destruct (track_commits_spec _ _ _ _ _ _ LedgerFacts.empty_ok Ha)
    as (Hok0 & Hkeys0 & Hcount0).
  destruct (track_issues_spec _ _ _ _ _ Hok0 Hrun) as (Hok & Hkeys & Hcount).
  split; [exact Hok|]. split.
  - intros l. rewrite Hkeys, Hkeys0. simpl. unfold recent_commits, recent_issues.
    tauto.
  - intros f dc da dr Hzero Hc Hauthor Hr Hcomments l.
    rewrite (Hcount f da dr Hzero Hauthor Hr Hcomments l).
    rewrite (Hcount0 f dc Hzero Hc l). unfold count_of. simpl.
    unfold recent_commits, recent_issues, bucket. lia.
Qed.

Lemma aggregate_spec (commits : list commit_record)
    (issues : list issue_record) (d : ledger) :
  run_aggregate commits issues = Ok d ->
  exists d0,
    run_fold commits issues = Ok d0
    /\ ledger_ok d0
    /\ Ledger.keys d = Ledger.keys d0
    /\ Forall2
         (fun old new =>
            fst new = fst old /\ finalize_contributor (snd old) = Ok (snd new))
         d0 d.
Proof.
  unfold run_aggregate, aggregate. intros Hrun. bind_inv Hrun. rename a into d0.
  exists d0. fold run_fold in Ha. split; [exact Ha|].
  destruct (fold_records_spec _ _ _ Ha) as (Hok & _).
  split; [exact Hok|].
  destruct (finalize_spec d0) as (d1 & Hrun1 & Hkeys & Hall).
  { intros k c Hin. apply (ledger_ok_In d0 k c Hok Hin). }
  assert (d1 = d) by congruence. subst d1. auto.
Qed.

(** The aggregation pass returns on every window of four days or more. *)
Lemma aggregate_returns (commits : list commit_record)
    (issues : list issue_record) :
  4 <= analysis_window_days -> exists d, run_aggregate commits issues = Ok d.
Proof.
  intros Hw. unfold run_aggregate, aggregate, fold_records.
  destruct (track_commits_return custom_domains analysis_window_days now
              (_filter_recent_commits analysis_window_days now_commits commits)
              [] Hw LedgerFacts.empty_ok) as (d0 & Hrun0).
  rewrite Hrun0. cbn [rbind].
  destruct (track_commits_spec _ _ _ _ _ _ LedgerFacts.empty_ok Hrun0)
    as (Hok0 & _).
  destruct (track_issues_return analysis_window_days now
              (_filter_recent_issues analysis_window_days now_issues issues)
              d0 Hw Hok0) as (d1 & Hrun1).
  rewrite Hrun1. cbn [rbind].
  destruct (track_issues_spec _ _ _ _ _ Hok0 Hrun1) as (Hok1 & _).
  destruct (finalize_spec d1) as (d & Hrun & _).
  { intros k c Hin. apply (ledger_ok_In d1 k c Hok1 Hin). }
  eauto.
Qed.

(** The final ledger is a dictionary of well-formed entries whose totals
    and trends are set. *)
Lemma aggregate_entries (commits : list commit_record)
    (issues : list issue_record) (d : ledger) :
  run_aggregate commits issues = Ok d ->
  NoDup (Ledger.keys d)
  /\ forall k c, In (k, c) d ->
       entry_ok c
       /\ total_activity c = five_counters c
       /\ exists q0 q1 q2 q3 label,
            quarterly_activity c = [q0; q1; q2; q3]
            /\ activity_trend c = Some label
            /\ trend_as_specified q0 q1 q2 q3 (total_activity c) label.
Proof.
  intros Hrun. destruct (aggregate_spec _ _ _ Hrun) as (d0 & _ & Hok & Hkeys & Hall).
  split; [rewrite Hkeys; apply Hok|].
  intros k c' Hin.
  assert (Hold : exists c, In (k, c) d0 /\ finalize_contributor c = Ok c').
  { clear - Hall Hin. induction Hall as [|[k0 c0] [k1 c1] d0 d [Hk Hc] Hall IH].
    - destruct Hin.
    - simpl in *. subst k1. destruct Hin as [[= -> ->] | Hin].
      + exists c0. split; [now left | exact Hc].
      + destruct (IH Hin) as (c & Hc0 & Hf). exists c. split; [now right | exact Hf]. }
  destruct Hold as (c & Hin0 & Hfin).
  pose proof (ledger_ok_In d0 k c Hok Hin0) as [Hshape Hactive].
  destruct (finalize_contributor_spec c Hshape)
    as (q0 & q1 & q2 & q3 & label & Hq & Hfin' & Hlabel).
  assert (c' = set_activity_trend label (set_total_activity (five_counters c) c))
    by congruence.
  subst c'. split; [|split].
  - split; [exact Hshape | exact Hactive].
  - reflexivity.
  - exists q0, q1, q2, q3, label. split; [exact Hq|]. split; [reflexivity|].
    exact Hlabel.
Qed.

End AggregateFacts.

(** ** Trend labels *)

(** C5. After the aggregation pass every ledger entry carries a trend
    label, its total activity is the sum of its five counters, and the
    label follows the rule on that sum: below ten activities it is
    ["insufficient_data"]; from ten on, with [recent = q2 + q3] and
    [older = q0 + q1], it is ["increasing"] when [older] is 0 and [recent]
    is positive, ["decreasing"] when [recent] is 0 and [older] is positive,
    ["stable"] when both are 0, and otherwise ["increasing"] when
    [recent / older] exceeds 1.5, ["decreasing"] when it is below 0.67 and
    ["stable"] in between. *)
Theorem trend_labels_follow_the_rule (custom_domains : list string)
    (analysis_window_days now_commits now_issues now : Z)
    (commits : list commit_record) (issues : list issue_record) (d : ledger)
    (login : string) (c : contributor) :
  aggregate custom_domains analysis_window_days now_commits now_issues now
    commits issues = Ok d ->
  In (login, c) d ->
  exists q0 q1 q2 q3 label,
    quarterly_activity c = [q0; q1; q2; q3]
    /\ activity_trend c = Some label
    /\ total_activity c = five_counters c
    /\ trend_as_specified q0 q1 q2 q3 (five_counters c) label.
Proof.
  intros Hrun Hin.
  destruct (aggregate_entries _ _ _ _ _ _ _ _ Hrun) as (_ & Hentries).
  destruct (Hentries login c Hin)
    as (_ & Htotal & q0 & q1 & q2 & q3 & label & Hq & Hlabel & Hrule).
  exists q0, q1, q2, q3, label.
  split; [exact Hq|]. split; [exact Hlabel|]. split; [exact Htotal|].
  rewrite <- Htotal. exact Hrule.
Qed.

Lemma trend_labels_follow_the_rule_witness :
  exists d c,
    aggregate [] 365 0 0 0 twelve_commits [bot_pull_request] = Ok d
    /\ In ("alice", c) d
    /\ commits c = 12
    /\ five_counters c = 12
    /\ quarterly_activity c = [0; 0; 0; 12]
    /\ activity_trend c = Some "increasing".
Proof.
  assert (Hrun : exists d,
            aggregate [] 365 0 0 0 twelve_commits [bot_pull_request] = Ok d
            /\ exists c, In ("alice", c) d).
  { eexists. split; [vm_compute; reflexivity|]. eexists. left. reflexivity. }
  destruct Hrun as (d & Hrun & c & Hin).
  exists d, c. split; [exact Hrun|]. split; [exact Hin|].
  destruct (trend_labels_follow_the_rule [] 365 0 0 0 twelve_commits
              [bot_pull_request] d "alice" c Hrun Hin)
    as (q0 & q1 & q2 & q3 & label & Hq & Hlabel & _ & Hrule).
  enough (Hc : commits c = 12 /\ five_counters c = 12
               /\ quarterly_activity c = [0; 0; 0; 12]).
  { destruct Hc as (Hcommits & Hfive & Hslots).
    split; [exact Hcommits|]. split; [exact Hfive|]. split; [exact Hslots|].
    rewrite Hslots in Hq. injection Hq as <- <- <- <-.
    rewrite Hlabel. f_equal. rewrite Hfive in Hrule.
    unfold trend_as_specified in Hrule. cbv zeta in Hrule.
    destruct Hrule as (_ & Hfrom_ten).
    destruct Hfrom_ten as (Hincreasing & _); [lia|].
    apply Hincreasing. lia. }
  clear - Hrun Hin. revert Hrun. vm_compute. intros [= <-].
  destruct Hin as [[= <-] | []].
  split; [reflexivity|]. split; reflexivity.
Defined.

(** ** Who is in the ledger *)

Lemma commit_counts_for_iff (l : string) (commit : commit_record) :
  commit_counts_for l commit = true
  <-> commit_is_bot commit = false /\ commit_author commit = l.
Proof.
  unfold commit_counts_for. rewrite andb_true_iff, negb_true_iff, String.eqb_eq.
  tauto.
Qed.

Lemma review_counts_iff (a : string) (review : review_record) :
  review_counts a review = true
  <-> reviewer review <> "unknown"
      /\ _is_bot_account (reviewer review) "" "" = false
      /\ reviewer review <> a.
Proof.
  unfold review_counts.
  rewrite !andb_true_iff, !negb_true_iff, !String.eqb_neq. tauto.
Qed.

(** C2. After the aggregation pass, a login other than the placeholder
    ["unknown"] is in the ledger exactly when it is the author of an
    in-window commit that passes the bot test, or the known, non-bot author
    of an in-window issue or pull request, or a non-bot reviewer on such a
    record (one whose own author is known and not a bot); no login occurs
    twice; and the total activity of every entry is the sum of its five
    counters. *)
Theorem ledger_logins_and_totals (custom_domains : list string)
    (analysis_window_days now_commits now_issues now : Z)
    (raw_commits : list commit_record) (raw_issues : list issue_record)
    (d : ledger) :
  aggregate custom_domains analysis_window_days now_commits now_issues now
    raw_commits raw_issues = Ok d ->
  (forall l, l <> "unknown" ->
     (In l (Ledger.keys d)
      <-> (exists commit,
             In commit (_filter_recent_commits analysis_window_days
                          now_commits raw_commits)
             /\ commit_is_bot commit = false /\ commit_author commit = l)
          \/ (exists issue,
                In issue (_filter_recent_issues analysis_window_days
                            now_issues raw_issues)
                /\ issue_is_tracked issue = true
                /\ (issue_author issue = l
                    \/ exists review,
                         In review (issue_reviews issue)
                         /\ reviewer review = l
                         /\ _is_bot_account l "" "" = false))))
  /\ NoDup (Ledger.keys d)
  /\ (forall login c, In (login, c) d ->
        total_activity c
        = commits c + issues_created c + prs_created c + reviews_given c
          + comments_made c).
Proof.
  intros Hrun.
  destruct (aggregate_spec _ _ _ _ _ _ _ _ Hrun) as (d0 & Hfold & _ & Hkeys & _).
  destruct (fold_records_spec _ _ _ _ _ _ _ _ Hfold) as (_ & Hlogins & _).
  destruct (aggregate_entries _ _ _ _ _ _ _ _ Hrun) as (Hnd & Hentries).
  split; [|split; [exact Hnd|]].
  - intros l Hl. rewrite Hkeys, Hlogins. split.
    + intros [(commit & Hin & Hc) | (issue & Hin & Ht & Hi)].
      * left. exists commit. apply commit_counts_for_iff in Hc. tauto.
      * right. exists issue. split; [exact Hin|]. split; [exact Ht|].
        destruct Hi as [-> | Hpos]; [now left|]. right.
        apply reviews_by_pos in Hpos as (review & Hr & Hc & <-).
        apply review_counts_iff in Hc. exists review. tauto.
    + intros [(commit & Hin & Hc) | (issue & Hin & Ht & Hi)].
      * left. exists commit. split; [exact Hin|].
        now apply commit_counts_for_iff.
      * right. exists issue. split; [exact Hin|]. split; [exact Ht|].
        destruct Hi as [<- | (review & Hr & <- & Hbot)]; [now left|].
        destruct (string_dec (reviewer review) (issue_author issue)) as [Heq|Hne];
          [now left|].
        right. apply reviews_by_pos. exists review. split; [exact Hr|].
        split; [|reflexivity]. apply review_counts_iff. tauto.
  - intros login c Hin. destruct (Hentries login c Hin) as (_ & Htotal & _).
    exact Htotal.
Qed.

Lemma ledger_logins_and_totals_witness :
  exists d,
    aggregate [] 365 0 0 0 twelve_commits [bot_pull_request] = Ok d
    /\ (In "alice" (Ledger.keys d)
        <-> (exists commit,
               In commit (_filter_recent_commits 365 0 twelve_commits)
               /\ commit_is_bot commit = false /\ commit_author commit = "alice")
            \/ (exists issue,
                  In issue (_filter_recent_issues 365 0 [bot_pull_request])
                  /\ issue_is_tracked issue = true
                  /\ (issue_author issue = "alice"
                      \/ exists review,
                           In review (issue_reviews issue)
                           /\ reviewer review = "alice"
                           /\ _is_bot_account "alice" "" "" = false))).
Proof.
  assert (Hrun : exists d,
            aggregate [] 365 0 0 0 twelve_commits [bot_pull_request] = Ok d).
  { eexists. vm_compute. reflexivity. }
  destruct Hrun as (d & Hrun). exists d. split; [exact Hrun|].
  apply (ledger_logins_and_totals [] 365 0 0 0 twelve_commits
           [bot_pull_request] d Hrun).
  discriminate.
Defined.

(** Counterexample to the literal reading of C2: a person who reviews an
    in-window pull request opened by a bot is a known, non-bot reviewer in
    the window, yet gets no ledger entry, because the record is skipped as
    a whole. *)
Lemma reviewer_of_bot_pull_request_missing :
  ~ ledger_logins_as_claimed [] 365 0 0 0 [] [bot_pull_request].
Proof.
  intros Hclaim.
  specialize (Hclaim [] eq_refl "alice"). destruct Hclaim as [_ Hin].
  apply Hin. split; [discriminate|]. right. right.
  exists bot_pull_request, (review_by "alice").
  repeat split; try reflexivity; left; reflexivity.
Qed.

(** ** Reviews and their quarter *)

Lemma sum_over_ext {A : Type} (g h : A -> Z) (xs : list A) :
  (forall x, g x = h x) -> sum_over g xs = sum_over h xs.
Proof. intros H. induction xs as [|x xs IH]; simpl; [reflexivity | now rewrite H, IH]. Qed.

Lemma finalize_keeps_count (f : counter) (d0 d : ledger) (l : string) :
  (forall c c', finalize_contributor c = Ok c' -> f c' = f c) ->
  Forall2
    (fun old new =>
       fst new = fst old /\ finalize_contributor (snd old) = Ok (snd new))
    d0 d ->
  count_of f l d = count_of f l d0.
Proof.
  intros Hf Hall. pose proof (Forall2_finalize_get d0 d l Hall) as Hget.
  unfold count_of. destruct (Ledger.get l d0) as [c|].
  - destruct Hget as (c' & -> & Hc). now apply Hf.
  - now rewrite Hget.
Qed.

Lemma bumped_reviews_given (q : option Z) (c : contributor) :
  reviews_given (bumped q c) = reviews_given c.
Proof. destruct q; reflexivity. Qed.

Lemma bumped_comments_made (q : option Z) (c : contributor) :
  comments_made (bumped q c) = comments_made c.
Proof. destruct q; reflexivity. Qed.

Lemma reviews_given_steps :
  starts_at_zero reviews_given
  /\ (forall q, steps_by reviews_given (fun c => bumped q (add_commits 1 c)) 0)
  /\ (forall issue q,
        steps_by reviews_given (fun c => bumped q (author_step issue c)) 0)
  /\ (forall q,
        steps_by reviews_given (fun c => bumped q (add_reviews_given 1 c)) 1)
  /\ (forall s, steps_by reviews_given (add_comments_made s) 0).
Proof.
  split; [intros n e t; reflexivity|].
  split; [|split; [|split]].
  - intros q c _. rewrite bumped_reviews_given. cbn [reviews_given add_commits]. lia.
  - intros issue q c _. rewrite bumped_reviews_given. unfold author_step.
    destruct (issue_pull_request issue);
      cbn [reviews_given add_prs_created add_issues_created]; lia.
  - intros q c _. rewrite bumped_reviews_given. reflexivity.
  - intros s c _. cbn [reviews_given add_comments_made]. lia.
Qed.

Lemma quarter_slot_steps (j : Z) :
  starts_at_zero (quarter_slot j)
  /\ (forall q, quarter_in_range q ->
        steps_by (quarter_slot j) (fun c => bumped q (add_commits 1 c))
          (in_quarter q j))
  /\ (forall issue q, quarter_in_range q ->
        steps_by (quarter_slot j) (fun c => bumped q (author_step issue c))
          (in_quarter q j))
  /\ (forall q, quarter_in_range q ->
        steps_by (quarter_slot j) (fun c => bumped q (add_reviews_given 1 c))
          (in_quarter q j))
  /\ (forall s, steps_by (quarter_slot j) (add_comments_made s) 0).
Proof.
  split; [apply quarter_slot_zero|].
  split; [|split; [|split]].
  - intros q Hq c Hc.
    rewrite quarter_slot_bumped by (auto; apply add_commits_ok, Hc).
    reflexivity.
  - intros issue q Hq c Hc.
    rewrite quarter_slot_bumped by (auto; apply author_step_ok, Hc).
    unfold author_step. destruct (issue_pull_request issue); reflexivity.
  - intros q Hq c Hc.
    rewrite quarter_slot_bumped by (auto; apply add_reviews_given_ok, Hc).
    reflexivity.
  - intros s c _. unfold quarter_slot. cbn [quarterly_activity add_comments_made].
    lia.
Qed.

(** C7. After the aggregation pass, the [reviews_given] counter of a login
    is the number of nested reviews by that login, known and not a bot, on
    the in-window records whose own author is known, not a bot and someone
    else; a login with such a review has an entry; and each of these reviews
    sits in the quarterly slot of the reviewed record's creation date: slot
    [j] of a login counts its booked commits of quarter [j], the records it
    opened that were created in quarter [j] and its counted reviews on
    records created in quarter [j].  No review timestamp enters. *)
Theorem reviews_credited_in_record_quarter (custom_domains : list string)
    (analysis_window_days now_commits now_issues now : Z)
    (raw_commits : list commit_record) (raw_issues : list issue_record)
    (d : ledger) (l : string) :
  aggregate custom_domains analysis_window_days now_commits now_issues now
    raw_commits raw_issues = Ok d ->
  let recent_commits :=
    _filter_recent_commits analysis_window_days now_commits raw_commits in
  let recent_issues :=
    _filter_recent_issues analysis_window_days now_issues raw_issues in
  let bucket := quarter_or_none analysis_window_days now in
  let credited :=
    sum_over
      (fun issue =>
         if issue_is_tracked issue
         then reviews_by l (issue_author issue) (issue_reviews issue)
         else 0)
      recent_issues in
  count_of reviews_given l d = credited
  /\ (0 < credited -> Ledger.mem l d = true)
  /\ forall j,
       count_of (quarter_slot j) l d
       = sum_over
           (fun commit =>
              if commit_counts_for l commit
              then in_quarter (bucket (commit_date commit)) j else 0)
           recent_commits
         + sum_over
             (fun issue =>
                if issue_is_tracked issue then
                  in_quarter (bucket (issue_created_at issue)) j
                  * ((if String.eqb (issue_author issue) l then 1 else 0)
                     + reviews_by l (issue_author issue) (issue_reviews issue))
                else 0)
             recent_issues.
Proof.
  intros Hrun recent_commits recent_issues bucket credited.
  destruct (aggregate_spec _ _ _ _ _ _ _ _ Hrun) as (d0 & Hfold & _ & Hkeys & Hall).
  destruct (fold_records_spec _ _ _ _ _ _ _ _ Hfold) as (_ & Hlogins & Hcount).
  fold recent_commits recent_issues bucket in Hlogins, Hcount.
  destruct reviews_given_steps as (Hz & Hc & Ha & Hr & Hm).
  assert (Hcredited : count_of reviews_given l d = credited).
  { rewrite (finalize_keeps_count reviews_given d0 d l); [|shelve|exact Hall].
    rewrite (Hcount reviews_given (fun _ => 0) (fun _ _ => 0) (fun _ => 1) Hz
               (fun q _ => Hc q) (fun i q _ => Ha i q) (fun q _ => Hr q) Hm l).
    unfold credited.
    replace (sum_over _ recent_commits) with 0.
    - rewrite Z.add_0_l. apply sum_over_ext. intros issue.
      destruct (issue_is_tracked issue); [|reflexivity]. cbv zeta.
      destruct (String.eqb (issue_author issue) l); lia.
    - clear. induction recent_commits as [|commit cs IH]; simpl; [reflexivity|].
      rewrite <- IH. destruct (commit_counts_for l commit); reflexivity. }
  split; [exact Hcredited|]. split.
  - intros Hpos. apply LedgerFacts.mem_keys. rewrite Hkeys. apply Hlogins.
    right. unfold credited in Hpos.
    apply sum_over_pos in Hpos as (issue & Hin & Hissue).
    + exists issue. split; [exact Hin|].
      destruct (issue_is_tracked issue); [|lia]. split; [reflexivity | now right].
    + intros issue. destruct (issue_is_tracked issue); [|lia].
      apply reviews_by_nonneg.
  - intros j. destruct (quarter_slot_steps j) as (Hz' & Hc' & Ha' & Hr' & Hm').
    rewrite (finalize_keeps_count (quarter_slot j) d0 d l); [|shelve|exact Hall].
    rewrite (Hcount (quarter_slot j) (fun q => in_quarter q j)
               (fun _ q => in_quarter q j) (fun q => in_quarter q j)
               Hz' Hc' Ha' Hr' Hm' l).
    f_equal. apply sum_over_ext. intros issue.
    destruct (issue_is_tracked issue); [|reflexivity]. cbv zeta.
    destruct (String.eqb (issue_author issue) l); lia.
  Unshelve.
  + intros c c' Hfin. apply finalize_contributor_fields in Hfin. tauto.
  + intros c c' Hfin. apply finalize_contributor_fields in Hfin.
    unfold quarter_slot. destruct Hfin as (_ & _ & _ & _ & _ & _ & _ & _ & -> & _).
    reflexivity.
Qed.

Lemma reviews_credited_in_record_quarter_witness :
  exists d,
    aggregate [] 365 0 0 0 []
      [pull_request_by "alice" [review_by "bob"; review_by "alice"] 0 []] = Ok d
    /\ count_of reviews_given "bob" d = 1
    /\ count_of (quarter_slot 3) "bob" d = 1.
Proof.
  assert (Hrun : exists d,
            aggregate [] 365 0 0 0 []
              [pull_request_by "alice" [review_by "bob"; review_by "alice"] 0 []]
            = Ok d).
  { eexists. vm_compute. reflexivity. }
  destruct Hrun as (d & Hrun). exists d. split; [exact Hrun|].
  pose proof (reviews_credited_in_record_quarter [] 365 0 0 0 []
                [pull_request_by "alice" [review_by "bob"; review_by "alice"] 0 []]
                d "bob" Hrun) as (Hcount & _ & Hslot).
  split; [exact Hcount | exact (Hslot 3)].
Defined.

(** Counterexample to the literal reading of C7: the review that a person
    leaves on an in-window pull request opened by a bot is not counted, and
    the reviewer gets no entry. *)
Lemma review_on_bot_pull_request_not_credited :
  ~ every_review_is_credited [] 365 0 0 0 [] [bot_pull_request].
Proof.
  intros Hclaim.
  destruct (Hclaim [] bot_pull_request (review_by "alice") "alice")
    as [Hmem _]; try reflexivity; try discriminate.
  - left. reflexivity.
  - left. reflexivity.
Qed.

(** ** Comment shares *)

Lemma comments_made_steps (share : Z) :
  starts_at_zero comments_made
  /\ (forall issue q,
        steps_by comments_made (fun c => bumped q (author_step issue c)) 0)
  /\ (forall q,
        steps_by comments_made (fun c => bumped q (add_reviews_given 1 c)) 0)
  /\ steps_by comments_made (add_comments_made share) share.
Proof.
  split; [intros n e t; reflexivity|].
  split; [|split].
  - intros issue q c _. rewrite bumped_comments_made. unfold author_step.
    destruct (issue_pull_request issue);
      cbn [comments_made add_prs_created add_issues_created]; lia.
  - intros q c _. rewrite bumped_comments_made.
    cbn [comments_made add_reviews_given]. lia.
  - intros c _. reflexivity.
Qed.

Lemma occurrences_nonneg (l : string) (ps : list string) : 0 <= occurrences l ps.
Proof. unfold occurrences. lia. Qed.

Lemma occurrences_pos (l : string) (ps : list string) :
  In l ps -> 1 <= occurrences l ps.
Proof.
  induction ps as [|p ps IH]; [intros []|].
  rewrite occurrences_cons. pose proof (occurrences_nonneg l ps).
  intros [-> | Hin].
  - rewrite String.eqb_refl. lia.
  - specialize (IH Hin). destruct (String.eqb p l); lia.
Qed.

Lemma occurrences_absent (l : string) (ps : list string) :
  ~ In l ps -> occurrences l ps = 0.
Proof.
  induction ps as [|p ps IH]; [reflexivity|].
  intros Hout. rewrite occurrences_cons, IH by (intros H; apply Hout; now right).
  destruct (String.eqb_spec p l) as [->|]; [|reflexivity].
  exfalso. apply Hout. now left.
Qed.

Lemma occurrences_NoDup (l : string) (ps : list string) :
  NoDup ps -> In l ps -> occurrences l ps = 1.
Proof.
  induction 1 as [|p ps Hout Hnd IH]; [intros []|].
  rewrite occurrences_cons. intros [-> | Hin].
  - rewrite String.eqb_refl, occurrences_absent; [reflexivity|].
    now rewrite <- list_elem_of_In.
  - rewrite (IH Hin). destruct (String.eqb_spec p l) as [->|]; [|reflexivity].
    exfalso. apply Hout. now apply list_elem_of_In.
Qed.

(** C8. A record whose author is unknown or a bot leaves the ledger as it
    is.  For a record with a known, non-bot author, at least one comment
    and at least one human participant, the share is
    [max(1, comments // humans)], never less than 1, and it reaches the
    participants that have a ledger entry once the record's author and
    reviewers are entered: their [comments_made] grows by the share for
    each of their occurrences in the participant list.  A participant
    without an entry gets none and receives nothing.  In particular, nine
    comments and the distinct human participants a, b, c add exactly 3 to
    each of them that has an entry. *)
Theorem comment_shares_reach_known_participants
    (analysis_window_days now : Z) (issue : issue_record) (d d1 : ledger) :
  ledger_ok d ->
  1 <= issue_comments issue ->
  human_participants (issue_participants issue) <> [] ->
  track_issue analysis_window_days now issue d = Ok d1 ->
  let humans := human_participants (issue_participants issue) in
  let share := Z.max 1 (issue_comments issue / Z.of_nat (length humans)) in
  let a := issue_author issue in
  (issue_is_tracked issue = false -> d1 = d)
  /\ (issue_is_tracked issue = true ->
      1 <= share
      /\ forall p,
           (Ledger.mem p d1 = true
            <-> In p (Ledger.keys d) \/ p = a
                \/ 0 < reviews_by p a (issue_reviews issue))
           /\ (Ledger.mem p d1 = true ->
               count_of comments_made p d1
               = count_of comments_made p d + share * occurrences p humans)
           /\ (Ledger.mem p d1 = false ->
               count_of comments_made p d1 = 0
               /\ count_of comments_made p d = 0)
           /\ (In p humans -> 1 <= share * occurrences p humans)
           /\ (issue_comments issue = 9 -> length humans = 3%nat ->
               NoDup humans -> In p humans -> Ledger.mem p d1 = true ->
               count_of comments_made p d1
               = count_of comments_made p d + 3)).
Proof.
  intros Hok Hcomments Hhumans Hrun humans share a. split.
  - intros Hskip. rewrite track_issue_skipped in Hrun by exact Hskip. congruence.
  - intros Htracked.
    pose proof (track_issue_kept analysis_window_days now issue d Htracked Hok)
      as Hkept.
    cbv zeta in Hkept.
    destruct (get_quarter analysis_window_days now (issue_created_at issue))
      as [quarter|e]; [|congruence].
    destruct Hkept as (d1' & Hrun' & Hok1 & Hkeys & Hcount).
    assert (d1' = d1) by congruence. subst d1'.
    assert (Hshare : comment_share issue = share) by reflexivity.
    assert (Hpos : 1 <= share) by (unfold share; lia).
    split; [exact Hpos|]. intros p.
    destruct (comments_made_steps (comment_share issue)) as (Hz & Ha & Hr & Hc).
    pose proof (Hcount comments_made 0 0 (comment_share issue) Hz
                  (Ha issue quarter) (Hr quarter) Hc p) as Hp.
    assert (Hhits : comment_hits p issue = occurrences p humans).
    { unfold comment_hits.
      assert ((issue_comments issue >? 0) = true) as -> by lia. reflexivity. }
    rewrite Hhits, Hshare in Hp.
    assert (Hmem : Ledger.mem p d1 = true
                   <-> In p (Ledger.keys d) \/ p = a
                       \/ 0 < reviews_by p a (issue_reviews issue)).
    { rewrite LedgerFacts.mem_keys. apply Hkeys. }
    assert (Hgiven : Ledger.mem p d1 = true ->
                     count_of comments_made p d1
                     = count_of comments_made p d + share * occurrences p humans).
    { intros Hin. rewrite Hin in Hp.
      destruct (String.eqb (issue_author issue) p); lia. }
    split; [exact Hmem|]. split; [exact Hgiven|]. split; [|split].
    + intros Hout. split.
      * apply LedgerFacts.mem_false in Hout. unfold count_of. now rewrite Hout.
      * unfold count_of. destruct (Ledger.get p d) as [c|] eqn:Hget; [|reflexivity].
        exfalso. apply LedgerFacts.get_Some_keys in Hget.
        assert (Ledger.mem p d1 = true) by (apply Hmem; now left). congruence.
    + intros Hin. pose proof (occurrences_pos p humans Hin). nia.
    + intros Hnine Hthree Hnd Hin Hknown.
      rewrite (Hgiven Hknown), (occurrences_NoDup p humans Hnd Hin).
      unfold share. rewrite Hnine, Hthree. reflexivity.
Qed.

Lemma comment_shares_reach_known_participants_witness :
  exists d1,
    track_issue 365 0 discussed_pull_request [] = Ok d1
    /\ count_of comments_made "alice" d1 = 0 + 3
    /\ count_of comments_made "bob" d1 = 0.
Proof.
  eexists. split; [vm_compute; reflexivity|].
  match goal with
  | |- count_of _ _ ?d1 = _ /\ _ =>
      assert (Hrun : track_issue 365 0 discussed_pull_request [] = Ok d1)
        by (vm_compute; reflexivity);
      assert (Halice : Ledger.mem "alice" d1 = true) by (vm_compute; reflexivity);
      assert (Hbob : Ledger.mem "bob" d1 = false) by (vm_compute; reflexivity)
  end.
  assert (Hone : 1 <= issue_comments discussed_pull_request)
    by (vm_compute; congruence).
  assert (Hhumans :
    human_participants (issue_participants discussed_pull_request)
    = ["alice"; "bob"; "carol"]) by (vm_compute; reflexivity).
  assert (Htracked : issue_is_tracked discussed_pull_request = true)
    by (vm_compute; reflexivity).
  destruct (comment_shares_reach_known_participants 365 0 discussed_pull_request
              [] _ LedgerFacts.empty_ok Hone
              ltac:(rewrite Hhumans; discriminate) Hrun) as (_ & Hshares).
  destruct (Hshares Htracked) as (_ & Hall).
  split.
  - destruct (Hall "alice") as (_ & _ & _ & _ & Hnine).
    apply Hnine; try exact Halice; rewrite ?Hhumans.
    + reflexivity.
    + reflexivity.
    + repeat constructor; rewrite list_elem_of_In; simpl; intuition discriminate.
    + left. reflexivity.
  - destruct (Hall "bob") as (_ & _ & Hnone & _).
    apply (Hnone Hbob).
Defined.

(** Counterexample to the literal reading of C8: on a pull request with
    nine comments and the human participants alice (its author), bob and
    carol, bob has no ledger entry and receives nothing instead of 3. *)
Lemma participant_without_entry_gets_nothing :
  ~ every_participant_gets_a_share 365 0 discussed_pull_request [].
Proof.
  intros Hclaim.
  assert (Hrun : exists d1, track_issue 365 0 discussed_pull_request [] = Ok d1
                            /\ count_of comments_made "bob" d1 = 0).
  { eexists. split; vm_compute; reflexivity. }
  destruct Hrun as (d1 & Hrun & Hbob).
  assert (Hin : In "bob"
                  (human_participants (issue_participants discussed_pull_request))).
  { vm_compute. right. left. reflexivity. }
  specialize (Hclaim d1 Hrun ltac:(vm_compute; congruence) "bob" Hin).
  rewrite Hbob in Hclaim. vm_compute in Hclaim. discriminate Hclaim.
Qed.

(** ** Recommendations *)

Section RecommendationFacts.

Variable format_1f : Q -> string.

Let generate := _generate_recommendations format_1f.

Lemma nonempty_or_healthy_In (m : string) (l : list string) :
  In m (match l with [] => [healthy_message] | _ :: _ => l end) ->
  In m l \/ m = healthy_message.
Proof. destruct l; simpl; intuition. Qed.

Lemma nonempty_or_healthy_keeps (m : string) (l : list string) :
  In m l -> In m (match l with [] => [healthy_message] | _ :: _ => l end).
Proof. destruct l; simpl; intuition. Qed.

(** Every recommendation comes from the primary-contributor block or is
    one of the later messages. *)
Lemma generate_members (risk_factors : Report.t) (m : string) :
  In m (generate risk_factors) ->
  In m (primary_contributor_risk risk_factors)
  \/ (exists avg, m = security_risk_message format_1f avg)
  \/ In m [recruit_message; monitor_message; critical_count_message;
           low_count_message; knowledge_sharing_message; healthy_message].
Proof.
  unfold generate, _generate_recommendations. cbv zeta. intros H.
  apply nonempty_or_healthy_In in H. destruct H as [H | ->]; [|simpl; tauto].
  repeat match type of H with
         | context [if ?b then _ else _] => destruct b
         | context [match ?o with Some _ => _ | None => _ end] => destruct o
         end;
    repeat rewrite in_app_iff in H; simpl in H; simpl; intuition eauto.
Qed.

Lemma generate_keeps_primary (risk_factors : Report.t) (m : string) :
  In m (primary_contributor_risk risk_factors) -> In m (generate risk_factors).
Proof.
  unfold generate, _generate_recommendations. cbv zeta. intros H.
  apply nonempty_or_healthy_keeps.
  repeat match goal with
         | |- context [if ?b then _ else _] => destruct b
         | |- context [match ?o with Some _ => _ | None => _ end] => destruct o
         end;
    repeat rewrite in_app_iff; tauto.
Qed.

Lemma later_messages_differ (m : string) :
  (exists avg, m = security_risk_message format_1f avg)
  \/ In m [recruit_message; monitor_message; critical_count_message;
           low_count_message; knowledge_sharing_message; healthy_message] ->
  m <> abandonment_risk_message /\ m <> capacity_risk_message.
Proof.
  intros [(avg & ->) | H].
  - unfold security_risk_message. split; intros Heq; simpl in Heq; discriminate Heq.
  - simpl in H.
    repeat (destruct H as [<- | H]; [split; intros Heq; discriminate Heq|]).
    destruct H.
Qed.

Lemma primary_block (risk_factors : Report.t)
    (top : Report.contributor_info) (rest : list Report.contributor_info) :
  Report.active_contributors risk_factors = top :: rest ->
  (1 # 2 < Report.contributor_concentration_risk risk_factors)%Q ->
  Report.total_active_contributors risk_factors <= 3 ->
  primary_contributor_risk risk_factors =
    if PyStr.mem (Report.email_type top) ["personal"; "N/A"; "unknown"] then
      if String.eqb (Report.activity_trend top) "decreasing"
      then [abandonment_risk_message]
      else if PyStr.mem (Report.activity_trend top) ["stable"; "increasing"]
      then [capacity_risk_message]
      else []
    else [].
Proof.
  intros Htop Hrisk Htotal. unfold primary_contributor_risk. cbv zeta.
  apply gt_iff in Hrisk. rewrite Hrisk, Htop.
  assert ((Report.total_active_contributors risk_factors <=? 3) = true) as ->
    by lia.
  reflexivity.
Qed.

(** What the primary block does for the categories it lists: for every
    risk-factor bundle with a concentration risk above 0.5 and at most
    three contributors, when the email category of the top contributor is
    ["personal"], ["N/A"] or ["unknown"], the recommendations contain the
    abandonment-risk message if the top contributor's trend is decreasing
    and the capacity-risk message if it is stable or increasing; when the
    category is ["company"], they contain neither message. *)
Theorem primary_contributor_risk_messages (risk_factors : Report.t)
    (top : Report.contributor_info) (rest : list Report.contributor_info) :
  Report.active_contributors risk_factors = top :: rest ->
  (1 # 2 < Report.contributor_concentration_risk risk_factors)%Q ->
  Report.total_active_contributors risk_factors <= 3 ->
  let recommendations := _generate_recommendations format_1f risk_factors in
  (In (Report.email_type top) ["personal"; "N/A"; "unknown"] ->
   (Report.activity_trend top = "decreasing" ->
    In abandonment_risk_message recommendations)
   /\ (Report.activity_trend top = "stable"
       \/ Report.activity_trend top = "increasing" ->
       In capacity_risk_message recommendations))
  /\ (Report.email_type top = "company" ->
      ~ In abandonment_risk_message recommendations
      /\ ~ In capacity_risk_message recommendations).
Proof.
  intros Htop Hrisk Htotal recommendations.
  pose proof (primary_block risk_factors top rest Htop Hrisk Htotal) as Hblock.
  split.
  - intros Hcategory. apply PyStrFacts.mem_In in Hcategory.
    rewrite Hcategory in Hblock. split.
    + intros Htrend. apply generate_keeps_primary.
      rewrite Hblock, Htrend. left. reflexivity.
    + intros Htrend. apply generate_keeps_primary. rewrite Hblock.
      destruct Htrend as [-> | ->]; left; reflexivity.
  - intros Hcompany. rewrite Hcompany in Hblock. simpl in Hblock.
    split; intros Hin; apply generate_members in Hin; rewrite Hblock in Hin;
      destruct Hin as [[] | Hlater]; apply later_messages_differ in Hlater;
      tauto.
Qed.

End RecommendationFacts.

Lemma academic_bundle_is_reported :
  _analyze_contributor_concentration [] 365 0 0 0 no_statistics
    academic_commits [] = Ok academic_bundle.
Proof. vm_compute. reflexivity. Qed.

Lemma primary_contributor_risk_messages_witness :
  In abandonment_risk_message
    (_generate_recommendations (fun _ => "6.0")
       {| Report.contributor_concentration_risk := 1;
          Report.total_active_contributors := 1;
          Report.recent_commits_analyzed := 12;
          Report.recent_issues_analyzed := 0;
          Report.total_activity_events := Some 12;
          Report.repository_stats := None;
          Report.top_contributor := None;
          Report.active_contributors :=
            [ {| Report.login := "alice"; Report.name := "alice";
                 Report.email := "alice@gmail.com";
                 Report.email_type := "personal";
                 Report.breakdown :=
                   {| Report.commits := 12; Report.issues_created := 0;
                      Report.prs_created := 0; Report.reviews_given := 0;
                      Report.comments_made := 0 |};
                 Report.total_activity := 12;
                 Report.activity_percentage := 100;
                 Report.quarterly_activity := [12; 0; 0; 0];
                 Report.activity_trend := "decreasing" |} ];
          Report.top_contributor_percentage := None;
          Report.activity_distribution := ∅ |}).
Proof.
  eapply primary_contributor_risk_messages.
  - reflexivity.
  - reflexivity.
  - simpl. lia.
  - simpl. left. reflexivity.
  - reflexivity.
Defined.

(** The rule for every category other than ["company"] fails at the
    bundle returned for a sole contributor with a university address and a
    declining trend: it has a concentration risk of 1 and one contributor,
    whose category ["academic"] is not ["company"], yet no abandonment
    message is emitted. *)
Lemma academic_contributor_gets_no_message :
  ~ primary_risk_as_claimed (fun _ => "6.0") academic_bundle.
Proof.
  intros Hclaim.
  destruct (Hclaim _ _ eq_refl) as [Hnon_company _].
  - reflexivity.
  - simpl. lia.
  - destruct Hnon_company as [Habandon _]; [discriminate|].
    specialize (Habandon eq_refl). vm_compute in Habandon.
    repeat (destruct Habandon as [Habandon | Habandon]; [discriminate Habandon|]).
    exact Habandon.
Qed.

(** C3. The code misses the rule at a top contributor whose email category
    is not ["company"] but is none of the three that the code lists.  The
    report that the analysis returns for twelve commits of one person with a
    university address, all in the oldest quarter, has a concentration risk
    of 1, one contributor, the category ["academic"] and a decreasing
    trend; its recommendations are the recruit, the critical-count and the
    knowledge-sharing message, and hold neither the abandonment-risk nor
    the capacity-risk message.  The bundle of a sole contributor without an
    email address, of category ["no email available"], gets neither
    message either. *)
Theorem non_company_contributor_gets_no_warning (format_1f : Q -> string) :
  _analyze_contributor_concentration [] 365 0 0 0 no_statistics
    academic_commits [] = Ok academic_bundle
  /\ (1 # 2 < Report.contributor_concentration_risk academic_bundle)%Q
  /\ Report.total_active_contributors academic_bundle <= 3
  /\ (exists top rest,
        Report.active_contributors academic_bundle = top :: rest
        /\ Report.email_type top = "academic"
        /\ Report.email_type top <> "company"
        /\ Report.activity_trend top = "decreasing")
  /\ _generate_recommendations format_1f academic_bundle
     = [recruit_message; critical_count_message; knowledge_sharing_message]
  /\ ~ In abandonment_risk_message
         (_generate_recommendations format_1f academic_bundle)
  /\ ~ In capacity_risk_message
         (_generate_recommendations format_1f academic_bundle)
  /\ ~ In abandonment_risk_message
         (_generate_recommendations format_1f no_email_bundle)
  /\ ~ In capacity_risk_message
         (_generate_recommendations format_1f no_email_bundle).
Proof.
  split; [vm_compute; reflexivity|].
  split; [reflexivity|].
  split; [vm_compute; discriminate|].
  split.
  { eexists. eexists. split; [reflexivity|].
    split; [reflexivity|]. split; [discriminate | reflexivity]. }
  assert (Hacademic :
            _generate_recommendations format_1f academic_bundle
            = [recruit_message; critical_count_message;
               knowledge_sharing_message])
    by (vm_compute; reflexivity).
  assert (Hno_email :
            _generate_recommendations format_1f no_email_bundle
            = [recruit_message; critical_count_message])
    by (vm_compute; reflexivity).
  split; [exact Hacademic|].
  rewrite Hacademic, Hno_email.
  repeat apply conj; intros Hin;
    repeat (destruct Hin as [Hin | Hin]; [discriminate Hin|]); exact Hin.
Qed.

(** ** Sorting and sums *)

Lemma insert_sorted_perm (x : string * contributor) (l : ledger) :
  Permutation (insert_sorted x l) (x :: l).
Proof.
  induction l as [|y l IH]; simpl; [reflexivity|].
  destruct (total_activity (snd y) <=? total_activity (snd x)); [reflexivity|].
  rewrite IH. apply perm_swap.
Qed.

Lemma sorted_contributors_perm (d : ledger) :
  Permutation (sorted_contributors d) d.
Proof.
  induction d as [|x d IH]; simpl; [reflexivity|].
  rewrite insert_sorted_perm. now apply perm_skip.
Qed.

Lemma insert_sorted_descending (x : string * contributor) (l : ledger) :
  StronglySorted by_total_descending l ->
  StronglySorted by_total_descending (insert_sorted x l).
Proof.
  induction 1 as [|y l Hsorted IH Hall]; simpl.
  - repeat constructor.
  - destruct (Z.leb_spec (total_activity (snd y)) (total_activity (snd x)))
      as [Hle|Hgt].
    + constructor; [now constructor|]. constructor; [exact Hle|].
      rewrite Forall_forall in *. intros z Hz. specialize (Hall z Hz).
      unfold by_total_descending in *. lia.
    + constructor; [exact IH|].
      rewrite Forall_forall in *. intros z Hz.
      apply list_elem_of_In in Hz.
      apply (Permutation_in _ (insert_sorted_perm x l)) in Hz.
      destruct Hz as [<- | Hz].
      * unfold by_total_descending. lia.
      * apply Hall. now apply list_elem_of_In.
Qed.

Lemma sorted_contributors_descending (d : ledger) :
  StronglySorted by_total_descending (sorted_contributors d).
Proof.
  induction d as [|x d IH]; simpl; [constructor|].
  now apply insert_sorted_descending.
Qed.

Lemma sum_from (xs : list Z) (a : Z) :
  fold_left Z.add xs a = a + PyList.sum xs.
Proof.
  unfold PyList.sum. revert a. induction xs as [|x xs IH]; intros a; simpl; [lia|].
  rewrite (IH (a + x)), (IH (0 + x)). lia.
Qed.

Lemma activity_sum_cons (e : string * contributor) (l : ledger) :
  activity_sum (e :: l) = total_activity (snd e) + activity_sum l.
Proof. unfold activity_sum, PyList.sum. simpl. now rewrite sum_from. Qed.

Lemma activity_sum_perm (l l' : ledger) :
  Permutation l l' -> activity_sum l = activity_sum l'.
Proof.
  induction 1; rewrite ?activity_sum_cons; lia.
Qed.

Lemma activity_sum_pos (l : ledger) :
  l <> [] -> (forall e, In e l -> 1 <= total_activity (snd e)) ->
  0 < activity_sum l.
Proof.
  intros Hne Hall.
  assert (Hnn : forall l', (forall e, In e l' -> 1 <= total_activity (snd e)) ->
                           0 <= activity_sum l').
  { induction l' as [|e l' IH]; intros H; [reflexivity|].
    rewrite activity_sum_cons.
    assert (1 <= total_activity (snd e)) by (apply H; now left).
    assert (0 <= activity_sum l') by (apply IH; intros; apply H; now right).
    lia. }
  destruct l as [|e l]; [congruence|]. rewrite activity_sum_cons.
  assert (1 <= total_activity (snd e)) by (apply Hall; now left).
  assert (0 <= activity_sum l) by (apply Hnn; intros; apply Hall; now right).
  lia.
Qed.

(** The first entry of the sorted ledger is a top entry. *)
Lemma sorted_head_is_top (d : ledger) (first : string * contributor)
    (rest : ledger) :
  sorted_contributors d = first :: rest -> is_top_entry first d.
Proof.
  intros Hsorted. pose proof (sorted_contributors_perm d) as Hperm.
  pose proof (sorted_contributors_descending d) as Hdesc.
  rewrite Hsorted in Hperm, Hdesc. split.
  - apply (Permutation_in _ Hperm). now left.
  - intros e He. apply (Permutation_in _ (Permutation_sym Hperm)) in He.
    destruct He as [<- | He]; [lia|].
    apply StronglySorted_inv in Hdesc as [_ Hall].
    rewrite Forall_forall in Hall. apply Hall. now apply list_elem_of_In.
Qed.

Lemma top_entries_agree (d : ledger) (top top' : string * contributor) :
  is_top_entry top d -> is_top_entry top' d ->
  total_activity (snd top) = total_activity (snd top').
Proof.
  intros [Hin Hmax] [Hin' Hmax'].
  specialize (Hmax top' Hin'). specialize (Hmax' top Hin). lia.
Qed.

Lemma contributor_list_returns (total : Z) (l : ledger) :
  (forall e, In e l -> exists label, activity_trend (snd e) = Some label) ->
  exists infos, contributor_list total l = Ok infos.
Proof.
  induction l as [|e l IH]; intros Hall; simpl; [eauto|].
  destruct (Hall e) as (label & Hlabel); [now left|].
  destruct IH as (infos & ->); [intros; apply Hall; now right|].
  unfold contributor_info_of. rewrite Hlabel. simpl. eauto.
Qed.

(** ** Concentration risk *)

Lemma concentration_risk_cases (pct : Q) :
  (concentration_risk pct == clamp ((pct - 30) / 40) 0 1)%Q
  /\ (pct <= 30 -> concentration_risk pct == 0)%Q
  /\ (70 <= pct -> concentration_risk pct == 1)%Q
  /\ (30 <= pct <= 70 -> concentration_risk pct == (pct - 30) / 40)%Q.
Proof.
  unfold concentration_risk, clamp, PyNum.min, PyNum.max.
  set (x := ((pct - 30) / 40)%Q).
  assert (Hx : (x * 40 == pct - 30)%Q) by (unfold x; field).
  destruct (Qle_bool x 0) eqn:E0.
  - apply Qle_bool_iff in E0.
    assert (Qle_bool 1 0 = false) as ->.
    { destruct (Qle_bool 1 0) eqn:E; [|reflexivity].
      apply Qle_bool_iff in E. lra. }
    split; [|split; [|split]].
    + rewrite Q.min_r by lra. rewrite Q.max_l by lra. reflexivity.
    + reflexivity.
    + intros H. lra.
    + intros H. lra.
  - assert (H0 : (0 < x)%Q).
    { apply Qnot_le_lt. intros H. apply Qle_bool_iff in H. congruence. }
    destruct (Qle_bool 1 x) eqn:E1.
    + apply Qle_bool_iff in E1. split; [|split; [|split]].
      * rewrite Q.min_l by lra. rewrite Q.max_r by lra. reflexivity.
      * intros H. lra.
      * reflexivity.
      * intros H. lra.
    + assert (H1 : (x < 1)%Q).
      { apply Qnot_le_lt. intros H. apply Qle_bool_iff in H. congruence. }
      split; [|split; [|split]].
      * rewrite Q.min_r by lra. rewrite Q.max_r by lra. reflexivity.
      * intros H. lra.
      * intros H. lra.
      * reflexivity.
Qed.

Section ScorerFacts.

Variable custom_domains : list string.
Variable analysis_window_days : Z.
Variable now_commits now_issues now : Z.
Variable statistics :
  list issue_record -> list commit_record -> Report.repository_statistics.

Let run_aggregate :=
  aggregate custom_domains analysis_window_days now_commits now_issues now.
Let run_analysis :=
  _analyze_contributor_concentration custom_domains analysis_window_days
    now_commits now_issues now statistics.

(** The report of a run whose ledger is not empty. *)
Lemma nonempty_ledger_report (raw_commits : list commit_record)
    (raw_issues : list issue_record) (d : ledger) :
  run_aggregate raw_commits raw_issues = Ok d -> d <> [] ->
  exists report first rest,
    run_analysis raw_commits raw_issues = Ok report
    /\ sorted_contributors d = first :: rest
    /\ 0 < activity_sum d
    /\ Report.contributor_concentration_risk report
       = concentration_risk (top_share first d)
    /\ Report.total_active_contributors report = Z.of_nat (length d)
    /\ Report.total_activity_events report = Some (activity_sum d).
Proof.
  intros Hrun Hne.
  destruct (aggregate_entries _ _ _ _ _ _ _ _ Hrun) as (_ & Hentries).
  pose proof (sorted_contributors_perm d) as Hperm.
  assert (Hpos : 0 < activity_sum d).
  { apply activity_sum_pos; [exact Hne|]. intros [k c] Hin.
    destruct (Hentries k c Hin) as (Hok & Htotal & _). simpl.
    rewrite Htotal. unfold five_counters. entry_facts. }
  destruct (sorted_contributors d) as [|first rest] eqn:Hsorted.
  { apply Permutation_nil in Hperm. congruence. }
  assert (Hsum : activity_sum (first :: rest) = activity_sum d)
    by (now apply activity_sum_perm).
  destruct (contributor_list_returns (activity_sum d) (first :: rest))
    as (infos & Hinfos).
  { intros [k c] Hin. apply (Permutation_in _ Hperm) in Hin.
    destruct (Hentries k c Hin) as (_ & _ & q0 & q1 & q2 & q3 & label & _ & Hl & _).
    exists label. exact Hl. }
  unfold run_analysis, _analyze_contributor_concentration.
  fold run_aggregate. rewrite Hrun. cbn [rbind]. cbv zeta.
  rewrite Hsorted, Hsum, Hinfos. cbn [rbind].
  eexists. exists first, rest. split; [reflexivity|]. split; [reflexivity|].
  split; [exact Hpos|]. cbn [Report.contributor_concentration_risk
    Report.total_active_contributors Report.total_activity_events].
  split; [|split; reflexivity].
  unfold top_share, percentage, PyNum.truediv.
  assert ((activity_sum d >? 0) = true) as -> by lia. reflexivity.
Qed.

(** The sum that the scorer takes is the sum of the totals. *)
Lemma activity_sum_is_sum_of_totals (d : ledger) :
  activity_sum d = sum_of_totals d.
Proof.
  induction d as [|entry d IH]; [reflexivity|].
  rewrite activity_sum_cons, IH. reflexivity.
Qed.

(** C1. For every run whose ledger is not empty the analysis returns, the
    sum of all totals is positive, the ledger has a top entry, and with
    [top_pct] the total of a top entry divided by the sum of the totals of
    all entries, times 100, the concentration risk equals
    [clamp((top_pct - 30) / 40, 0, 1)]: exactly 0 when the share is at or
    below 30 percent, exactly 1 when it is at or above 70 percent, and
    linear in between. *)
Theorem concentration_risk_is_clamped_share (raw_commits : list commit_record)
    (raw_issues : list issue_record) (d : ledger) :
  aggregate custom_domains analysis_window_days now_commits now_issues now
    raw_commits raw_issues = Ok d ->
  d <> [] ->
  exists report,
    _analyze_contributor_concentration custom_domains analysis_window_days
      now_commits now_issues now statistics raw_commits raw_issues = Ok report
    /\ 0 < sum_of_totals d
    /\ (exists top, is_top_entry top d)
    /\ forall top, is_top_entry top d ->
         let top_pct := share_of_total top d in
         let risk := Report.contributor_concentration_risk report in
         (risk == clamp ((top_pct - 30) / 40) 0 1)%Q
         /\ (top_pct <= 30 -> risk == 0)%Q
         /\ (70 <= top_pct -> risk == 1)%Q
         /\ (30 <= top_pct <= 70 -> risk == (top_pct - 30) / 40)%Q.
Proof.
  intros Hrun Hne.
  destruct (nonempty_ledger_report raw_commits raw_issues d Hrun Hne)
    as (report & first & rest & Hreport & Hsorted & Hpos & Hrisk & _).
  pose proof (sorted_head_is_top d first rest Hsorted) as Hfirst.
  exists report. split; [exact Hreport|].
  split; [rewrite <- activity_sum_is_sum_of_totals; exact Hpos|].
  split; [exists first; exact Hfirst|].
  intros top Htop top_pct risk.
  assert (Hsame : top_share first d = top_pct).
  { unfold top_pct, share_of_total, top_share.
    now rewrite (top_entries_agree d first top Hfirst Htop),
      activity_sum_is_sum_of_totals. }
  unfold risk. rewrite Hrisk, Hsame. apply concentration_risk_cases.
Qed.

(** C4. When the contributor ledger has no entry, the analysis returns a
    concentration risk of exactly 1, a contributor count of 0, an empty
    contributor list and an empty activity distribution; the
    top-contributor percentage it reports is 100. *)
Theorem empty_ledger_report (raw_commits : list commit_record)
    (raw_issues : list issue_record) :
  aggregate custom_domains analysis_window_days now_commits now_issues now
    raw_commits raw_issues = Ok [] ->
  _analyze_contributor_concentration custom_domains analysis_window_days
    now_commits now_issues now statistics raw_commits raw_issues
  = Ok {| Report.contributor_concentration_risk := 1;
          Report.total_active_contributors := 0;
          Report.recent_commits_analyzed :=
            Z.of_nat
              (length (_filter_recent_commits analysis_window_days now_commits
                         raw_commits));
          Report.recent_issues_analyzed :=
            Z.of_nat
              (length (_filter_recent_issues analysis_window_days now_issues
                         raw_issues));
          Report.total_activity_events := None;
          Report.repository_stats := None;
          Report.top_contributor := None;
          Report.active_contributors := [];
          Report.top_contributor_percentage := Some (100 : Q);
          Report.activity_distribution := ∅ |}.
Proof.
  intros Hrun. unfold _analyze_contributor_concentration.
  rewrite Hrun. reflexivity.
Qed.

End ScorerFacts.

Lemma concentration_risk_is_clamped_share_witness :
  exists d report,
    aggregate [] 365 0 0 0 shared_commits [] = Ok d
    /\ d <> []
    /\ _analyze_contributor_concentration [] 365 0 0 0 no_statistics
         shared_commits [] = Ok report
    /\ sum_of_totals d = 24
    /\ (exists top, is_top_entry top d /\ (share_of_total top d == 50)%Q)
    /\ (Report.contributor_concentration_risk report == 1 # 2)%Q.
Proof.
  assert (Hrun : exists d,
            aggregate [] 365 0 0 0 shared_commits [] = Ok d /\ d <> []).
  { eexists. split; [vm_compute; reflexivity | discriminate]. }
  destruct Hrun as (d & Hrun & Hne).
  destruct (concentration_risk_is_clamped_share [] 365 0 0 0 no_statistics
              shared_commits [] d Hrun Hne)
    as (report & Hreport & Hpos & (top & Htop) & Hrisk).
  exists d, report.
  split; [exact Hrun|]. split; [exact Hne|]. split; [exact Hreport|].
  assert (Htotals : sum_of_totals d = 24 /\ total_activity (snd top) = 12).
  { clear - Hrun Htop. destruct Htop as [Hin Hmax]. revert Hrun Hin Hmax.
    vm_compute. intros [= <-] Hin Hmax. split; [reflexivity|].
    specialize (Hmax _ (or_introl eq_refl)).
    destruct Hin as [<- | [<- | []]]; reflexivity. }
  destruct Htotals as (Hsum & Htotal).
  assert (Hshare : (share_of_total top d == 50)%Q).
  { unfold share_of_total. rewrite Hsum, Htotal. reflexivity. }
  split; [exact Hsum|]. split; [exists top; split; assumption|].
  destruct (Hrisk top Htop) as (_ & _ & _ & Hlinear).
  cbv zeta in Hlinear. rewrite Hlinear.
  - rewrite Hshare. reflexivity.
  - rewrite Hshare. split; discriminate.
Defined.

Lemma empty_ledger_report_witness :
  aggregate [] 365 0 0 0 [] [bot_pull_request] = Ok []
  /\ exists report,
       _analyze_contributor_concentration [] 365 0 0 0 no_statistics []
         [bot_pull_request] = Ok report
       /\ Report.top_contributor_percentage report = Some (100 : Q).
Proof.
  assert (Hrun : aggregate [] 365 0 0 0 [] [bot_pull_request] = Ok [])
    by (vm_compute; reflexivity).
  split; [exact Hrun|].
  eexists. split.
  - exact (empty_ledger_report [] 365 0 0 0 no_statistics [] [bot_pull_request]
             Hrun).
  - reflexivity.
Defined.

(** Counterexample to the literal reading of C4: for a repository without
    any record the ledger is empty and the report gives a top-contributor
    percentage of 100, not zero. *)
Lemma empty_ledger_percentage_is_not_zero :
  ~ empty_ledger_figures_as_claimed [] 365 0 0 0 no_statistics [] [].
Proof.
  intros Hclaim.
  destruct (Hclaim eq_refl) as (report & Hreport & _ & _ & _ & _ & Hpct).
  vm_compute in Hreport. injection Hreport as <-.
  specialize (Hpct 100%Q eq_refl). vm_compute in Hpct. discriminate Hpct.
Qed.

(** ** Batch analysis *)

Section BatchFacts.

Variable world : Type.
Variable analyze_single_repository :
  string -> world -> outcome RiskAnalysis * world.
Variable now_isoformat : world -> string.

Let trace := call_trace world analyze_single_repository.
Let loop := analyze_loop world analyze_single_repository now_isoformat.

Lemma call_trace_length (repo_urls : list string) (w : world) :
  length (trace repo_urls w) = length repo_urls.
Proof.
  revert w. induction repo_urls as [|u us IH]; intros w; simpl; [reflexivity|].
  now rewrite IH.
Qed.

(** The loop appends one report per identifier, in order. *)
Lemma analyze_loop_reports (repo_urls : list string)
    (analyses : list RiskAnalysis) (w : world) :
  Forall handled (trace repo_urls w) ->
  exists w',
    loop repo_urls analyses w
    = (Returned
         (analyses
          ++ zip_with (report_of now_isoformat) repo_urls (trace repo_urls w))%list,
       w').
Proof.
  revert analyses w. induction repo_urls as [|u us IH]; intros analyses w Hall.
  - exists w. simpl. now rewrite app_nil_r.
  - simpl in Hall. apply Forall_cons in Hall as [Hfirst Hrest].
    simpl. unfold handled in Hfirst.
    destruct (analyze_single_repository u w) as [[analysis|e] w1]; simpl in *.
    + destruct (IH (analyses ++ [analysis])%list w1 Hrest) as (w' & ->).
      exists w'. now rewrite <- app_assoc.
    + rewrite Hfirst.
      destruct (IH (analyses ++ [error_analysis world now_isoformat u e w1])%list
                  w1 Hrest) as (w' & ->).
      exists w'. now rewrite <- app_assoc.
Qed.

(** C10. When every failure of a call is an [Exception], the batch returns
    one report per submitted identifier, in order: the report of a call
    that returned is the analysis it returned, and the report of a call
    that failed has the identifier as repository, a risk score of 1.0, the
    single risk factor ["error"] holding the message, and the single
    recommendation ["Unable to analyze repository"].  A failure thus
    neither aborts the batch nor changes the reports of the others. *)
Theorem batch_reports_every_repository (repo_urls : list string) (w : world) :
  Forall handled (call_trace world analyze_single_repository repo_urls w) ->
  exists reports w',
    analyze_repositories world analyze_single_repository now_isoformat
      repo_urls w = (Returned reports, w')
    /\ length reports = length repo_urls
    /\ forall i repo_url,
         repo_urls !! i = Some repo_url ->
         exists r,
           call_trace world analyze_single_repository repo_urls w !! i = Some r
           /\ match fst r with
              | Returned analysis => reports !! i = Some analysis
              | Raised e =>
                  exists report,
                    reports !! i = Some report
                    /\ repository report = repo_url
                    /\ overall_risk_score report = 1%Q
                    /\ risk_factors report = ErrorOnly (exception_str e)
                    /\ recommendations report = ["Unable to analyze repository"]
              end.
Proof.
  intros Hall. fold trace in Hall |- *.
  destruct (analyze_loop_reports repo_urls [] w Hall) as (w' & Hloop).
  simpl in Hloop.
  exists (zip_with (report_of now_isoformat) repo_urls (trace repo_urls w)), w'.
  split; [exact Hloop|]. split.
  - rewrite length_zip_with, call_trace_length. lia.
  - intros i repo_url Hurl.
    destruct (trace repo_urls w !! i) as [r|] eqn:Hr.
    + exists r. split; [reflexivity|].
      assert (Hreport :
        zip_with (report_of now_isoformat) repo_urls (trace repo_urls w) !! i
        = Some (report_of now_isoformat repo_url r)).
      { rewrite lookup_zip_with, Hurl. simpl. rewrite Hr. reflexivity. }
      destruct r as [[analysis|e] wi]; simpl in *; [exact Hreport|].
      eexists. split; [exact Hreport|]. repeat split.
    + apply lookup_ge_None in Hr. rewrite call_trace_length in Hr.
      apply lookup_lt_Some in Hurl. lia.
Qed.

End BatchFacts.

Lemma batch_reports_every_repository_witness :
  Forall handled
    (call_trace nat sample_analyzer ["a/one"; "broken/repo"; "c/three"] 0%nat)
  /\ exists reports w',
       analyze_repositories nat sample_analyzer (fun _ => "2026-01-01T00:00:00")
         ["a/one"; "broken/repo"; "c/three"] 0%nat = (Returned reports, w')
       /\ length reports = 3%nat.
Proof.
  assert (Hall : Forall handled
            (call_trace nat sample_analyzer ["a/one"; "broken/repo"; "c/three"]
               0%nat)).
  { repeat constructor. }
  split; [exact Hall|].
  destruct (batch_reports_every_repository nat sample_analyzer
              (fun _ => "2026-01-01T00:00:00")
              ["a/one"; "broken/repo"; "c/three"] 0%nat Hall)
    as (reports & w' & Hrun & Hlen & _).
  exists reports, w'. split; [exact Hrun | exact Hlen].
Defined.

(** ** Two corner cases *)

(** A commit with neither an account login nor an author name is booked
    under the placeholder login ["unknown"]: the commit loop has no test
    for it, unlike the issue and review loops. *)
Example anonymous_commit_is_booked_as_unknown :
  exists d,
    aggregate [] 365 0 0 0 [anonymous_commit] [] = Ok d
    /\ Ledger.keys d = ["unknown"].
Proof. eexists. split; vm_compute; reflexivity. Qed.

(** A sole contributor whose commits carry no address has the category
    ["no email available"], which is not in the list that
    [_generate_recommendations] tests: neither the abandonment nor the
    capacity message is emitted. *)
Example no_email_contributor_gets_no_message :
  _generate_recommendations (fun _ => "6.0") no_email_bundle
  = [recruit_message; critical_count_message].
Proof. vm_compute. reflexivity. Qed.

(** * Further properties *)

(** ** Recommendations: when each message fires *)

Section RecommendationTriggers.

Variable format_1f : Q -> string.

Let generate := _generate_recommendations format_1f.

Lemma if_app_one {A : Type} (b : bool) (l : list A) (m : A) :
  (if b then (l ++ [m])%list else l) = (l ++ if b then [m] else [])%list.
Proof. destruct b; [reflexivity | now rewrite app_nil_r]. Qed.

Lemma if_app_two {A : Type} (b b' : bool) (l : list A) (m m' : A) :
  (if b then (l ++ [m])%list else if b' then (l ++ [m'])%list else l)
  = (l ++ if b then [m] else if b' then [m'] else [])%list.
Proof. destruct b, b'; try reflexivity; now rewrite app_nil_r. Qed.

(** The list before the fallback: five blocks of at most one message. *)
Lemma generate_blocks (risk_factors : Report.t) :
  generate risk_factors
  = match
      (primary_contributor_risk risk_factors
       ++ match avg_pr_close_time risk_factors with
          | Some avg =>
              if PyNum.gt avg 5 then [security_risk_message format_1f avg]
              else []
          | None => []
          end
       ++ (if PyNum.gt (Report.contributor_concentration_risk risk_factors)
                (7 # 10)
           then [recruit_message]
           else if PyNum.gt (Report.contributor_concentration_risk risk_factors)
                     (4 # 10)
           then [monitor_message] else [])
       ++ (if Report.total_active_contributors risk_factors <? 3
           then [critical_count_message]
           else if Report.total_active_contributors risk_factors <? 5
           then [low_count_message] else [])
       ++ (if PyNum.gt (top_3_pct risk_factors) 80
           then [knowledge_sharing_message] else []))%list
    with
    | [] => [healthy_message]
    | m :: l => m :: l
    end.
Proof.
  unfold generate, _generate_recommendations. cbv zeta.
  fold (avg_pr_close_time risk_factors) (top_3_pct risk_factors).
  rewrite if_app_one, !if_app_two.
  assert (Hsec :
    match avg_pr_close_time risk_factors with
    | Some avg =>
        if PyNum.gt avg 5
        then (primary_contributor_risk risk_factors
              ++ [security_risk_message format_1f avg])%list
        else primary_contributor_risk risk_factors
    | None => primary_contributor_risk risk_factors
    end
    = (primary_contributor_risk risk_factors
       ++ match avg_pr_close_time risk_factors with
          | Some avg =>
              if PyNum.gt avg 5 then [security_risk_message format_1f avg]
              else []
          | None => []
          end)%list).
  { destruct (avg_pr_close_time risk_factors) as [avg|];
      [apply if_app_one | now rewrite app_nil_r]. }
  rewrite Hsec, <- !app_assoc.
  match goal with |- match ?L with _ => _ end = _ => destruct L; reflexivity end.
Qed.

Lemma primary_members (risk_factors : Report.t) (m : string) :
  In m (primary_contributor_risk risk_factors) ->
  m = abandonment_risk_message \/ m = capacity_risk_message.
Proof.
  unfold primary_contributor_risk. cbv zeta.
  repeat match goal with
         | |- context [if ?b then _ else _] => destruct b
         | |- context [match ?l with [] => _ | _ :: _ => _ end] => destruct l
         end; simpl; intuition auto.
Qed.

Ltac differ := let H := fresh in intros H; discriminate H.

Lemma security_differs (avg : Q) (m : string) :
  In m [abandonment_risk_message; capacity_risk_message; recruit_message;
        monitor_message; critical_count_message; low_count_message;
        knowledge_sharing_message; healthy_message] ->
  security_risk_message format_1f avg <> m.
Proof.
  unfold security_risk_message. simpl.
  intros H; repeat (destruct H as [<- | H]; [differ|]). destruct H.
Qed.

(** Membership of a message other than the fallback. *)
Lemma In_generate (risk_factors : Report.t) (m : string) :
  m <> healthy_message ->
  (In m (generate risk_factors)
   <-> In m (primary_contributor_risk risk_factors)
       \/ (exists avg, avg_pr_close_time risk_factors = Some avg
                       /\ (5 < avg)%Q
                       /\ m = security_risk_message format_1f avg)
       \/ ((7 # 10 < Report.contributor_concentration_risk risk_factors)%Q
           /\ m = recruit_message)
       \/ ((4 # 10 < Report.contributor_concentration_risk risk_factors)%Q
           /\ ~ (7 # 10 < Report.contributor_concentration_risk risk_factors)%Q
           /\ m = monitor_message)
       \/ (Report.total_active_contributors risk_factors < 3
           /\ m = critical_count_message)
       \/ (3 <= Report.total_active_contributors risk_factors < 5
           /\ m = low_count_message)
       \/ ((80 < top_3_pct risk_factors)%Q /\ m = knowledge_sharing_message)).
Proof.
  intros Hm. rewrite generate_blocks.
  match goal with
  | |- In m (match ?L with _ => _ end) <-> _ =>
      assert (Hfall : In m (match L with [] => [healthy_message] | x :: l => x :: l end)
                      <-> In m L)
        by (destruct L; simpl; intuition congruence);
      rewrite Hfall; clear Hfall
  end.
  rewrite !in_app_iff.
  apply or_iff_compat_l.
  assert (Hsec :
    In m match avg_pr_close_time risk_factors with
         | Some avg =>
             if PyNum.gt avg 5 then [security_risk_message format_1f avg] else []
         | None => []
         end
    <-> exists avg, avg_pr_close_time risk_factors = Some avg /\ (5 < avg)%Q
                    /\ m = security_risk_message format_1f avg).
  { destruct (avg_pr_close_time risk_factors) as [avg|].
    - destruct (PyNum.gt avg 5) eqn:E.
      + apply gt_iff in E. simpl. split.
        * intros [<- | []]. eauto.
        * intros (a & [= <-] & _ & ->). now left.
      + split; [intros [] | intros (a & [= <-] & Ha & _)].
        apply gt_iff in Ha. congruence.
    - split; [intros [] | intros (a & Ha & _); discriminate]. }
  assert (Hconc :
    In m (if PyNum.gt (Report.contributor_concentration_risk risk_factors) (7 # 10)
          then [recruit_message]
          else if PyNum.gt (Report.contributor_concentration_risk risk_factors)
                    (4 # 10)
          then [monitor_message] else [])
    <-> ((7 # 10 < Report.contributor_concentration_risk risk_factors)%Q
         /\ m = recruit_message)
        \/ ((4 # 10 < Report.contributor_concentration_risk risk_factors)%Q
            /\ ~ (7 # 10 < Report.contributor_concentration_risk risk_factors)%Q
            /\ m = monitor_message)).
  { rewrite <- !gt_iff.
    destruct (PyNum.gt _ (7 # 10)), (PyNum.gt _ (4 # 10)); simpl;
      intuition congruence. }
  assert (Hcount :
    In m (if Report.total_active_contributors risk_factors <? 3
          then [critical_count_message]
          else if Report.total_active_contributors risk_factors <? 5
          then [low_count_message] else [])
    <-> (Report.total_active_contributors risk_factors < 3
         /\ m = critical_count_message)
        \/ (3 <= Report.total_active_contributors risk_factors < 5
            /\ m = low_count_message)).
  { destruct (Z.ltb_spec (Report.total_active_contributors risk_factors) 3);
      destruct (Z.ltb_spec (Report.total_active_contributors risk_factors) 5);
      simpl; intuition (try congruence; try lia). }
  assert (Hknow :
    In m (if PyNum.gt (top_3_pct risk_factors) 80
          then [knowledge_sharing_message] else [])
    <-> (80 < top_3_pct risk_factors)%Q /\ m = knowledge_sharing_message).
  { rewrite <- gt_iff. destruct (PyNum.gt _ 80); simpl; intuition congruence. }
  rewrite Hsec, Hconc, Hcount, Hknow. tauto.
Qed.

Lemma generate_shape (risk_factors : Report.t) :
  exists L,
    generate risk_factors
    = match L with [] => [healthy_message] | x :: l => x :: l end
    /\ (length L <= 5)%nat
    /\ ~ In healthy_message L.
Proof.
  eexists. split; [apply generate_blocks|]. split.
  - rewrite !length_app.
    assert (length (primary_contributor_risk risk_factors) <= 1)%nat.
    { unfold primary_contributor_risk. cbv zeta.
      repeat match goal with
             | |- context [if ?b then _ else _] => destruct b
             | |- context [match ?l with [] => _ | _ :: _ => _ end] => destruct l
             end; simpl; lia. }
    destruct (avg_pr_close_time risk_factors) as [avg|];
      [destruct (PyNum.gt avg 5)|];
      destruct (PyNum.gt (Report.contributor_concentration_risk risk_factors) (7 # 10));
      destruct (PyNum.gt (Report.contributor_concentration_risk risk_factors) (4 # 10));
      destruct (Report.total_active_contributors risk_factors <? 3);
      destruct (Report.total_active_contributors risk_factors <? 5);
      destruct (PyNum.gt (top_3_pct risk_factors) 80);
      cbn [length]; lia.
  - rewrite !in_app_iff. intros [H | [H | [H | [H | H]]]].
    + apply primary_members in H. destruct H as [H | H]; discriminate H.
    + destruct (avg_pr_close_time risk_factors) as [avg|];
        [destruct (PyNum.gt avg 5)|]; simpl in H; try tauto.
      destruct H as [H | []]. revert H. apply security_differs. simpl. tauto.
    + destruct (PyNum.gt _ (7 # 10)); [|destruct (PyNum.gt _ (4 # 10))];
        simpl in H; try tauto; destruct H as [H | []]; discriminate H.
    + destruct (_ <? 3); [|destruct (_ <? 5)];
        simpl in H; try tauto; destruct H as [H | []]; discriminate H.
    + destruct (PyNum.gt _ 80);
        simpl in H; try tauto; destruct H as [H | []]; discriminate H.
Qed.

(** X1. The recommendation list is never empty, has at most five entries,
    and the fallback message ["Project shows good contributor diversity
    ..."] is present exactly when it is the only entry, which is when no
    other message fires. *)
Theorem recommendations_never_empty (risk_factors : Report.t) :
  let recommendations := _generate_recommendations format_1f risk_factors in
  recommendations <> []
  /\ (length recommendations <= 5)%nat
  /\ (In healthy_message recommendations
      <-> recommendations = [healthy_message])
  /\ (recommendations = [healthy_message]
      <-> forall m, m <> healthy_message -> ~ In m recommendations).
Proof.
  cbv zeta. fold generate.
  destruct (generate_shape risk_factors) as (L & -> & Hlen & Hnot).
  destruct L as [|x l].
  - split; [discriminate|]. split; [simpl; lia|]. split.
    + split; [reflexivity | intros _; now left].
    + split; [|reflexivity]. intros _ m Hm [H | []]. congruence.
  - split; [discriminate|]. split; [exact Hlen|]. split.
    + split; [intros H; contradiction | intros [= -> ->]; now left].
    + split.
      * intros [= -> ->]. exfalso. apply Hnot. now left.
      * intros H. exfalso. apply (H x); [|now left].
        intros ->. apply Hnot. now left.
Qed.

Ltac other_message :=
  match goal with
  | H : In _ (primary_contributor_risk _) |- _ =>
      apply primary_members in H; destruct H as [H | H]; discriminate H
  | H : exists avg, _ /\ _ /\ _ = security_risk_message _ avg |- _ =>
      let a := fresh in
      let E := fresh in
      destruct H as (a & _ & _ & E); symmetry in E; exfalso; revert E;
      apply security_differs; simpl; tauto
  | H : _ /\ _ /\ ?m = ?m' |- _ => destruct H as (_ & _ & H); discriminate H
  | H : _ /\ ?m = ?m' |- _ => destruct H as (_ & H); discriminate H
  end.

(** X2. Each later recommendation fires exactly under its own condition:
    the recruit message when the concentration risk exceeds 0.7 and the
    monitor message when it exceeds 0.4 but not 0.7; the critical-count
    message below three contributors and the low-count message for three
    or four; the knowledge-sharing message when the top-3 share exceeds
    80; the security message, quoting the average, when the average
    pull-request close time is known and exceeds five days. *)
Theorem recommendation_triggers (risk_factors : Report.t) :
  let recommendations := _generate_recommendations format_1f risk_factors in
  let risk := Report.contributor_concentration_risk risk_factors in
  let total := Report.total_active_contributors risk_factors in
  (In recruit_message recommendations <-> (7 # 10 < risk)%Q)
  /\ (In monitor_message recommendations
      <-> (4 # 10 < risk)%Q /\ (risk <= 7 # 10)%Q)
  /\ (In critical_count_message recommendations <-> total < 3)
  /\ (In low_count_message recommendations <-> 3 <= total < 5)
  /\ (In knowledge_sharing_message recommendations
      <-> (80 < top_3_pct risk_factors)%Q)
  /\ (forall avg, avg_pr_close_time risk_factors = Some avg ->
        (In (security_risk_message format_1f avg) recommendations
         <-> (5 < avg)%Q))
  /\ (avg_pr_close_time risk_factors = None ->
      forall avg, ~ In (security_risk_message format_1f avg) recommendations).
Proof.
  cbv zeta. fold generate.
  split; [|split; [|split; [|split; [|split; [|split]]]]].
  - rewrite In_generate by differ. split.
    + intros [H | [H | [H | [H | [H | [H | H]]]]]]; try other_message. tauto.
    + intros H. right. right. left. tauto.
  - rewrite In_generate by differ. split.
    + intros [H | [H | [H | [H | [H | [H | H]]]]]]; try other_message.
      destruct H as (H4 & H7 & _). split; [exact H4 | now apply Qnot_lt_le].
    + intros [H4 H7]. right. right. right. left.
      split; [exact H4|]. split; [now apply Qle_not_lt | reflexivity].
  - rewrite In_generate by differ. split.
    + intros [H | [H | [H | [H | [H | [H | H]]]]]]; try other_message. tauto.
    + intros H. do 4 right. left. tauto.
  - rewrite In_generate by differ. split.
    + intros [H | [H | [H | [H | [H | [H | H]]]]]]; try other_message. tauto.
    + intros H. do 5 right. left. tauto.
  - rewrite In_generate by differ. split.
    + intros [H | [H | [H | [H | [H | [H | H]]]]]]; try other_message. tauto.
    + intros H. do 6 right. tauto.
  - intros avg Havg.
    rewrite In_generate by (apply security_differs; simpl; tauto). split.
    + intros [H | [H | [H | [H | [H | [H | H]]]]]].
      * apply primary_members in H. exfalso. destruct H as [H | H]; revert H;
          apply security_differs; simpl; tauto.
      * destruct H as (a & Ha & Hgt & _). congruence.
      * exfalso. destruct H as (_ & H). revert H. apply security_differs.
        simpl. tauto.
      * exfalso. destruct H as (_ & _ & H). revert H. apply security_differs.
        simpl. tauto.
      * exfalso. destruct H as (_ & H). revert H. apply security_differs.
        simpl. tauto.
      * exfalso. destruct H as (_ & H). revert H. apply security_differs.
        simpl. tauto.
      * exfalso. destruct H as (_ & H). revert H. apply security_differs.
        simpl. tauto.
    + intros Hgt. right. left. exists avg. auto.
  - intros Hnone avg.
    rewrite In_generate by (apply security_differs; simpl; tauto).
    intros [H | [H | [H | [H | [H | [H | H]]]]]].
    + apply primary_members in H. destruct H as [H | H]; revert H;
        apply security_differs; simpl; tauto.
    + destruct H as (a & Ha & _). congruence.
    + destruct H as (_ & H). revert H. apply security_differs. simpl. tauto.
    + destruct H as (_ & _ & H). revert H. apply security_differs. simpl. tauto.
    + destruct H as (_ & H). revert H. apply security_differs. simpl. tauto.
    + destruct H as (_ & H). revert H. apply security_differs. simpl. tauto.
    + destruct H as (_ & H). revert H. apply security_differs. simpl. tauto.
Qed.

Lemma primary_contributor_risk_iff (risk_factors : Report.t) (m : string) :
  In m (primary_contributor_risk risk_factors)
  <-> (1 # 2 < Report.contributor_concentration_risk risk_factors)%Q
      /\ Report.total_active_contributors risk_factors <= 3
      /\ exists top rest,
           Report.active_contributors risk_factors = top :: rest
           /\ In (Report.email_type top) ["personal"; "N/A"; "unknown"]
           /\ ((Report.activity_trend top = "decreasing"
                /\ m = abandonment_risk_message)
               \/ (In (Report.activity_trend top) ["stable"; "increasing"]
                   /\ m = capacity_risk_message)).
Proof.
  unfold primary_contributor_risk. cbv zeta.
  rewrite <- gt_iff, <- Z.leb_le.
  destruct (PyNum.gt _ (1 # 2)); cbn [andb];
    [|split; [intros [] | intros (H & _); discriminate H]].
  destruct (_ <=? 3);
    [|split; [intros [] | intros (_ & H & _); discriminate H]].
  destruct (Report.active_contributors risk_factors) as [|top rest];
    [split; [intros [] | intros (_ & _ & t & r & H & _); discriminate H]|].
  split.
  - destruct (PyStr.mem (Report.email_type top) _) eqn:Het; [|intros []].
    apply PyStrFacts.mem_In in Het.
    destruct (String.eqb_spec (Report.activity_trend top) "decreasing") as [Hd|Hd].
    + intros [<- | []]. split; [reflexivity|]. split; [reflexivity|].
      exists top, rest. auto.
    + destruct (PyStr.mem (Report.activity_trend top) _) eqn:Htrend; [|intros []].
      apply PyStrFacts.mem_In in Htrend.
      intros [<- | []]. split; [reflexivity|]. split; [reflexivity|].
      exists top, rest. auto.
  - intros (_ & _ & t & r & [= <- <-] & Het & Hcase).
    apply PyStrFacts.mem_In in Het. rewrite Het.
    destruct Hcase as [[Hd ->] | [Htrend ->]].
    + rewrite Hd. now left.
    + destruct (String.eqb_spec (Report.activity_trend top) "decreasing") as [Hd|Hd].
      * rewrite Hd in Htrend. simpl in Htrend. intuition discriminate.
      * apply PyStrFacts.mem_In in Htrend. rewrite Htrend. now left.
Qed.

(** X3. The abandonment-risk and the capacity-risk message are emitted
    only in the primary-contributor block: exactly when the concentration
    risk exceeds 0.5, there are at most three contributors, the contributor
    list is not empty and its first entry has the email category
    ["personal"], ["N/A"] or ["unknown"], with a decreasing trend for the
    abandonment message and a stable or increasing trend for the capacity
    message.  The two are never emitted together. *)
Theorem primary_messages_exactly (risk_factors : Report.t) :
  let recommendations := _generate_recommendations format_1f risk_factors in
  let eligible (trend_ok : string -> Prop) :=
    (1 # 2 < Report.contributor_concentration_risk risk_factors)%Q
    /\ Report.total_active_contributors risk_factors <= 3
    /\ exists top rest,
         Report.active_contributors risk_factors = top :: rest
         /\ In (Report.email_type top) ["personal"; "N/A"; "unknown"]
         /\ trend_ok (Report.activity_trend top) in
  (In abandonment_risk_message recommendations
   <-> eligible (fun trend => trend = "decreasing"))
  /\ (In capacity_risk_message recommendations
      <-> eligible (fun trend => trend = "stable" \/ trend = "increasing"))
  /\ ~ (In abandonment_risk_message recommendations
        /\ In capacity_risk_message recommendations).
Proof.
  cbv zeta. fold generate.
  assert (Ha : In abandonment_risk_message (generate risk_factors)
               <-> In abandonment_risk_message
                     (primary_contributor_risk risk_factors)).
  { rewrite In_generate by differ. split; [|tauto].
    intros [H | [H | [H | [H | [H | [H | H]]]]]]; try other_message. exact H. }
  assert (Hc : In capacity_risk_message (generate risk_factors)
               <-> In capacity_risk_message
                     (primary_contributor_risk risk_factors)).
  { rewrite In_generate by differ. split; [|tauto].
    intros [H | [H | [H | [H | [H | [H | H]]]]]]; try other_message. exact H. }
  rewrite Ha, Hc, !primary_contributor_risk_iff.
  split; [|split].
  - split.
    + intros (H1 & H2 & top & rest & H3 & H4 & [[H5 _] | [_ H5]]);
        [|discriminate H5].
      split; [exact H1|]. split; [exact H2|]. exists top, rest. auto.
    + intros (H1 & H2 & top & rest & H3 & H4 & H5).
      split; [exact H1|]. split; [exact H2|]. exists top, rest. auto.
  - split.
    + intros (H1 & H2 & top & rest & H3 & H4 & [[_ H5] | [H5 _]]);
        [discriminate H5|].
      split; [exact H1|]. split; [exact H2|]. exists top, rest.
      simpl in H5. intuition auto.
    + intros (H1 & H2 & top & rest & H3 & H4 & H5).
      split; [exact H1|]. split; [exact H2|]. exists top, rest.
      split; [exact H3|]. split; [exact H4|]. right. simpl. intuition auto.
  - intros [(_ & _ & top & rest & H3 & _ & [[H5 _] | [_ H5]])
            (_ & _ & top' & rest' & H3' & _ & [[_ H5'] | [H5' _]])];
      try discriminate.
    rewrite H3 in H3'. injection H3' as <- <-. rewrite H5 in H5'.
    simpl in H5'. intuition discriminate.
Qed.

End RecommendationTriggers.

(** ** The report as a whole *)

Lemma contributor_list_renders (total : Z) (l : ledger)
    (infos : list Report.contributor_info) :
  contributor_list total l = Ok infos -> Forall2 (renders total) l infos.
Proof.
  revert infos. induction l as [|e l IH]; intros infos H; simpl in H.
  - injection H as <-. constructor.
  - bind_inv H. rename a into info, Ha into Hinfo.
    bind_inv H. injection H as <-. constructor; [exact Hinfo | now apply IH].
Qed.

Lemma renders_fields (total : Z) (entry : string * contributor)
    (info : Report.contributor_info) :
  renders total entry info ->
  Report.login info = fst entry
  /\ Report.name info = name (snd entry)
  /\ Report.email info = email (snd entry)
  /\ Report.email_type info = email_type (snd entry)
  /\ Report.total_activity info = total_activity (snd entry)
  /\ breakdown_sum (Report.breakdown info) = five_counters (snd entry)
  /\ Report.activity_percentage info
     = percentage (total_activity (snd entry)) total
  /\ Report.quarterly_activity info = quarterly_activity (snd entry)
  /\ activity_trend (snd entry) = Some (Report.activity_trend info).
Proof.
  unfold renders, contributor_info_of. intros H.
  destruct (activity_trend (snd entry)) as [trend|]; [|discriminate H].
  cbn [rbind] in H. injection H as <-. repeat split.
Qed.

Section ReportFacts.

Variable custom_domains : list string.
Variable analysis_window_days : Z.
Variable now_commits now_issues now : Z.
Variable statistics :
  list issue_record -> list commit_record -> Report.repository_statistics.

Let run_aggregate :=
  aggregate custom_domains analysis_window_days now_commits now_issues now.
Let run_analysis :=
  _analyze_contributor_concentration custom_domains analysis_window_days
    now_commits now_issues now statistics.

(** What a returned report is made of. *)
Lemma analysis_inv (raw_commits : list commit_record)
    (raw_issues : list issue_record) (report : Report.t) :
  run_analysis raw_commits raw_issues = Ok report ->
  exists d,
    run_aggregate raw_commits raw_issues = Ok d
    /\ Report.total_active_contributors report = Z.of_nat (length d)
    /\ ((d = []
         /\ Report.contributor_concentration_risk report = 1%Q
         /\ Report.active_contributors report = []
         /\ Report.total_activity_events report = None
         /\ Report.top_contributor report = None
         /\ Report.activity_distribution report = ∅)
        \/ (exists first rest infos,
              sorted_contributors d = first :: rest
              /\ 0 < activity_sum d
              /\ Forall2 (renders (activity_sum d)) (first :: rest) infos
              /\ Report.contributor_concentration_risk report
                 = concentration_risk
                     (percentage (total_activity (snd first)) (activity_sum d))
              /\ Report.active_contributors report = infos
              /\ Report.total_activity_events report = Some (activity_sum d)
              /\ Report.top_contributor report
                 = Some {| Report.top_login := fst first;
                           Report.top_name := name (snd first);
                           Report.top_total_activity :=
                             total_activity (snd first);
                           Report.top_percentage :=
                             percentage (total_activity (snd first))
                               (activity_sum d) |}
              /\ Report.activity_distribution report
                 = <["top_1_contributor_percentage" :=
                       percentage (total_activity (snd first)) (activity_sum d)]>
                     (<["top_3_contributors_percentage" :=
                          percentage (activity_sum (take 3 (first :: rest)))
                            (activity_sum d)]>
                        (<["top_5_contributors_percentage" :=
                             percentage (activity_sum (take 5 (first :: rest)))
                               (activity_sum d)]> ∅)))).
Proof.
  unfold run_analysis, _analyze_contributor_concentration. intros H.
  bind_inv H. rename a into d, Ha into Hrun. exists d.
  split; [exact Hrun|].
  pose proof (sorted_contributors_perm d) as Hperm.
  destruct (sorted_contributors d) as [|first rest] eqn:Hsorted.
  - apply Permutation_nil in Hperm. subst d. injection H as <-.
    split; [reflexivity|]. left. repeat split.
  - cbv zeta in H.
    assert (Hsum : activity_sum (first :: rest) = activity_sum d)
      by (now apply activity_sum_perm).
    rewrite Hsum in H. bind_inv H. rename a into infos, Ha into Hinfos.
    injection H as <-. split; [reflexivity|]. right.
    exists first, rest, infos. split; [reflexivity|].
    assert (Hpos : 0 < activity_sum d).
    { destruct (aggregate_entries _ _ _ _ _ _ _ _ Hrun) as (_ & Hentries).
      apply activity_sum_pos.
      - intros ->. symmetry in Hperm. apply Permutation_nil_cons in Hperm.
        exact Hperm.
      - intros [k c] Hin. destruct (Hentries k c Hin) as (Hok & Htotal & _).
        simpl. rewrite Htotal. unfold five_counters. entry_facts. }
    split; [exact Hpos|].
    split; [now apply contributor_list_renders|].
    repeat split.
Qed.

Lemma concentration_risk_range (pct : Q) :
  (0 <= concentration_risk pct <= 1)%Q.
Proof.
  unfold concentration_risk, PyNum.min, PyNum.max.
  set (x := ((pct - 30) / 40)%Q).
  destruct (Qle_bool x 0) eqn:E0.
  - destruct (Qle_bool 1 0) eqn:E1; [apply Qle_bool_iff in E1; lra | lra].
  - assert (0 < x)%Q.
    { apply Qnot_le_lt. intros H. apply Qle_bool_iff in H. congruence. }
    destruct (Qle_bool 1 x) eqn:E1; [lra|].
    assert (x < 1)%Q.
    { apply Qnot_le_lt. intros H'. apply Qle_bool_iff in H'. congruence. }
    lra.
Qed.

(** X4. Whatever the records, a returned report has a concentration risk
    between 0 and 1. *)
Theorem concentration_risk_in_unit_interval (raw_commits : list commit_record)
    (raw_issues : list issue_record) (report : Report.t) :
  _analyze_contributor_concentration custom_domains analysis_window_days
    now_commits now_issues now statistics raw_commits raw_issues = Ok report ->
  (0 <= Report.contributor_concentration_risk report <= 1)%Q.
Proof.
  intros Hrun. destruct (analysis_inv _ _ _ Hrun) as (d & _ & _ & Hcases).
  destruct Hcases as [(_ & -> & _) | (first & rest & infos & _ & _ & _ & -> & _)].
  - lra.
  - apply concentration_risk_range.
Qed.

Lemma renders_sum (total : Z) (l : ledger)
    (infos : list Report.contributor_info) :
  Forall2 (renders total) l infos ->
  sum_over Report.total_activity infos = activity_sum l.
Proof.
  induction 1 as [|e info l infos Hinfo _ IH]; [reflexivity|].
  simpl. rewrite activity_sum_cons, IH.
  apply renders_fields in Hinfo. destruct Hinfo as (_ & _ & _ & _ & -> & _).
  reflexivity.
Qed.

Lemma renders_logins (total : Z) (l : ledger)
    (infos : list Report.contributor_info) :
  Forall2 (renders total) l infos -> map Report.login infos = Ledger.keys l.
Proof.
  induction 1 as [|e info l infos Hinfo _ IH]; [reflexivity|].
  simpl. rewrite IH. apply renders_fields in Hinfo.
  destruct Hinfo as (-> & _). reflexivity.
Qed.

Lemma renders_descending (total : Z) (l : ledger)
    (infos : list Report.contributor_info) :
  Forall2 (renders total) l infos ->
  StronglySorted by_total_descending l ->
  StronglySorted info_descending infos.
Proof.
  induction 1 as [|e info l infos Hinfo Hall IH]; intros Hsorted; [constructor|].
  apply StronglySorted_inv in Hsorted as [Hrest Hhead].
  constructor; [now apply IH|].
  apply renders_fields in Hinfo. destruct Hinfo as (_ & _ & _ & _ & Htotal & _).
  clear IH Hrest. induction Hall as [|e' info' l infos Hinfo' _ IH'];
    [constructor|].
  apply Forall_cons in Hhead as [Hfirst Hhead].
  constructor; [|now apply IH'].
  apply renders_fields in Hinfo'. destruct Hinfo' as (_ & _ & _ & _ & Htotal' & _).
  unfold info_descending, by_total_descending in *. lia.
Qed.

(** X5. A returned report lists every ledger entry exactly once, in
    non-increasing order of total activity; the declared contributor count
    is the length of the list; every listed total is the sum of the five
    counters of its breakdown and is at least 1; and when the list is not
    empty, the declared [total_activity_events] is the sum of the listed
    totals. *)
Theorem report_lists_the_ledger (raw_commits : list commit_record)
    (raw_issues : list issue_record) (report : Report.t) :
  _analyze_contributor_concentration custom_domains analysis_window_days
    now_commits now_issues now statistics raw_commits raw_issues = Ok report ->
  let infos := Report.active_contributors report in
  exists d,
    aggregate custom_domains analysis_window_days now_commits now_issues now
      raw_commits raw_issues = Ok d
    /\ Permutation (map Report.login infos) (Ledger.keys d)
    /\ NoDup (map Report.login infos)
    /\ Report.total_active_contributors report = Z.of_nat (length infos)
    /\ StronglySorted info_descending infos
    /\ (forall info, In info infos ->
          Report.total_activity info = breakdown_sum (Report.breakdown info)
          /\ 1 <= Report.total_activity info)
    /\ (infos <> [] ->
        Report.total_activity_events report
        = Some (sum_over Report.total_activity infos))
    /\ (infos = [] -> Report.total_activity_events report = None).
Proof.
  intros Hrun infos. destruct (analysis_inv _ _ _ Hrun) as (d & Hagg & Hcount & Hcases).
  exists d. split; [exact Hagg|].
  destruct (aggregate_entries _ _ _ _ _ _ _ _ Hagg) as (Hnd & Hentries).
  destruct Hcases as [(-> & _ & Hinfos & Hevents & _)
                     | (first & rest & infos' & Hsorted & Hpos & Hall & _ & Hinfos
                        & Hevents & _)];
    unfold infos; rewrite Hinfos.
  - split; [reflexivity|]. split; [constructor|]. split; [exact Hcount|].
    split; [constructor|]. split; [intros info []|].
    split; [congruence | intros _; exact Hevents].
  - pose proof (sorted_contributors_perm d) as Hperm. rewrite Hsorted in Hperm.
    assert (Hlogins : Permutation (map Report.login infos') (Ledger.keys d)).
    { rewrite (renders_logins _ _ _ Hall). now apply Permutation_map. }
    split; [exact Hlogins|].
    split; [now rewrite Hlogins|].
    split.
    { rewrite Hcount. f_equal.
      rewrite <- (length_map Report.login infos').
      symmetry. rewrite <- (length_map fst d). now apply Permutation_length. }
    split.
    { apply (renders_descending _ _ _ Hall). rewrite <- Hsorted.
      apply sorted_contributors_descending. }
    split.
    { intros info Hin.
      assert (Hentry : exists e, In e (first :: rest)
                                 /\ renders (activity_sum d) e info).
      { clear - Hall Hin. induction Hall as [|e i l infos0 Hi _ IH]; [destruct Hin|].
        destruct Hin as [<- | Hin].
        - exists e. split; [now left | exact Hi].
        - destruct (IH Hin) as (e' & He' & Hr). exists e'. split; [now right | exact Hr]. }
      destruct Hentry as ([k c] & He & Hr).
      apply (Permutation_in _ Hperm) in He.
      destruct (Hentries k c He) as (Hok & Htotal & _).
      apply renders_fields in Hr. destruct Hr as (_ & _ & _ & _ & Ht & Hb & _).
      simpl in Ht, Hb. rewrite Ht, Hb, Htotal. split; [reflexivity|].
      unfold five_counters. entry_facts. }
    split.
    { intros _. rewrite Hevents, (renders_sum _ _ _ Hall). f_equal.
      symmetry. now apply activity_sum_perm. }
    intros ->. apply Forall2_length in Hall. discriminate Hall.
Qed.

Lemma percentage_of_positive (part total : Z) :
  0 < total ->
  percentage part total = (inject_Z part / inject_Z total * 100)%Q.
Proof.
  intros H. unfold percentage, PyNum.truediv.
  assert ((total >? 0) = true) as -> by lia. reflexivity.
Qed.

Lemma inject_Z_pos (total : Z) : 0 < total -> (0 < inject_Z total)%Q.
Proof. intros H. change 0%Q with (inject_Z 0). now rewrite <- Zlt_Qlt. Qed.

Lemma percentage_le (a b total : Z) :
  0 < total -> a <= b -> (percentage a total <= percentage b total)%Q.
Proof.
  intros Ht Hab. rewrite !percentage_of_positive by exact Ht.
  apply Qmult_le_compat_r; [|lra].
  apply Qmult_le_compat_r; [now rewrite <- Zle_Qle|].
  apply Qinv_le_0_compat, Qlt_le_weak, inject_Z_pos, Ht.
Qed.

Lemma percentage_whole (total : Z) :
  0 < total -> (percentage total total == 100)%Q.
Proof.
  intros Ht. rewrite percentage_of_positive by exact Ht.
  pose proof (inject_Z_pos total Ht). field. lra.
Qed.

Lemma percentage_pos (a total : Z) :
  0 < total -> 0 < a -> (0 < percentage a total)%Q.
Proof.
  intros Ht Ha. rewrite percentage_of_positive by exact Ht.
  apply Qmult_lt_0_compat; [|lra].
  apply Qmult_lt_0_compat; [now apply inject_Z_pos|].
  apply Qinv_lt_0_compat, inject_Z_pos, Ht.
Qed.

Lemma activity_sum_nonneg (l : ledger) :
  (forall e, In e l -> 0 <= total_activity (snd e)) -> 0 <= activity_sum l.
Proof.
  induction l as [|e l IH]; intros H; [reflexivity|].
  rewrite activity_sum_cons.
  assert (0 <= total_activity (snd e)) by (apply H; now left).
  assert (0 <= activity_sum l) by (apply IH; intros; apply H; now right).
  lia.
Qed.

Lemma activity_sum_take_mono (k k' : nat) (l : ledger) :
  (k <= k')%nat -> (forall e, In e l -> 0 <= total_activity (snd e)) ->
  activity_sum (take k l) <= activity_sum (take k' l).
Proof.
  revert k k'. induction l as [|e l IH]; intros k k' Hk Hnn.
  - rewrite !take_nil. lia.
  - destruct k as [|k].
    + rewrite take_0. change (activity_sum []) with 0.
      apply activity_sum_nonneg. intros x Hx. apply Hnn.
      apply list_elem_of_In. apply list_elem_of_In in Hx.
      revert Hx. apply subseteq_take.
    + destruct k' as [|k']; [lia|]. simpl. rewrite !activity_sum_cons.
      assert (activity_sum (take k l) <= activity_sum (take k' l)).
      { apply IH; [lia|]. intros; apply Hnn; now right. }
      lia.
Qed.

Lemma activity_sum_member (e : string * contributor) (l : ledger) :
  (forall x, In x l -> 0 <= total_activity (snd x)) -> In e l ->
  total_activity (snd e) <= activity_sum l.
Proof.
  induction l as [|x l IH]; intros Hnn Hin; [destruct Hin|].
  rewrite activity_sum_cons.
  assert (0 <= total_activity (snd x)) by (apply Hnn; now left).
  assert (0 <= activity_sum l)
    by (apply activity_sum_nonneg; intros; apply Hnn; now right).
  destruct Hin as [<- | Hin]; [lia|].
  assert (total_activity (snd e) <= activity_sum l)
    by (apply IH; [intros; apply Hnn; now right | exact Hin]).
  lia.
Qed.

(** X6. In a report with at least one contributor the activity
    percentage of every listed contributor is positive and at most 100;
    the distribution holds its three keys with
    [0 < top_1 <= top_3 <= top_5 <= 100]; [top_1] is the percentage of the
    first listed contributor and of the [top_contributor] entry; and
    [top_3] (respectively [top_5]) is 100 when there are at most three
    (respectively five) contributors. *)
Theorem report_percentages (raw_commits : list commit_record)
    (raw_issues : list issue_record) (report : Report.t) :
  _analyze_contributor_concentration custom_domains analysis_window_days
    now_commits now_issues now statistics raw_commits raw_issues = Ok report ->
  Report.active_contributors report <> [] ->
  let infos := Report.active_contributors report in
  let distribution := Report.activity_distribution report in
  (forall info, In info infos ->
     (0 < Report.activity_percentage info <= 100)%Q)
  /\ exists p1 p3 p5,
       distribution !! "top_1_contributor_percentage" = Some p1
       /\ distribution !! "top_3_contributors_percentage" = Some p3
       /\ distribution !! "top_5_contributors_percentage" = Some p5
       /\ (0 < p1)%Q /\ (p1 <= p3)%Q /\ (p3 <= p5)%Q /\ (p5 <= 100)%Q
       /\ ((length infos <= 3)%nat -> (p3 == 100)%Q)
       /\ ((length infos <= 5)%nat -> (p5 == 100)%Q)
       /\ (exists first rest,
             infos = first :: rest /\ Report.activity_percentage first = p1)
       /\ (exists top,
             Report.top_contributor report = Some top
             /\ Report.top_percentage top = p1).
Proof.
  intros Hrun Hne infos distribution.
  destruct (analysis_inv _ _ _ Hrun) as (d & Hagg & Hcount & Hcases).
  destruct Hcases as [(_ & _ & Hinfos & _)
                     | (first & rest & infos' & Hsorted & Hpos & Hall & _ & Hinfos
                        & _ & Htop & Hdist)]; [congruence|].
  destruct (aggregate_entries _ _ _ _ _ _ _ _ Hagg) as (_ & Hentries).
  pose proof (sorted_contributors_perm d) as Hperm. rewrite Hsorted in Hperm.
  assert (Hsum : activity_sum (first :: rest) = activity_sum d)
    by (now apply activity_sum_perm).
  assert (Hone : forall e, In e (first :: rest) -> 1 <= total_activity (snd e)).
  { intros [k c] He. apply (Permutation_in _ Hperm) in He.
    destruct (Hentries k c He) as (Hok & Htotal & _). simpl.
    rewrite Htotal. unfold five_counters. entry_facts. }
  assert (Hnn : forall e, In e (first :: rest) -> 0 <= total_activity (snd e)).
  { intros e He. specialize (Hone e He). lia. }
  unfold infos, distribution. rewrite Hinfos, Hdist. split.
  - intros info Hin.
    assert (Hentry : exists e, In e (first :: rest)
                               /\ renders (activity_sum d) e info).
    { clear - Hall Hin. induction Hall as [|e i l infos0 Hi _ IH]; [destruct Hin|].
      destruct Hin as [<- | Hin].
      - exists e. split; [now left | exact Hi].
      - destruct (IH Hin) as (e' & He' & Hr). exists e'. split; [now right | exact Hr]. }
    destruct Hentry as (e & He & Hr).
    apply renders_fields in Hr. destruct Hr as (_ & _ & _ & _ & _ & _ & -> & _).
    split.
    + apply percentage_pos; [exact Hpos|]. specialize (Hone e He). lia.
    + rewrite <- (percentage_whole (activity_sum d) Hpos).
      apply percentage_le; [exact Hpos|]. rewrite <- Hsum.
      now apply activity_sum_member.
  - exists (percentage (total_activity (snd first)) (activity_sum d)),
      (percentage (activity_sum (take 3 (first :: rest))) (activity_sum d)),
      (percentage (activity_sum (take 5 (first :: rest))) (activity_sum d)).
    split; [now rewrite lookup_insert_eq|].
    split; [rewrite lookup_insert_ne by discriminate; now rewrite lookup_insert_eq|].
    split; [rewrite !lookup_insert_ne by discriminate; now rewrite lookup_insert_eq|].
    assert (Hfirst : total_activity (snd first)
                     = activity_sum (take 1 (first :: rest))).
    { change (take 1 (first :: rest)) with [first].
      rewrite activity_sum_cons. change (activity_sum []) with 0. lia. }
    split.
    { apply percentage_pos; [exact Hpos|].
      assert (1 <= total_activity (snd first)) by (apply Hone; now left). lia. }
    split.
    { apply percentage_le; [exact Hpos|]. rewrite Hfirst.
      apply activity_sum_take_mono; [lia | exact Hnn]. }
    split.
    { apply percentage_le; [exact Hpos|].
      apply activity_sum_take_mono; [lia | exact Hnn]. }
    split.
    { rewrite <- (percentage_whole (activity_sum d) Hpos).
      apply percentage_le; [exact Hpos|]. rewrite <- Hsum.
      rewrite <- (take_ge (first :: rest) (Nat.max 5 (length (first :: rest))))
        at 2 by lia.
      apply activity_sum_take_mono; [lia | exact Hnn]. }
    pose proof (Forall2_length _ _ _ Hall) as Hlen.
    split.
    { intros H3. rewrite take_ge by lia. rewrite Hsum.
      now apply percentage_whole. }
    split.
    { intros H5. rewrite take_ge by lia. rewrite Hsum.
      now apply percentage_whole. }
    split.
    { inversion Hall as [|e info l is0 Hinfo Hrest]; subst.
      exists info, is0. split; [reflexivity|].
      apply renders_fields in Hinfo. tauto. }
    eexists. split; [exact Htop | reflexivity].
Qed.

End ReportFacts.

Lemma concentration_risk_in_unit_interval_witness :
  _analyze_contributor_concentration [] 365 0 0 0 no_statistics
    academic_commits [] = Ok academic_bundle
  /\ (0 <= Report.contributor_concentration_risk academic_bundle <= 1)%Q.
Proof.
  split; [exact academic_bundle_is_reported|].
  exact (concentration_risk_in_unit_interval [] 365 0 0 0 no_statistics
           academic_commits [] academic_bundle academic_bundle_is_reported).
Defined.

Lemma report_lists_the_ledger_witness :
  _analyze_contributor_concentration [] 365 0 0 0 no_statistics
    academic_commits [] = Ok academic_bundle
  /\ Report.total_activity_events academic_bundle
     = Some (sum_over Report.total_activity
               (Report.active_contributors academic_bundle)).
Proof.
  split; [exact academic_bundle_is_reported|].
  destruct (report_lists_the_ledger [] 365 0 0 0 no_statistics
              academic_commits [] academic_bundle academic_bundle_is_reported)
    as (d & _ & _ & _ & _ & _ & _ & Hevents & _).
  apply Hevents. discriminate.
Defined.

Lemma report_percentages_witness :
  exists report,
    _analyze_contributor_concentration [] 365 0 0 0 no_statistics
      three_equal_commits [] = Ok report
    /\ length (Report.active_contributors report) = 3%nat
    /\ (forall info, In info (Report.active_contributors report) ->
          (0 < Report.activity_percentage info <= 100)%Q)
    /\ exists p1 p3,
         Report.activity_distribution report
           !! "top_1_contributor_percentage" = Some p1
         /\ Report.activity_distribution report
              !! "top_3_contributors_percentage" = Some p3
         /\ (0 < p1)%Q /\ (p1 <= p3)%Q /\ (p3 == 100)%Q.
Proof.
  assert (Hrun : exists report,
            _analyze_contributor_concentration [] 365 0 0 0 no_statistics
              three_equal_commits [] = Ok report
            /\ length (Report.active_contributors report) = 3%nat).
  { eexists. split; [vm_compute; reflexivity | reflexivity]. }
  destruct Hrun as (report & Hrun & Hlen). exists report.
  split; [exact Hrun|]. split; [exact Hlen|].
  assert (Hne : Report.active_contributors report <> []).
  { intros Hnil. rewrite Hnil in Hlen. discriminate Hlen. }
  destruct (report_percentages [] 365 0 0 0 no_statistics three_equal_commits
              [] report Hrun Hne)
    as (Hall & p1 & p3 & p5 & H1 & H3 & _ & Hpos & Hle & _ & _ & Hthree & _).
  split; [exact Hall|].
  exists p1, p3. split; [exact H1|]. split; [exact H3|].
  split; [exact Hpos|]. split; [exact Hle|].
  apply Hthree. rewrite Hlen. lia.
Defined.

(** ** The sort is stable *)

Lemma filter_insert_sorted (k : Z) (x : string * contributor) (l : ledger) :
  StronglySorted by_total_descending l ->
  List.filter (fun e => total_activity (snd e) =? k) (insert_sorted x l)
  = List.filter (fun e => total_activity (snd e) =? k) (x :: l).
Proof.
  induction 1 as [|y l Hsorted IH Hall]; [reflexivity|].
  cbn [insert_sorted].
  destruct (Z.leb_spec (total_activity (snd y)) (total_activity (snd x)))
    as [Hle|Hgt]; [reflexivity|].
  cbn [List.filter] in *.
  destruct (Z.eqb_spec (total_activity (snd y)) k) as [Hy|Hy].
  - rewrite IH. destruct (Z.eqb_spec (total_activity (snd x)) k) as [Hx|Hx];
      [lia | reflexivity].
  - exact IH.
Qed.

(** X7. The contributors are ranked by a stable sort: the ranking holds the
    ledger entries rearranged in non-increasing order of total activity,
    and the entries of any one total keep the order they have in the
    ledger, which is the order in which the logins were first seen. *)
Theorem sorted_contributors_stable (d : ledger) :
  Permutation (sorted_contributors d) d
  /\ StronglySorted by_total_descending (sorted_contributors d)
  /\ forall k,
       List.filter (fun e => total_activity (snd e) =? k) (sorted_contributors d)
       = List.filter (fun e => total_activity (snd e) =? k) d.
Proof.
  split; [apply sorted_contributors_perm|].
  split; [apply sorted_contributors_descending|].
  intros k. induction d as [|x d IH]; [reflexivity|].
  cbn [sorted_contributors fold_right].
  fold (sorted_contributors d).
  rewrite filter_insert_sorted by apply sorted_contributors_descending.
  cbn [List.filter]. now rewrite IH.
Qed.

(** ** What the counters count *)

Lemma sum_over_indicator {A : Type} (p : A -> bool) (xs : list A) :
  sum_over (fun x => if p x then 1 else 0) xs = count_where p xs.
Proof.
  unfold count_where. induction xs as [|x xs IH]; [reflexivity|].
  cbn [sum_over fold_right List.filter]. fold (sum_over (fun x => if p x then 1 else 0) xs).
  rewrite IH. destruct (p x); cbn [length]; lia.
Qed.

Lemma sum_over_zero {A : Type} (g : A -> Z) (xs : list A) :
  (forall x, g x = 0) -> sum_over g xs = 0.
Proof.
  intros Hg. induction xs as [|x xs IH]; [reflexivity|].
  simpl. fold (sum_over g xs). rewrite Hg, IH. reflexivity.
Qed.

Lemma bumped_commits (q : option Z) (c : contributor) :
  commits (bumped q c) = commits c.
Proof. destruct q; reflexivity. Qed.

Lemma bumped_issues_created (q : option Z) (c : contributor) :
  issues_created (bumped q c) = issues_created c.
Proof. destruct q; reflexivity. Qed.

Lemma bumped_prs_created (q : option Z) (c : contributor) :
  prs_created (bumped q c) = prs_created c.
Proof. destruct q; reflexivity. Qed.

Lemma in_quarter_total (q : option Z) :
  quarter_in_range q ->
  in_quarter q 0 + in_quarter q 1 + in_quarter q 2 + in_quarter q 3
  = 1 - no_bucket q.
Proof.
  destruct q as [q|]; [|reflexivity]. simpl. intros Hq.
  assert (q = 0 \/ q = 1 \/ q = 2 \/ q = 3) as [-> | [-> | [-> | ->]]] by lia;
    reflexivity.
Qed.

Lemma unbucketed_bumped (q : option Z) (c : contributor) :
  shape_ok c -> quarter_in_range q ->
  unbucketed (bumped q c) = unbucketed c - (1 - no_bucket q).
Proof.
  intros Hc Hq. unfold unbucketed.
  rewrite !quarter_slot_bumped by assumption.
  rewrite bumped_commits, bumped_issues_created, bumped_prs_created,
    bumped_reviews_given.
  pose proof (in_quarter_total q Hq). lia.
Qed.

Section CounterFacts.

Variable custom_domains : list string.
Variable analysis_window_days : Z.
Variable now_commits now_issues now : Z.

Let bucket := quarter_or_none analysis_window_days now.
Let recent_commits := _filter_recent_commits analysis_window_days now_commits.
Let recent_issues := _filter_recent_issues analysis_window_days now_issues.
Let run_aggregate :=
  aggregate custom_domains analysis_window_days now_commits now_issues now.

(** Every read-out that neither the comment shares nor the totals and
    trends touch, on the final ledger. *)
Lemma aggregate_count (raw_commits : list commit_record)
    (raw_issues : list issue_record) (d : ledger)
    (f : counter) (dc : option Z -> Z) (da : issue_record -> option Z -> Z)
    (dr : option Z -> Z) (l : string) :
  run_aggregate raw_commits raw_issues = Ok d ->
  starts_at_zero f ->
  (forall q, quarter_in_range q ->
     steps_by f (fun c => bumped q (add_commits 1 c)) (dc q)) ->
  (forall issue q, quarter_in_range q ->
     steps_by f (fun c => bumped q (author_step issue c)) (da issue q)) ->
  (forall q, quarter_in_range q ->
     steps_by f (fun c => bumped q (add_reviews_given 1 c)) (dr q)) ->
  (forall s, steps_by f (add_comments_made s) 0) ->
  (forall c c', finalize_contributor c = Ok c' -> f c' = f c) ->
  count_of f l d
  = sum_over
      (fun commit =>
         if commit_counts_for l commit
         then dc (bucket (commit_date commit)) else 0)
      (recent_commits raw_commits)
    + sum_over
        (fun issue =>
           if issue_is_tracked issue then
             let q := bucket (issue_created_at issue) in
             (if String.eqb (issue_author issue) l then da issue q else 0)
             + dr q * reviews_by l (issue_author issue) (issue_reviews issue)
           else 0)
        (recent_issues raw_issues).
Proof.
  intros Hrun Hz Hc Ha Hr Hm Hfin.
  destruct (aggregate_spec _ _ _ _ _ _ _ _ Hrun) as (d0 & Hfold & _ & _ & Hall).
  destruct (fold_records_spec _ _ _ _ _ _ _ _ Hfold) as (_ & _ & Hcount).
  rewrite (finalize_keeps_count f d0 d l Hfin Hall).
  apply (Hcount f dc da dr Hz Hc Ha Hr Hm l).
Qed.

(** X8. After the aggregation pass the [commits] counter of a login is the
    number of in-window commits booked under it (resolved author, bot test
    passed), its [prs_created] counter the number of in-window pull
    requests it opened, and its [issues_created] counter the number of
    in-window issues it opened, the author being known and not a bot. *)
Theorem counters_count_the_records (raw_commits : list commit_record)
    (raw_issues : list issue_record) (d : ledger) (l : string) :
  aggregate custom_domains analysis_window_days now_commits now_issues now
    raw_commits raw_issues = Ok d ->
  count_of commits l d
  = count_where (commit_counts_for l)
      (_filter_recent_commits analysis_window_days now_commits raw_commits)
  /\ count_of prs_created l d
     = count_where (opened_by l true)
         (_filter_recent_issues analysis_window_days now_issues raw_issues)
  /\ count_of issues_created l d
     = count_where (opened_by l false)
         (_filter_recent_issues analysis_window_days now_issues raw_issues).
Proof.
  intros Hrun. fold recent_commits recent_issues. split; [|split].
  - rewrite (aggregate_count _ _ d commits (fun _ => 1) (fun _ _ => 0)
               (fun _ => 0) l Hrun).
    + rewrite sum_over_indicator.
      rewrite (sum_over_zero _ (recent_issues raw_issues)); [lia|].
      intros issue.
      destruct (issue_is_tracked issue); [|reflexivity]. cbv zeta.
      destruct (String.eqb (issue_author issue) l); lia.
    + intros n e t. reflexivity.
    + intros q _ c _. rewrite bumped_commits. reflexivity.
    + intros issue q _ c _. rewrite bumped_commits. unfold author_step.
      destruct (issue_pull_request issue);
        cbn [commits add_prs_created add_issues_created]; lia.
    + intros q _ c _. rewrite bumped_commits. cbn [commits add_reviews_given]. lia.
    + intros s c _. cbn [commits add_comments_made]. lia.
    + intros c c' Hfin. apply finalize_contributor_fields in Hfin. tauto.
  - rewrite (aggregate_count _ _ d prs_created (fun _ => 0)
               (fun issue _ => if issue_pull_request issue then 1 else 0)
               (fun _ => 0) l Hrun).
    + rewrite (sum_over_zero _ (recent_commits raw_commits))
        by (intros commit; destruct (commit_counts_for l commit); reflexivity).
      rewrite <- sum_over_indicator. rewrite Z.add_0_l.
      apply sum_over_ext. intros issue. unfold opened_by.
      destruct (issue_is_tracked issue); [|reflexivity]. cbv zeta.
      destruct (String.eqb (issue_author issue) l),
        (issue_pull_request issue); reflexivity.
    + intros n e t. reflexivity.
    + intros q _ c _. rewrite bumped_prs_created.
      cbn [prs_created add_commits]. lia.
    + intros issue q _ c _. rewrite bumped_prs_created. unfold author_step.
      destruct (issue_pull_request issue);
        cbn [prs_created add_prs_created add_issues_created]; lia.
    + intros q _ c _. rewrite bumped_prs_created.
      cbn [prs_created add_reviews_given]. lia.
    + intros s c _. cbn [prs_created add_comments_made]. lia.
    + intros c c' Hfin. apply finalize_contributor_fields in Hfin. tauto.
  - rewrite (aggregate_count _ _ d issues_created (fun _ => 0)
               (fun issue _ => if issue_pull_request issue then 0 else 1)
               (fun _ => 0) l Hrun).
    + rewrite (sum_over_zero _ (recent_commits raw_commits))
        by (intros commit; destruct (commit_counts_for l commit); reflexivity).
      rewrite <- sum_over_indicator. rewrite Z.add_0_l.
      apply sum_over_ext. intros issue. unfold opened_by.
      destruct (issue_is_tracked issue); [|reflexivity]. cbv zeta.
      destruct (String.eqb (issue_author issue) l),
        (issue_pull_request issue); reflexivity.
    + intros n e t. reflexivity.
    + intros q _ c _. rewrite bumped_issues_created.
      cbn [issues_created add_commits]. lia.
    + intros issue q _ c _. rewrite bumped_issues_created. unfold author_step.
      destruct (issue_pull_request issue);
        cbn [issues_created add_prs_created add_issues_created]; lia.
    + intros q _ c _. rewrite bumped_issues_created.
      cbn [issues_created add_reviews_given]. lia.
    + intros s c _. cbn [issues_created add_comments_made]. lia.
    + intros c c' Hfin. apply finalize_contributor_fields in Hfin. tauto.
Qed.

End CounterFacts.

Lemma counters_count_the_records_witness :
  exists d,
    aggregate [] 365 0 0 0 twelve_commits
      [issue_by "alice"; pull_request_by "alice" [] 0 []; bot_pull_request]
    = Ok d
    /\ count_of commits "alice" d = 12
    /\ count_of prs_created "alice" d = 1
    /\ count_of issues_created "alice" d = 1.
Proof.
  assert (Hrun : exists d,
            aggregate [] 365 0 0 0 twelve_commits
              [issue_by "alice"; pull_request_by "alice" [] 0 [];
               bot_pull_request] = Ok d).
  { eexists. vm_compute. reflexivity. }
  destruct Hrun as (d & Hrun). exists d. split; [exact Hrun|].
  exact (counters_count_the_records [] 365 0 0 0 twelve_commits
           [issue_by "alice"; pull_request_by "alice" [] 0 [];
            bot_pull_request] d "alice" Hrun).
Defined.

(** ** The window filters and the quarterly buckets together *)

Lemma sum_over_ext_in {A : Type} (g h : A -> Z) (xs : list A) :
  (forall x, In x xs -> g x = h x) -> sum_over g xs = sum_over h xs.
Proof.
  induction xs as [|x xs IH]; intros H; [reflexivity|].
  simpl. fold (sum_over g xs) (sum_over h xs).
  rewrite (H x) by now left. rewrite IH; [reflexivity|].
  intros y Hy. apply H. now right.
Qed.

Lemma day_pos : 0 < day.
Proof. reflexivity. Qed.

(** The elapsed whole days of a date that the filter kept. *)
Lemma kept_days_ago (analysis_window_days now_filter now : Z) (t : Z) :
  now_filter <= now < now_filter + day ->
  now_filter - analysis_window_days * day <= t ->
  (now - t) / day <= analysis_window_days
  /\ (t <= now -> 0 <= (now - t) / day)
  /\ (now < t -> (now - t) / day < 0).
Proof.
  intros Hclock Hkept. pose proof day_pos as Hday. split; [|split].
  - assert ((now - t) / day < analysis_window_days + 1); [|lia].
    apply Z.div_lt_upper_bound; [exact Hday | nia].
  - intros Ht. apply Z.div_pos; lia.
  - intros Ht. apply Z.div_lt_upper_bound; [exact Hday | lia].
Qed.

Section WindowFacts.

Variable analysis_window_days : Z.
Variable now_filter now : Z.

Hypothesis window_from_four_days : 4 <= analysis_window_days.
Hypothesis clock_moves_on : now_filter <= now < now_filter + day.

Let bucket := quarter_or_none analysis_window_days now.

Lemma kept_bucket (t : Z) :
  now_filter - analysis_window_days * day <= t ->
  (t <= now ->
   exists q, get_quarter analysis_window_days now (Some t) = Ok (Some q)
             /\ 0 <= q <= 3)
  /\ (now < t -> get_quarter analysis_window_days now (Some t) = Ok None).
Proof.
  intros Hkept. destruct (kept_days_ago analysis_window_days now_filter now t
              clock_moves_on Hkept) as (Hup & Hold & Hnew).
  destruct (get_quarter_from_four_days analysis_window_days now
              window_from_four_days) as (Hin & _ & _ & Hout).
  split.
  - intros Ht. apply Hin. split; [apply Hold; exact Ht | exact Hup].
  - intros Ht. apply Hout. left. apply Hnew. exact Ht.
Qed.

Lemma kept_no_bucket (t : Z) :
  now_filter - analysis_window_days * day <= t ->
  no_bucket (bucket (Some t)) = if dated_after now (Some t) then 1 else 0.
Proof.
  intros Hkept. destruct (kept_bucket t Hkept) as (Hold & Hnew).
  unfold bucket, quarter_or_none, dated_after.
  destruct (Z.ltb_spec now t) as [Ht|Ht].
  - rewrite (Hnew Ht). reflexivity.
  - destruct (Hold Ht) as (q & -> & _). reflexivity.
Qed.

Lemma kept_commit (raw_commits : list commit_record) (commit : commit_record) :
  In commit (_filter_recent_commits analysis_window_days now_filter raw_commits) ->
  exists t, commit_date commit = Some t
            /\ now_filter - analysis_window_days * day <= t.
Proof.
  unfold _filter_recent_commits. cbv zeta. rewrite filter_In.
  intros (_ & Hkept). destruct (commit_date commit) as [t|]; [|discriminate].
  exists t. split; [reflexivity | lia].
Qed.

Lemma kept_issue (raw_issues : list issue_record) (issue : issue_record) :
  In issue (_filter_recent_issues analysis_window_days now_filter raw_issues) ->
  exists t, issue_created_at issue = Some t
            /\ now_filter - analysis_window_days * day <= t.
Proof.
  unfold _filter_recent_issues. cbv zeta. rewrite filter_In.
  intros (_ & Hkept). destruct (issue_created_at issue) as [t|]; [|discriminate].
  exists t. split; [reflexivity | lia].
Qed.

(** X9. With a window of at least four days and less than a day between
    the clock reading of the window filter and that of the aggregation,
    every commit and every issue or pull request that the filter keeps has
    a date, gets one of the buckets 0..3 when it is dated up to the
    aggregation's clock, and gets no bucket (without an error) when it is
    dated after it. *)
Theorem kept_records_are_bucketed (raw_commits : list commit_record)
    (raw_issues : list issue_record) :
  (forall commit,
     In commit (_filter_recent_commits analysis_window_days now_filter raw_commits) ->
     exists t,
       commit_date commit = Some t
       /\ (t <= now ->
           exists q, get_quarter analysis_window_days now (Some t) = Ok (Some q)
                     /\ 0 <= q <= 3)
       /\ (now < t -> get_quarter analysis_window_days now (Some t) = Ok None))
  /\ (forall issue,
        In issue (_filter_recent_issues analysis_window_days now_filter raw_issues) ->
        exists t,
          issue_created_at issue = Some t
          /\ (t <= now ->
              exists q, get_quarter analysis_window_days now (Some t) = Ok (Some q)
                        /\ 0 <= q <= 3)
          /\ (now < t -> get_quarter analysis_window_days now (Some t) = Ok None)).
Proof.
  split.
  - intros commit Hin. destruct (kept_commit _ _ Hin) as (t & Hdate & Hkept).
    exists t. split; [exact Hdate | apply kept_bucket; exact Hkept].
  - intros issue Hin. destruct (kept_issue _ _ Hin) as (t & Hdate & Hkept).
    exists t. split; [exact Hdate | apply kept_bucket; exact Hkept].
Qed.

End WindowFacts.

Lemma kept_records_are_bucketed_witness :
  (forall commit,
     In commit (_filter_recent_commits 365 0 commits_with_a_late_one) ->
     exists t,
       commit_date commit = Some t
       /\ (t <= 0 ->
           exists q, get_quarter 365 0 (Some t) = Ok (Some q) /\ 0 <= q <= 3)
       /\ (0 < t -> get_quarter 365 0 (Some t) = Ok None))
  /\ (forall issue,
        In issue (_filter_recent_issues 365 0 [bot_pull_request]) ->
        exists t,
          issue_created_at issue = Some t
          /\ (t <= 0 ->
              exists q, get_quarter 365 0 (Some t) = Ok (Some q) /\ 0 <= q <= 3)
          /\ (0 < t -> get_quarter 365 0 (Some t) = Ok None)).
Proof.
  apply (kept_records_are_bucketed 365 0 0); [lia | vm_compute; split; congruence].
Defined.

Lemma unbucketed_steps :
  starts_at_zero unbucketed
  /\ (forall q, quarter_in_range q ->
        steps_by unbucketed (fun c => bumped q (add_commits 1 c)) (no_bucket q))
  /\ (forall issue q, quarter_in_range q ->
        steps_by unbucketed (fun c => bumped q (author_step issue c))
          (no_bucket q))
  /\ (forall q, quarter_in_range q ->
        steps_by unbucketed (fun c => bumped q (add_reviews_given 1 c))
          (no_bucket q))
  /\ (forall s, steps_by unbucketed (add_comments_made s) 0)
  /\ (forall c c', finalize_contributor c = Ok c' -> unbucketed c' = unbucketed c).
Proof.
  split; [|split; [|split; [|split; [|split]]]].
  - intros n e t. reflexivity.
  - intros q Hq c Hc.
    rewrite unbucketed_bumped by (auto; apply add_commits_ok, Hc).
    unfold unbucketed, quarter_slot. cbn [commits issues_created prs_created
      reviews_given quarterly_activity add_commits]. lia.
  - intros issue q Hq c Hc.
    rewrite unbucketed_bumped by (auto; apply author_step_ok, Hc).
    unfold unbucketed, quarter_slot, author_step.
    destruct (issue_pull_request issue);
      cbn [commits issues_created prs_created reviews_given quarterly_activity
           add_prs_created add_issues_created]; lia.
  - intros q Hq c Hc.
    rewrite unbucketed_bumped by (auto; apply add_reviews_given_ok, Hc).
    unfold unbucketed, quarter_slot. cbn [commits issues_created prs_created
      reviews_given quarterly_activity add_reviews_given]. lia.
  - intros s c Hc. unfold unbucketed, quarter_slot.
    cbn [commits issues_created prs_created reviews_given quarterly_activity
         add_comments_made]. lia.
  - intros c c' Hfin. apply finalize_contributor_fields in Hfin.
    destruct Hfin as (_ & _ & _ & H1 & H2 & H3 & H4 & _ & H5 & _).
    unfold unbucketed, quarter_slot. rewrite H1, H2, H3, H4, H5. reflexivity.
Qed.

Lemma count_of_unbucketed (l : string) (d : ledger) :
  count_of unbucketed l d
  = count_of commits l d + count_of issues_created l d
    + count_of prs_created l d + count_of reviews_given l d
    - (count_of (quarter_slot 0) l d + count_of (quarter_slot 1) l d
       + count_of (quarter_slot 2) l d + count_of (quarter_slot 3) l d).
Proof.
  unfold count_of. destruct (Ledger.get l d); [reflexivity | lia].
Qed.

Section SlotFacts.

Variable custom_domains : list string.
Variable analysis_window_days : Z.
Variable now_commits now_issues now : Z.

Hypothesis window_from_four_days : 4 <= analysis_window_days.
Hypothesis commits_clock : now_commits <= now < now_commits + day.
Hypothesis issues_clock : now_issues <= now < now_issues + day.

(** X10. With a window of at least four days and less than a day between
    the clock readings, the four quarterly slots of a login add up to its
    commits, issues, pull requests and reviews, less the activities dated
    after the aggregation's clock: such a commit, issue or pull request is
    counted but enters no slot, and neither do the reviews on such a record.
    Comments enter no slot. *)
Theorem quarterly_slots_add_up (raw_commits : list commit_record)
    (raw_issues : list issue_record) (d : ledger) (l : string) :
  aggregate custom_domains analysis_window_days now_commits now_issues now
    raw_commits raw_issues = Ok d ->
  count_of (quarter_slot 0) l d + count_of (quarter_slot 1) l d
  + count_of (quarter_slot 2) l d + count_of (quarter_slot 3) l d
  = count_of commits l d + count_of issues_created l d
    + count_of prs_created l d + count_of reviews_given l d
    - (count_where
         (fun commit =>
            commit_counts_for l commit && dated_after now (commit_date commit))
         (_filter_recent_commits analysis_window_days now_commits raw_commits)
       + sum_over
           (fun issue =>
              if issue_is_tracked issue
                 && dated_after now (issue_created_at issue)
              then (if String.eqb (issue_author issue) l then 1 else 0)
                   + reviews_by l (issue_author issue) (issue_reviews issue)
              else 0)
           (_filter_recent_issues analysis_window_days now_issues raw_issues)).
Proof.
  intros Hrun.
  destruct unbucketed_steps as (Hz & Hc & Ha & Hr & Hm & Hfin).
  pose proof (aggregate_count custom_domains analysis_window_days now_commits
                now_issues now raw_commits raw_issues d unbucketed
                no_bucket (fun _ q => no_bucket q) no_bucket l
                Hrun Hz Hc Ha Hr Hm Hfin) as Hcount.
  rewrite count_of_unbucketed in Hcount.
  rewrite <- sum_over_indicator.
  match type of Hcount with
  | _ = sum_over ?g1 ?xs + sum_over ?g2 ?ys =>
      match goal with
      | |- _ = _ - (sum_over ?h1 _ + sum_over ?h2 _) =>
          assert (H1 : sum_over g1 xs = sum_over h1 xs);
          [|assert (H2 : sum_over g2 ys = sum_over h2 ys)]
      end
  end.
  - apply sum_over_ext_in. intros commit Hin.
    destruct (kept_commit _ _ _ _ Hin) as (t & Hdate & Hkept).
    rewrite Hdate.
    rewrite (kept_no_bucket analysis_window_days now_commits now
               window_from_four_days commits_clock t Hkept).
    destruct (commit_counts_for l commit), (dated_after now (Some t));
      reflexivity.
  - apply sum_over_ext_in. intros issue Hin.
    destruct (kept_issue _ _ _ _ Hin) as (t & Hdate & Hkept).
    rewrite Hdate. cbv zeta.
    rewrite (kept_no_bucket analysis_window_days now_issues now
               window_from_four_days issues_clock t Hkept).
    destruct (issue_is_tracked issue), (dated_after now (Some t)),
      (String.eqb (issue_author issue) l); cbn [andb]; lia.
  - lia.
Qed.

End SlotFacts.

Lemma quarterly_slots_add_up_witness :
  exists d,
    aggregate [] 365 0 0 0 commits_with_a_late_one [bot_pull_request] = Ok d
    /\ count_of (quarter_slot 0) "alice" d + count_of (quarter_slot 1) "alice" d
       + count_of (quarter_slot 2) "alice" d + count_of (quarter_slot 3) "alice" d
       = 1
    /\ count_of commits "alice" d = 2.
Proof.
  assert (Hrun : exists d,
            aggregate [] 365 0 0 0 commits_with_a_late_one [bot_pull_request]
            = Ok d).
  { eexists. vm_compute. reflexivity. }
  destruct Hrun as (d & Hrun). exists d. split; [exact Hrun|].
  assert (Hclock : 0 <= 0 < 0 + day) by (vm_compute; split; congruence).
  pose proof (quarterly_slots_add_up [] 365 0 0 0 ltac:(lia) Hclock Hclock
                commits_with_a_late_one [bot_pull_request] d "alice" Hrun)
    as Hslots.
  assert (Hcommits : count_of commits "alice" d = 2).
  { revert Hrun. vm_compute. intros [= <-]. reflexivity. }
  split; [|exact Hcommits].
  rewrite Hslots. revert Hrun. vm_compute. intros [= <-]. reflexivity.
Defined.

(** ** Quarter boundaries *)

(** X11. From a window of four days on, a date inside the window gets its
    bucket by age alone: bucket 3 up to one quarter length
    [analysis_window_days // 4] back, bucket 2 and bucket 1 for the next two
    quarter lengths, and bucket 0 for every older day of the window.  The
    oldest bucket therefore spans at least one day more than each of the
    other three. *)
Theorem quarter_boundaries (analysis_window_days now t : Z) :
  4 <= analysis_window_days ->
  0 <= elapsed_days now t <= analysis_window_days ->
  let quarter_length := analysis_window_days / 4 in
  get_quarter analysis_window_days now (Some t)
  = Ok (Some (bucket_by_age quarter_length (elapsed_days now t)))
  /\ quarter_length + 1 <= analysis_window_days - 3 * quarter_length + 1.
Proof.
  intros Hw Ht quarter_length. unfold elapsed_days in *.
  assert (Hql : 1 <= quarter_length)
    by (apply Z.div_le_lower_bound; lia).
  assert (Hfour : 4 * quarter_length <= analysis_window_days)
    by (apply Z.mul_div_le; lia).
  split; [|lia].
  rewrite get_quarter_inside by exact Ht. fold quarter_length.
  destruct (quarter_length =? 0) eqn:E; [lia|].
  do 3 f_equal. unfold bucket_by_age.
  set (a := (now - t) / day) in *.
  pose proof (Z.div_mod a quarter_length ltac:(lia)) as Hdm.
  pose proof (Z.mod_pos_bound a quarter_length ltac:(lia)) as Hmod.
  set (k := a / quarter_length) in *.
  assert (Hk : 0 <= k) by (apply Z.div_pos; lia).
  destruct (Z.ltb_spec a quarter_length);
    [assert (k = 0) by nia; lia|].
  destruct (Z.ltb_spec a (2 * quarter_length));
    [assert (k = 1) by nia; lia|].
  destruct (Z.ltb_spec a (3 * quarter_length));
    [assert (k = 2) by nia; lia|].
  assert (3 <= k) by nia. lia.
Qed.

Lemma quarter_boundaries_witness :
  get_quarter 365 0 (Some (-300 * day))
  = Ok (Some (bucket_by_age (365 / 4) (elapsed_days 0 (-300 * day))))
  /\ 365 / 4 + 1 <= 365 - 3 * (365 / 4) + 1.
Proof.
  apply (quarter_boundaries 365 0 (-300 * day));
    [lia | vm_compute; split; congruence].
Defined.

(** ** What the analysis can raise *)

Lemma for_each_outcome {A S : Type} (body : A -> S -> result S)
    (inv : S -> Prop) (hit : A -> bool) (e : exn) :
  (forall x s, inv s ->
     if hit x then body x s = Raise e
     else exists s', body x s = Ok s' /\ inv s') ->
  forall xs s, inv s ->
    if existsb hit xs then for_each body xs s = Raise e
    else exists s', for_each body xs s = Ok s' /\ inv s'.
Proof.
  intros Hbody. induction xs as [|x xs IH]; intros s Hs.
  - simpl. eauto.
  - specialize (Hbody x s Hs). cbn [existsb for_each].
    destruct (hit x).
    + rewrite Hbody. reflexivity.
    + destruct Hbody as (s' & -> & Hs'). cbn [orb rbind]. apply IH, Hs'.
Qed.

Section RaiseFacts.

Variable custom_domains : list string.
Variable analysis_window_days : Z.
Variable now_commits now_issues now : Z.
Variable statistics :
  list issue_record -> list commit_record -> Report.repository_statistics.

Let short := analysis_window_days / 4 =? 0.

Lemma get_quarter_outcome (date : option Z) :
  if short && falls_in_window analysis_window_days now date
  then get_quarter analysis_window_days now date = Raise ZeroDivisionError
  else exists q, get_quarter analysis_window_days now date = Ok q.
Proof.
  unfold short, falls_in_window, elapsed_days, get_quarter.
  destruct date as [t|]; [|rewrite andb_false_r; eauto].
  cbv zeta. set (a := (now - t) / day).
  destruct (Z.leb_spec 0 a), (Z.leb_spec a analysis_window_days),
    (Z.ltb_spec a 0), (Z.gtb_spec a analysis_window_days);
    try lia; cbn [andb orb]; rewrite ?andb_false_r; eauto.
  destruct (analysis_window_days / 4 =? 0); cbn [andb]; eauto.
Qed.

Lemma track_commit_outcome (commit : commit_record) (d : ledger) :
  ledger_ok d ->
  if short && commit_is_bucketed analysis_window_days now commit
  then track_commit custom_domains analysis_window_days now commit d
       = Raise ZeroDivisionError
  else exists d1,
         track_commit custom_domains analysis_window_days now commit d = Ok d1
         /\ ledger_ok d1.
Proof.
  intros Hok. unfold commit_is_bucketed.
  destruct (commit_is_bot commit) eqn:Hbot.
  - cbn [negb andb]. rewrite andb_false_r.
    rewrite track_commit_skipped by exact Hbot. eauto.
  - cbn [negb andb].
    destruct (track_commit_kept custom_domains analysis_window_days now
                commit d Hbot Hok) as (email_type & Hkept).
    cbv zeta in Hkept.
    pose proof (get_quarter_outcome (commit_date commit)) as Hq.
    destruct (short && falls_in_window analysis_window_days now
                         (commit_date commit)).
    + rewrite Hq in Hkept. exact Hkept.
    + destruct Hq as (q & Hq). rewrite Hq in Hkept.
      destruct Hkept as (d1 & Hrun & _ & Hok1). eauto.
Qed.

Lemma track_issue_outcome (issue : issue_record) (d : ledger) :
  ledger_ok d ->
  if short && issue_is_bucketed analysis_window_days now issue
  then track_issue analysis_window_days now issue d = Raise ZeroDivisionError
  else exists d1,
         track_issue analysis_window_days now issue d = Ok d1 /\ ledger_ok d1.
Proof.
  intros Hok. unfold issue_is_bucketed.
  destruct (issue_is_tracked issue) eqn:Htracked.
  - cbn [andb].
    pose proof (track_issue_kept analysis_window_days now issue d Htracked Hok)
      as Hkept.
    cbv zeta in Hkept.
    pose proof (get_quarter_outcome (issue_created_at issue)) as Hq.
    destruct (short && falls_in_window analysis_window_days now
                         (issue_created_at issue)).
    + rewrite Hq in Hkept. exact Hkept.
    + destruct Hq as (q & Hq). rewrite Hq in Hkept.
      destruct Hkept as (d1 & Hrun & Hok1 & _). eauto.
  - cbn [andb]. rewrite andb_false_r.
    rewrite track_issue_skipped by exact Htracked. eauto.
Qed.

Lemma existsb_short {A : Type} (hit : A -> bool) (xs : list A) :
  existsb (fun x => short && hit x) xs = short && existsb hit xs.
Proof.
  induction xs as [|x xs IH]; simpl; [now rewrite andb_false_r|].
  rewrite IH. destruct short; reflexivity.
Qed.

Lemma aggregate_outcome (raw_commits : list commit_record)
    (raw_issues : list issue_record) :
  if short
     && (existsb (commit_is_bucketed analysis_window_days now)
           (_filter_recent_commits analysis_window_days now_commits raw_commits)
         || existsb (issue_is_bucketed analysis_window_days now)
              (_filter_recent_issues analysis_window_days now_issues raw_issues))
  then aggregate custom_domains analysis_window_days now_commits now_issues now
         raw_commits raw_issues = Raise ZeroDivisionError
  else exists d,
         aggregate custom_domains analysis_window_days now_commits now_issues
           now raw_commits raw_issues = Ok d.
Proof.
  unfold aggregate, fold_records. cbv zeta.
  pose proof (for_each_outcome
                (track_commit custom_domains analysis_window_days now)
                ledger_ok _ ZeroDivisionError track_commit_outcome
                (_filter_recent_commits analysis_window_days now_commits
                   raw_commits) [] LedgerFacts.empty_ok) as Hcommits.
  rewrite existsb_short in Hcommits. rewrite andb_orb_distrib_r.
  destruct (short && existsb _ (_filter_recent_commits _ _ _)).
  { rewrite Hcommits. reflexivity. }
  destruct Hcommits as (d0 & -> & Hok0). cbn [orb rbind].
  pose proof (for_each_outcome (track_issue analysis_window_days now)
                ledger_ok _ ZeroDivisionError track_issue_outcome
                (_filter_recent_issues analysis_window_days now_issues
                   raw_issues) d0 Hok0) as Hissues.
  rewrite existsb_short in Hissues.
  destruct (short && existsb _ (_filter_recent_issues _ _ _)).
  { rewrite Hissues. reflexivity. }
  destruct Hissues as (d1 & -> & Hok1). cbn [rbind].
  destruct (finalize_spec d1) as (d & -> & _); [|eauto].
  intros k c Hin. apply (ledger_ok_In d1 k c Hok1 Hin).
Qed.

(** X12. On a window of 0 to 365 days the contributor analysis (its
    sentiment annotation apart) either returns a report or raises
    [ZeroDivisionError]; it raises no [KeyError] and no [IndexError].  It
    raises exactly when the quarter length [analysis_window_days // 4] is
    zero and the date of some in-window commit of a non-bot author, or of
    some in-window issue or pull request of a known non-bot author, lies
    zero to [analysis_window_days] whole days back. *)
Theorem analysis_raises_only_on_zero_quarter_length
    (raw_commits : list commit_record) (raw_issues : list issue_record) :
  0 <= analysis_window_days <= 365 ->
  let hit :=
    (analysis_window_days / 4 =? 0)
    && (existsb (commit_is_bucketed analysis_window_days now)
          (_filter_recent_commits analysis_window_days now_commits raw_commits)
        || existsb (issue_is_bucketed analysis_window_days now)
             (_filter_recent_issues analysis_window_days now_issues raw_issues)) in
  let outcome :=
    _analyze_contributor_concentration custom_domains analysis_window_days
      now_commits now_issues now statistics raw_commits raw_issues in
  (hit = true -> outcome = Raise ZeroDivisionError)
  /\ (hit = false -> exists report, outcome = Ok report).
Proof.
  intros _. cbv zeta.
  pose proof (aggregate_outcome raw_commits raw_issues) as Hagg.
  fold short. destruct (short && _).
  - split; [intros _ | discriminate].
    unfold _analyze_contributor_concentration. cbv zeta. rewrite Hagg.
    reflexivity.
  - split; [discriminate | intros _]. destruct Hagg as (d & Hagg).
    destruct d as [|entry d].
    + unfold _analyze_contributor_concentration. cbv zeta. rewrite Hagg.
      cbn [rbind sorted_contributors fold_right]. eauto.
    + destruct (nonempty_ledger_report custom_domains analysis_window_days
                  now_commits now_issues now statistics raw_commits raw_issues
                  (entry :: d) Hagg ltac:(discriminate))
        as (report & _ & _ & Hreport & _).
      exists report. exact Hreport.
Qed.

End RaiseFacts.

Lemma analysis_raises_only_on_zero_quarter_length_witness :
  _analyze_contributor_concentration [] 3 0 0 0 no_statistics
    twelve_commits [bot_pull_request] = Raise ZeroDivisionError
  /\ exists report,
       _analyze_contributor_concentration [] 365 0 0 0 no_statistics
         twelve_commits [bot_pull_request] = Ok report.
Proof.
  split.
  - apply (analysis_raises_only_on_zero_quarter_length [] 3 0 0 0
             no_statistics twelve_commits [bot_pull_request]); [lia|].
    vm_compute. reflexivity.
  - apply (analysis_raises_only_on_zero_quarter_length [] 365 0 0 0
             no_statistics twelve_commits [bot_pull_request]); [lia|].
    vm_compute. reflexivity.
Defined.

(** X13. On a window of up to three days one commit is enough to make the
    contributor analysis fail: if less than a day lies between the clock
    readings and some commit of a non-bot author is dated inside the window
    and not after the aggregation's clock, the analysis raises
    [ZeroDivisionError] whatever the other records are. *)
Theorem short_window_breaks_analysis (custom_domains : list string)
    (analysis_window_days now_commits now_issues now : Z)
    (statistics :
       list issue_record -> list commit_record -> Report.repository_statistics)
    (raw_commits : list commit_record) (raw_issues : list issue_record)
    (commit : commit_record) (t : Z) :
  0 <= analysis_window_days <= 3 ->
  now_commits <= now < now_commits + day ->
  In commit raw_commits ->
  commit_is_bot commit = false ->
  commit_date commit = Some t ->
  now_commits - analysis_window_days * day <= t <= now ->
  _analyze_contributor_concentration custom_domains analysis_window_days
    now_commits now_issues now statistics raw_commits raw_issues
  = Raise ZeroDivisionError.
Proof.
  intros Hw Hclock Hin Hbot Hdate Ht.
  pose proof (aggregate_outcome custom_domains analysis_window_days now_commits
                now_issues now raw_commits raw_issues) as Hagg.
  assert (Hshort : (analysis_window_days / 4 =? 0) = true).
  { apply Z.eqb_eq, Z.div_small. lia. }
  assert (Hhit : existsb (commit_is_bucketed analysis_window_days now)
                   (_filter_recent_commits analysis_window_days now_commits
                      raw_commits) = true).
  { apply existsb_exists. exists commit. split.
    - unfold _filter_recent_commits. cbv zeta. apply filter_In.
      split; [exact Hin|]. rewrite Hdate. apply Z.leb_le. lia.
    - unfold commit_is_bucketed, falls_in_window. rewrite Hbot, Hdate.
      destruct (kept_days_ago analysis_window_days now_commits now t Hclock
                  ltac:(lia)) as (Hup & Hold & _).
      unfold elapsed_days. cbn [negb andb].
      apply andb_true_iff. split; apply Z.leb_le; [apply Hold; lia | exact Hup]. }
  rewrite Hshort, Hhit in Hagg. cbn [andb orb] in Hagg.
  unfold _analyze_contributor_concentration. cbv zeta. rewrite Hagg.
  reflexivity.
Qed.

Lemma short_window_breaks_analysis_witness :
  _analyze_contributor_concentration [] 3 0 0 0 no_statistics
    twelve_commits [bot_pull_request]
  = Raise ZeroDivisionError.
Proof.
  apply (short_window_breaks_analysis [] 3 0 0 0 no_statistics twelve_commits
           [bot_pull_request] (commit_by "alice" "alice@gmail.com" 0) 0).
  - lia.
  - vm_compute. split; congruence.
  - now left.
  - vm_compute. reflexivity.
  - reflexivity.
  - vm_compute. split; congruence.
Defined.

(** ** The bot test *)

Lemma prefix_iff (needle hay : string) :
  String.prefix needle hay = true <-> exists post, hay = needle ++ post.
Proof.
  revert hay. induction needle as [|a needle IH]; intros hay.
  - rewrite PyStrFacts.prefix_empty. split; [|reflexivity].
    intros _. exists hay. reflexivity.
  - destruct hay as [|b hay].
    + simpl. split; [discriminate | intros (post & H); discriminate].
    + cbn [String.prefix]. destruct (ascii_dec a b) as [->|Hne].
      * rewrite IH. split; intros (post & H); exists post.
        -- simpl. now rewrite H.
        -- simpl in H. now injection H.
      * split; [discriminate|]. intros (post & H). simpl in H.
        injection H as H _. congruence.
Qed.

Lemma contains_iff (needle hay : string) :
  PyStr.contains needle hay = true <-> occurs_in needle hay.
Proof.
  unfold occurs_in. induction hay as [|b hay IH].
  - change (PyStr.contains needle "") with (String.prefix needle "" || false).
    rewrite orb_false_r, prefix_iff. split.
    + intros (post & H). exists "", post. exact H.
    + intros (pre & post & H). destruct pre; [|discriminate].
      exists post. exact H.
  - change (PyStr.contains needle (String b hay))
      with (String.prefix needle (String b hay) || PyStr.contains needle hay).
    rewrite orb_true_iff, prefix_iff, IH. split.
    + intros [(post & H) | (pre & post & H)].
      * exists "", post. exact H.
      * exists (String b pre), post. simpl. now rewrite H.
    + intros (pre & post & H). destruct pre as [|c pre].
      * left. exists post. exact H.
      * right. simpl in H. injection H as _ H. exists pre, post. exact H.
Qed.

Lemma keyword_test (keywords : list string) (word : string) :
  existsb (fun keyword => PyStr.contains keyword word) keywords = true
  <-> exists keyword, In keyword keywords /\ occurs_in keyword word.
Proof.
  rewrite existsb_exists.
  split; intros (keyword & Hin & H); exists keyword; (split; [exact Hin|]);
    apply contains_iff; exact H.
Qed.

Lemma lower_empty (word : string) :
  (if PyStr.truthy word then PyStr.lower word else "") = PyStr.lower word.
Proof. destruct word; reflexivity. Qed.

Lemma append_assoc (a b c : string) : (a ++ b) ++ c = a ++ b ++ c.
Proof.
  induction a as [|x a IH]; [reflexivity|].
  change (String x ((a ++ b) ++ c) = String x (a ++ b ++ c)).
  now rewrite IH.
Qed.

Lemma bot_suffix_has_keyword (word : string) :
  PyStr.endswith word "[bot]" = true ->
  existsb (fun keyword => PyStr.contains keyword word) bot_indicators = true.
Proof.
  intros H. apply PyStrFacts.endswith_iff in H. destruct H as (pre & ->).
  apply keyword_test. exists "bot". split; [now left|].
  exists (pre ++ "["), "]". rewrite append_assoc. reflexivity.
Qed.

Lemma no_keyword_in_empty (keywords : list string) :
  ~ In "" keywords ->
  existsb (fun keyword => PyStr.contains keyword "") keywords = false.
Proof.
  intros Hne. destruct (existsb _ keywords) eqn:E; [|reflexivity].
  apply keyword_test in E. destruct E as (keyword & Hin & pre & post & H).
  destruct pre; [|discriminate]. destruct keyword; [|discriminate].
  contradiction.
Qed.

(** X14. For a login, display name and email written in ASCII characters,
    [_is_bot_account] answers [True] exactly when the login is not empty
    and, letter case apart, a keyword of the username list occurs anywhere
    in the login or in the display name, or a keyword of the email list
    occurs anywhere in the email.  The closing test for the suffix [[bot]]
    never decides: whenever it holds, the keyword [bot] was found before. *)
Theorem bot_test_is_keyword_search (login name email : string) :
  ascii_only login -> ascii_only name -> ascii_only email ->
  (_is_bot_account login name email = true
   <-> login <> ""
       /\ (has_keyword bot_indicators login
           \/ has_keyword bot_indicators name
           \/ has_keyword bot_email_patterns email)).
Proof.
  intros _ _ _. unfold _is_bot_account, has_keyword.
  destruct login as [|c login]; cbn [PyStr.truthy negb].
  { split; [discriminate | intros [H _]; congruence]. }
  cbv zeta. rewrite lower_empty.
  rewrite <- !lower_is_lowercase.
  set (l := PyStr.lower (String c login)).
  set (n := PyStr.lower name).
  rewrite <- !keyword_test.
  destruct (existsb (fun kw => PyStr.contains kw l) bot_indicators) eqn:El.
  { split; [|reflexivity]. intros _. split; [discriminate | now left]. }
  destruct (existsb (fun kw => PyStr.contains kw n) bot_indicators) eqn:En.
  { split; [|reflexivity]. intros _. split; [discriminate | right; now left]. }
  assert (Hemail :
            PyStr.truthy email
            && existsb (fun kw => PyStr.contains kw (PyStr.lower email))
                 bot_email_patterns
            = existsb (fun kw => PyStr.contains kw (PyStr.lower email))
                bot_email_patterns).
  { destruct email; [|reflexivity]. cbn [PyStr.truthy andb PyStr.lower].
    symmetry. apply no_keyword_in_empty.
    unfold bot_email_patterns. simpl. intuition discriminate. }
  rewrite Hemail.
  destruct (existsb _ bot_email_patterns) eqn:Ee.
  { split; [|reflexivity]. intros _. split; [discriminate | right; now right]. }
  destruct (PyStr.endswith l "[bot]") eqn:Hl.
  { apply bot_suffix_has_keyword in Hl. congruence. }
  destruct (PyStr.endswith n "[bot]") eqn:Hn.
  { apply bot_suffix_has_keyword in Hn. congruence. }
  cbn [orb]. split; [discriminate|].
  intros (_ & [H | [H | H]]); discriminate.
Qed.

Lemma bot_test_is_keyword_search_witness :
  lowercase "Dependabot" = "dependabot"
  /\ _is_bot_account "Dependabot" "" "" = true
  /\ _is_bot_account "Francis" "" "francis@gmail.com" = true
  /\ _is_bot_account "alice" "Alice" "alice@gmail.com" = false.
Proof.
  split; [reflexivity|]. split; [|split].
  - apply (bot_test_is_keyword_search "Dependabot" "" "");
      [reflexivity | reflexivity | reflexivity |].
    split; [discriminate|]. left. exists "bot". split; [now left|].
    exists "dependa", "". reflexivity.
  - apply (bot_test_is_keyword_search "Francis" "" "francis@gmail.com");
      [reflexivity | reflexivity | reflexivity |].
    split; [discriminate|]. left. exists "ci". split; [vm_compute; tauto|].
    exists "fran", "s". reflexivity.
  - reflexivity.
Defined.

(** ** Repository identifiers *)

Module PyUrlFacts.
Import PyStr PyUrl.

Lemma char_free_cons (c a : ascii) (s : string) :
  char_free c (String a s) <-> a <> c /\ char_free c s.
Proof.
  unfold char_free. cbn [list_ascii_of_string In]. split.
  - intros H. split; [intros ->; apply H; now left | intros Hin; apply H; now right].
  - intros [Hne Hfree] [Heq | Hin]; [congruence | contradiction].
Qed.

Lemma char_free_empty (c : ascii) : char_free c "".
Proof. intros []. Qed.

Lemma eqb_false (a c : ascii) : a <> c -> Ascii.eqb a c = false.
Proof. apply Ascii.eqb_neq. Qed.

Lemma split_cons_sep (sep : ascii) (s : string) :
  split sep (String sep s) = "" :: split sep s.
Proof. cbn [split]. now rewrite Ascii.eqb_refl. Qed.

Lemma split_cons_other (sep a : ascii) (s : string) :
  a <> sep ->
  exists piece rest,
    split sep s = piece :: rest
    /\ split sep (String a s) = String a piece :: rest.
Proof.
  intros Hne. cbn [split]. rewrite (eqb_false _ _ Hne).
  destruct (split sep s) as [|piece rest] eqn:E.
  - now apply PyStrFacts.split_nonempty in E.
  - exists piece, rest. split; reflexivity.
Qed.

Lemma split_free (sep : ascii) (s : string) :
  char_free sep s -> split sep s = [s].
Proof.
  induction s as [|a s IH]; [reflexivity|].
  rewrite char_free_cons. intros [Hne Hfree].
  destruct (split_cons_other sep a s Hne) as (piece & rest & Hs & ->).
  rewrite (IH Hfree) in Hs. injection Hs as <- <-. reflexivity.
Qed.

Lemma split_at (sep : ascii) (a b : string) :
  char_free sep a -> split sep (a ++ String sep b) = a :: split sep b.
Proof.
  induction a as [|x a IH].
  - intros _. apply split_cons_sep.
  - rewrite char_free_cons. intros [Hne Hfree].
    change (String x a ++ String sep b) with (String x (a ++ String sep b)).
    destruct (split_cons_other sep x (a ++ String sep b) Hne)
      as (piece & rest & Hs & ->).
    rewrite (IH Hfree) in Hs. injection Hs as <- <-. reflexivity.
Qed.

(** The pieces hold no separator, and joining them gives the string back. *)
Lemma split_pieces (sep : ascii) (s : string) :
  List.Forall (char_free sep) (split sep s) /\ join sep (split sep s) = s.
Proof.
  induction s as [|a s (Hfree & Hjoin)].
  - split; [constructor; [apply char_free_empty | constructor] | reflexivity].
  - destruct (ascii_dec a sep) as [->|Hne].
    + rewrite split_cons_sep. split.
      * constructor; [apply char_free_empty | exact Hfree].
      * cbn [join]. destruct (split sep s) as [|piece rest] eqn:E.
        { now apply PyStrFacts.split_nonempty in E. }
        rewrite Hjoin. reflexivity.
    + destruct (split_cons_other sep a s Hne) as (piece & rest & Hs & ->).
      rewrite Hs in Hfree, Hjoin. split.
      * inversion Hfree as [|? ? Hpiece Hrest]; subst.
        constructor; [|exact Hrest]. apply char_free_cons. now split.
      * cbn [join] in *. destruct rest; [now rewrite Hjoin|].
        change (String a piece ++ ?x) with (String a (piece ++ x)).
        now rewrite Hjoin.
Qed.

Lemma split_two (sep : ascii) (s a b : string) :
  split sep s = [a; b]
  <-> s = a ++ String sep b /\ char_free sep a /\ char_free sep b.
Proof.
  split.
  - intros H. destruct (split_pieces sep s) as (Hfree & Hjoin).
    rewrite H in Hfree, Hjoin. cbn [join] in Hjoin.
    inversion Hfree as [|? ? Ha Hrest]; subst.
    inversion Hrest as [|? ? Hb _]; subst. auto.
  - intros (-> & Ha & Hb). rewrite (split_at sep a b Ha).
    now rewrite (split_free sep b Hb).
Qed.

Lemma lstrip_other (c a : ascii) (s : string) :
  a <> c -> lstrip c (String a s) = String a s.
Proof. intros Hne. cbn [lstrip]. now rewrite (eqb_false _ _ Hne). Qed.

Lemma rstrip_cons (c a : ascii) (s : string) :
  rstrip c s <> "" -> rstrip c (String a s) = String a (rstrip c s).
Proof. intros Hne. cbn [rstrip]. destruct (rstrip c s); [congruence | reflexivity]. Qed.

Lemma rstrip_app (c : ascii) (s t : string) :
  rstrip c t <> "" -> rstrip c (s ++ t) = s ++ rstrip c t.
Proof.
  intros Hne. induction s as [|a s IH]; [reflexivity|].
  change (String a s ++ t) with (String a (s ++ t)).
  rewrite rstrip_cons; rewrite IH; [reflexivity|].
  destruct s; [exact Hne | discriminate].
Qed.

Lemma rstrip_repeat (c : ascii) (n : nat) : rstrip c (repeat_char c n) = "".
Proof.
  induction n as [|n IH]; [reflexivity|].
  cbn [repeat_char rstrip]. rewrite IH, Ascii.eqb_refl. reflexivity.
Qed.

Lemma rstrip_name (c : ascii) (name : string) (n : nat) :
  char_free c name -> name <> "" ->
  rstrip c (name ++ repeat_char c n) = name.
Proof.
  induction name as [|a name IH]; [congruence|].
  rewrite char_free_cons. intros [Hne Hfree] _.
  change (String a name ++ repeat_char c n)
    with (String a (name ++ repeat_char c n)).
  destruct name as [|b name].
  - change ("" ++ repeat_char c n) with (repeat_char c n).
    cbn [rstrip]. rewrite rstrip_repeat, (eqb_false _ _ Hne). reflexivity.
  - rewrite rstrip_cons; rewrite IH; try assumption; try discriminate.
    reflexivity.
Qed.

Lemma item_from_end_two {A : Type} (l : list A) (x y : A) :
  item_from_end (l ++ [x; y])%list 2 = Some x
  /\ item_from_end (l ++ [x; y])%list 1 = Some y.
Proof.
  unfold item_from_end. rewrite length_app. cbn [length].
  split.
  - destruct (Nat.ltb_spec (length l + 2) 2); [lia|].
    replace (length l + 2 - 2)%nat with (length l + 0)%nat by lia.
    rewrite lookup_app_r by lia.
    replace (length l + 0 - length l)%nat with 0%nat by lia. reflexivity.
  - destruct (Nat.ltb_spec (length l + 2) 1); [lia|].
    replace (length l + 2 - 1)%nat with (length l + 1)%nat by lia.
    rewrite lookup_app_r by lia.
    replace (length l + 1 - length l)%nat with 1%nat by lia. reflexivity.
Qed.

(** The parts of a stripped URL end in the owner and the name. *)
Lemma url_parts (base owner name : string) (c : ascii) (n : nat) :
  c <> "/"%char -> char_free "/" owner -> char_free "/" name -> name <> "" ->
  let repo_url :=
    String c base
    ++ String "/" (owner ++ String "/" (name ++ repeat_char "/" n)) in
  exists l,
    split "/" (strip "/" repo_url) = (l ++ [owner; name])%list.
Proof.
  intros Hc Howner Hname Hne repo_url. unfold strip, repo_url.
  change (String c base ++ ?x) with (String c (base ++ x)).
  rewrite lstrip_other by exact Hc.
  change (String c (base ++ ?x)) with (String c base ++ x).
  assert (Hlast : rstrip "/" (name ++ repeat_char "/" n) = name)
    by now apply rstrip_name.
  assert (Hmid : rstrip "/" (owner ++ String "/" (name ++ repeat_char "/" n))
                 = owner ++ String "/" name).
  { rewrite rstrip_app.
    - rewrite rstrip_cons; rewrite Hlast; [reflexivity | exact Hne].
    - rewrite rstrip_cons; rewrite Hlast; [discriminate | exact Hne]. }
  rewrite rstrip_app.
  - rewrite rstrip_cons; rewrite Hmid; [|destruct owner; discriminate].
    destruct (PyStrFacts.split_app_sep "/" (String c base)
                (owner ++ String "/" name)) as (l & _ & ->).
    exists l. rewrite split_at by exact Howner.
    now rewrite split_free by exact Hname.
  - rewrite rstrip_cons; rewrite Hmid; [discriminate|].
    destruct owner; discriminate.
Qed.

Lemma remove_from_skip (needle : string) (drop rest : string) :
  remove_from needle (String.length drop) (drop ++ rest)
  = remove_from needle 0 rest.
Proof.
  induction drop as [|a drop IH]; [reflexivity|].
  change (String a drop ++ rest) with (String a (drop ++ rest)).
  cbn [String.length remove_from]. exact IH.
Qed.

(** A found occurrence is dropped and the search goes on behind it. *)
Lemma remove_found (a : ascii) (needle rest : string) :
  remove (String a needle) (String a needle ++ rest)
  = remove (String a needle) rest.
Proof.
  unfold remove.
  change (String a needle ++ rest) with (String a (needle ++ rest)).
  cbn [remove_from].
  assert (Hprefix : String.prefix (String a needle) (String a (needle ++ rest))
                    = true).
  { apply prefix_iff. exists rest. reflexivity. }
  rewrite Hprefix.
  replace (String.length (String a needle) - 1)%nat with (String.length needle)
    by (cbn [String.length]; lia).
  apply remove_from_skip.
Qed.

(** Characters other than the first one of the needle are kept. *)
Lemma remove_kept (a : ascii) (needle pre rest : string) :
  char_free a pre ->
  remove (String a needle) (pre ++ rest)
  = pre ++ remove (String a needle) rest.
Proof.
  unfold remove. induction pre as [|b pre IH]; [reflexivity|].
  rewrite char_free_cons. intros [Hne Hfree].
  change (String b pre ++ ?x) with (String b (pre ++ x)).
  cbn [remove_from String.prefix].
  destruct (ascii_dec a b) as [->|_]; [congruence|].
  now rewrite IH.
Qed.

End PyUrlFacts.

(** X15. An identifier that does not contain [github.com] is parsed exactly
    when it has one slash: the result is the text before and the text after
    the slash, unchanged (a trailing [.git] stays), and either may be
    empty.  Every other such identifier raises [ValueError]. *)
Theorem plain_identifier_needs_one_slash (repo_url : string) :
  PyStr.contains "github.com" repo_url = false ->
  (forall owner repo,
     _parse_github_url repo_url = Parsed owner repo
     <-> repo_url = owner ++ "/" ++ repo
         /\ char_free "/" owner /\ char_free "/" repo)
  /\ ((exists owner repo, _parse_github_url repo_url = Parsed owner repo)
      \/ _parse_github_url repo_url = ParseRaise UrlValueError).
Proof.
  intros Hplain. unfold _parse_github_url. rewrite Hplain. split.
  - intros owner repo.
    rewrite <- (PyUrlFacts.split_two "/" repo_url owner repo).
    destruct (PyStr.split "/" repo_url) as [|a [|b [|c rest]]];
      split; try discriminate; try congruence.
  - destruct (PyStr.split "/" repo_url) as [|a [|b [|c rest]]]; eauto.
Qed.

Lemma plain_identifier_needs_one_slash_witness :
  _parse_github_url "owner/repo.git" = Parsed "owner" "repo.git".
Proof.
  apply (plain_identifier_needs_one_slash "owner/repo.git"
           ltac:(vm_compute; reflexivity)).
  split; [reflexivity|].
  split; vm_compute; intuition discriminate.
Defined.

(** X16. A URL that contains [github.com], starts with a character other
    than a slash and ends in [/owner/name], followed by any number of
    slashes, is parsed into that owner and that name with every [.git]
    taken out; the name is not empty and the owner and the name hold no
    slash. *)
Theorem url_gives_last_two_segments (base owner name : string) (c : ascii)
    (n : nat) :
  let repo_url :=
    String c base
    ++ String "/" (owner ++ String "/" (name ++ repeat_char "/" n)) in
  PyStr.contains "github.com" repo_url = true ->
  c <> "/"%char -> char_free "/" owner -> char_free "/" name -> name <> "" ->
  _parse_github_url repo_url = Parsed owner (PyUrl.remove ".git" name).
Proof.
  intros repo_url Hurl Hc Howner Hname Hne. unfold _parse_github_url.
  rewrite Hurl. cbv zeta.
  destruct (PyUrlFacts.url_parts base owner name c n Hc Howner Hname Hne)
    as (l & Hparts).
  fold repo_url in Hparts. rewrite Hparts.
  destruct (PyUrlFacts.item_from_end_two l owner name) as (-> & ->).
  reflexivity.
Qed.

Lemma url_gives_last_two_segments_witness :
  _parse_github_url "https://github.com/owner/repo.git//"
  = Parsed "owner" "repo".
Proof.
  apply (url_gives_last_two_segments "ttps://github.com" "owner" "repo.git"
           "h"%char 2).
  - vm_compute. reflexivity.
  - discriminate.
  - vm_compute. intuition discriminate.
  - vm_compute. intuition discriminate.
  - discriminate.
Defined.

(** X17. The name loses [.git] wherever it stands, not only at the end:
    for a URL as in X16 whose last segment is [front.gitback], with no dot
    in [front], the parsed name is [front] followed by what is left of
    [back].  The repository [user.github.io] is parsed as [userhub.io]. *)
Theorem dot_git_is_removed_inside_the_name (base owner front back : string)
    (c : ascii) :
  let repo_url :=
    String c base
    ++ String "/" (owner ++ String "/" (front ++ ".git" ++ back)) in
  PyStr.contains "github.com" repo_url = true ->
  c <> "/"%char -> char_free "/" owner ->
  char_free "/" front -> char_free "/" back -> char_free "." front ->
  _parse_github_url repo_url
  = Parsed owner (front ++ PyUrl.remove ".git" back).
Proof.
  intros repo_url Hurl Hc Howner Hfront Hback Hdot. unfold _parse_github_url.
  rewrite Hurl. cbv zeta.
  assert (Hname : char_free "/" (front ++ ".git" ++ back)).
  { clear - Hfront Hback. induction front as [|a front IH].
    - change ("" ++ ".git" ++ back) with (String "." (String "g" (String "i" (String "t" back)))).
      rewrite !PyUrlFacts.char_free_cons.
      repeat (split; [discriminate|]). exact Hback.
    - apply PyUrlFacts.char_free_cons in Hfront as [Hne Hfree].
      change (String a front ++ ?x) with (String a (front ++ x)).
      apply PyUrlFacts.char_free_cons. split; [exact Hne | apply IH, Hfree]. }
  assert (Hne : front ++ ".git" ++ back <> "").
  { destruct front; discriminate. }
  pose proof (PyUrlFacts.url_parts base owner (front ++ ".git" ++ back) c 0
                Hc Howner Hname Hne) as (l & Hparts).
  assert (Hzero : forall s, s ++ repeat_char "/" 0 = s).
  { clear. intros s. induction s as [|a s IH]; [reflexivity|].
    change (String a s ++ ?x) with (String a (s ++ x)). now rewrite IH. }
  cbv zeta in Hparts. rewrite Hzero in Hparts. fold repo_url in Hparts.
  rewrite Hparts.
  destruct (PyUrlFacts.item_from_end_two l owner (front ++ ".git" ++ back))
    as (-> & ->).
  f_equal. rewrite (PyUrlFacts.remove_kept "." "git" front _ Hdot).
  f_equal. apply (PyUrlFacts.remove_found "." "git" back).
Qed.

Lemma dot_git_is_removed_inside_the_name_witness :
  _parse_github_url "https://github.com/user/user.github.io"
  = Parsed "user" "userhub.io".
Proof.
  apply (dot_git_is_removed_inside_the_name "ttps://github.com" "user" "user"
           "hub.io" "h"%char).
  - vm_compute. reflexivity.
  - discriminate.
  - vm_compute. intuition discriminate.
  - vm_compute. intuition discriminate.
  - vm_compute. intuition discriminate.
  - vm_compute. intuition discriminate.
Defined.

(** ** Repository statistics *)

Lemma count_where_cons {A : Type} (p : A -> bool) (x : A) (xs : list A) :
  count_where p (x :: xs) = (if p x then 1 else 0) + count_where p xs.
Proof.
  unfold count_where. cbn [List.filter]. destruct (p x); cbn [length]; lia.
Qed.

Lemma count_where_nonneg {A : Type} (p : A -> bool) (xs : list A) :
  0 <= count_where p xs.
Proof. unfold count_where. lia. Qed.

Lemma count_where_le {A : Type} (p q : A -> bool) (xs : list A) :
  (forall x, p x = true -> q x = true) ->
  count_where p xs <= count_where q xs.
Proof.
  intros Hpq. induction xs as [|x xs IH]; [reflexivity|].
  rewrite !count_where_cons. specialize (Hpq x).
  destruct (p x), (q x); try lia.
Qed.

Lemma record_issue_fields (st : close_times) (issue : issue_record) :
  seen_issues (record_issue st issue)
  = seen_issues st + (if is_counted false false issue then 1 else 0)
  /\ seen_prs (record_issue st issue)
     = seen_prs st + (if is_counted true false issue then 1 else 0)
  /\ seen_closed_issues (record_issue st issue)
     = seen_closed_issues st + (if is_counted false true issue then 1 else 0)
  /\ seen_closed_prs (record_issue st issue)
     = seen_closed_prs st + (if is_counted true true issue then 1 else 0)
  /\ issue_close_times (record_issue st issue)
     = (issue_close_times st ++ close_times_of false [issue])%list
  /\ pr_close_times (record_issue st issue)
     = (pr_close_times st ++ close_times_of true [issue])%list
  /\ response_times (record_issue st issue)
     = (response_times st ++ closed_days issue)%list.
Proof.
  unfold record_issue, is_counted, close_times_of, closed_days.
  cbn [flat_map].
  destruct (issue_created_at issue), (issue_pull_request issue),
    (issue_closed_at issue);
    cbn [Bool.eqb andb orb negb seen_issues seen_prs seen_closed_issues
         seen_closed_prs issue_close_times pr_close_times response_times];
    rewrite ?app_nil_r; repeat apply conj; first [reflexivity | lia].
Qed.

Lemma close_times_of_cons (b : bool) (issue : issue_record)
    (issues : list issue_record) :
  close_times_of b (issue :: issues)
  = (close_times_of b [issue] ++ close_times_of b issues)%list.
Proof. unfold close_times_of. cbn [flat_map]. now rewrite app_nil_r. Qed.

Lemma record_issues_spec (issues : list issue_record) (st0 : close_times) :
  let st := fold_left record_issue issues st0 in
  seen_issues st = seen_issues st0 + count_where (is_counted false false) issues
  /\ seen_prs st = seen_prs st0 + count_where (is_counted true false) issues
  /\ seen_closed_issues st
     = seen_closed_issues st0 + count_where (is_counted false true) issues
  /\ seen_closed_prs st
     = seen_closed_prs st0 + count_where (is_counted true true) issues
  /\ issue_close_times st
     = (issue_close_times st0 ++ close_times_of false issues)%list
  /\ pr_close_times st = (pr_close_times st0 ++ close_times_of true issues)%list
  /\ response_times st
     = (response_times st0 ++ flat_map closed_days issues)%list.
Proof.
  revert st0. induction issues as [|issue issues IH]; intros st0.
  - cbn [fold_left flat_map]. unfold close_times_of, count_where.
    cbn [flat_map List.filter length]. rewrite !app_nil_r.
    repeat apply conj; first [reflexivity | lia].
  - cbv zeta. cbn [fold_left].
    destruct (IH (record_issue st0 issue)) as (H1 & H2 & H3 & H4 & H5 & H6 & H7).
    destruct (record_issue_fields st0 issue)
      as (F1 & F2 & F3 & F4 & F5 & F6 & F7).
    rewrite H1, H2, H3, H4, H5, H6, H7, F1, F2, F3, F4, F5, F6, F7.
    rewrite !count_where_cons, (close_times_of_cons false issue issues),
      (close_times_of_cons true issue issues).
    cbn [flat_map]. rewrite <- !app_assoc.
    repeat apply conj; first [reflexivity | lia].
Qed.

Lemma length_close_times_of (b : bool) (issues : list issue_record) :
  Z.of_nat (length (close_times_of b issues))
  = count_where (is_counted b true) issues.
Proof.
  induction issues as [|issue issues IH]; [reflexivity|].
  rewrite (close_times_of_cons b issue issues), length_app, count_where_cons,
    Nat2Z.inj_add, IH.
  f_equal. unfold close_times_of, is_counted, closed_days. cbn [flat_map].
  destruct (issue_created_at issue), (issue_pull_request issue), b,
    (issue_closed_at issue); reflexivity.
Qed.

Lemma close_times_of_all (b : bool) (issues : list issue_record) :
  count_where (is_counted (negb b) true) issues = 0 ->
  flat_map closed_days issues = close_times_of b issues.
Proof.
  induction issues as [|issue issues IH]; [reflexivity|].
  rewrite count_where_cons, (close_times_of_cons b issue issues). intros Hzero.
  pose proof (count_where_nonneg (is_counted (negb b) true) issues) as Hpos.
  cbn [flat_map]. rewrite IH by (destruct (is_counted _ _ issue); lia).
  f_equal. unfold close_times_of. cbn [flat_map]. rewrite app_nil_r.
  destruct (is_counted (negb b) true issue) eqn:E; [lia|].
  revert E. unfold is_counted, closed_days.
  destruct (issue_created_at issue), (issue_pull_request issue), b,
    (issue_closed_at issue); cbn; congruence.
Qed.

Lemma kept_are_dated (window now_issues : Z) (issues : list issue_record) :
  let kept := _filter_recent_issues window now_issues issues in
  count_where (is_counted false false) kept
  + count_where (is_counted true false) kept
  = Z.of_nat (length kept).
Proof.
  unfold _filter_recent_issues. cbv zeta.
  induction issues as [|issue issues IH]; [reflexivity|].
  cbn [List.filter]. destruct (issue_created_at issue) as [t|] eqn:Hdate.
  - destruct (_ <=? t); [|exact IH].
    rewrite !count_where_cons. cbn [length]. rewrite Nat2Z.inj_succ.
    unfold is_counted at 1 3. rewrite Hdate.
    destruct (issue_pull_request issue); cbn [Bool.eqb andb orb negb]; lia.
  - exact IH.
Qed.

Section StatisticsFacts.

Variable analysis_window_days : Z.
Variable round2 : Q -> Q.

Let statistics := _calculate_repository_statistics analysis_window_days round2.

Lemma average_none (xs : list Q) :
  average round2 xs = None <-> Z.of_nat (length xs) = 0.
Proof. destruct xs; cbn [average length]; split; (discriminate || lia || reflexivity). Qed.

Lemma statistics_fields (issues : list issue_record)
    (commits : list commit_record) :
  let s := statistics issues commits in
  Report.total_issues s = count_where (is_counted false false) issues
  /\ Report.total_prs s = count_where (is_counted true false) issues
  /\ Report.closed_issues s = count_where (is_counted false true) issues
  /\ Report.closed_prs s = count_where (is_counted true true) issues
  /\ Report.avg_issue_close_time_days s
     = average round2 (close_times_of false issues)
  /\ Report.avg_pr_close_time_days s
     = average round2 (close_times_of true issues)
  /\ Report.avg_response_time_days s
     = average round2 (flat_map closed_days issues)
  /\ Report.total_commits s = Z.of_nat (length commits).
Proof.
  unfold statistics, _calculate_repository_statistics.
  destruct issues as [|issue issues].
  - cbv zeta. cbn. repeat apply conj; reflexivity.
  - cbv zeta.
    destruct (record_issues_spec (issue :: issues) no_close_times)
      as (H1 & H2 & H3 & H4 & H5 & H6 & H7).
    cbn [Report.total_issues Report.total_prs Report.closed_issues
         Report.closed_prs Report.avg_issue_close_time_days
         Report.avg_pr_close_time_days Report.avg_response_time_days
         Report.total_commits].
    rewrite H1, H2, H3, H4, H5, H6, H7.
    cbn [no_close_times seen_issues seen_prs seen_closed_issues
         seen_closed_prs issue_close_times pr_close_times response_times app].
    repeat apply conj; first [reflexivity | lia].
Qed.

(** X18. The statistics count the records that have a creation date:
    issues and pull requests apart, and among them those with a closing
    date; the closed ones never outnumber the total, and records without a
    creation date are left out.  On the list that the window filter
    returns, issues and pull requests together are the whole list. *)
Theorem statistics_count_dated_records (issues : list issue_record)
    (commits : list commit_record) (window now_issues : Z) :
  let s :=
    _calculate_repository_statistics analysis_window_days round2 issues commits in
  let kept := _filter_recent_issues window now_issues issues in
  let s_kept :=
    _calculate_repository_statistics analysis_window_days round2 kept commits in
  Report.total_issues s = count_where (is_counted false false) issues
  /\ Report.total_prs s = count_where (is_counted true false) issues
  /\ Report.closed_issues s = count_where (is_counted false true) issues
  /\ Report.closed_prs s = count_where (is_counted true true) issues
  /\ 0 <= Report.closed_issues s <= Report.total_issues s
  /\ 0 <= Report.closed_prs s <= Report.total_prs s
  /\ Report.total_commits s = Z.of_nat (length commits)
  /\ Report.total_issues s_kept + Report.total_prs s_kept
     = Z.of_nat (length kept).
Proof.
  cbv zeta. fold statistics.
  destruct (statistics_fields issues commits)
    as (H1 & H2 & H3 & H4 & _ & _ & _ & H8).
  cbv zeta in *. rewrite H1, H2, H3, H4, H8.
  assert (Hle : forall b,
             0 <= count_where (is_counted b true) issues
               <= count_where (is_counted b false) issues).
  { intros b. split; [apply count_where_nonneg|].
    apply count_where_le. intros x. unfold is_counted.
    destruct (issue_created_at x); [|discriminate].
    destruct (Bool.eqb _ _); [reflexivity | discriminate]. }
  repeat apply conj; try reflexivity; try apply Hle.
  destruct (statistics_fields (_filter_recent_issues window now_issues issues)
              commits) as (K1 & K2 & _).
  cbv zeta in *. rewrite K1, K2. apply kept_are_dated.
Qed.

(** X19. The three averages are taken over the close times of the issues,
    of the pull requests, and of both together: the reported response time
    is a close time.  An average is missing exactly when nothing of its
    kind was closed, and when no pull request (no issue) was closed the
    response time equals the issue (pull request) close time. *)
Theorem response_time_is_close_time (issues : list issue_record)
    (commits : list commit_record) :
  let s :=
    _calculate_repository_statistics analysis_window_days round2 issues commits in
  Report.avg_issue_close_time_days s
  = average round2 (close_times_of false issues)
  /\ Report.avg_pr_close_time_days s
     = average round2 (close_times_of true issues)
  /\ Report.avg_response_time_days s
     = average round2 (flat_map closed_days issues)
  /\ (Report.avg_issue_close_time_days s = None <-> Report.closed_issues s = 0)
  /\ (Report.avg_pr_close_time_days s = None <-> Report.closed_prs s = 0)
  /\ (Report.closed_prs s = 0 ->
      Report.avg_response_time_days s = Report.avg_issue_close_time_days s)
  /\ (Report.closed_issues s = 0 ->
      Report.avg_response_time_days s = Report.avg_pr_close_time_days s).
Proof.
  cbv zeta. fold statistics.
  destruct (statistics_fields issues commits)
    as (_ & _ & H3 & H4 & H5 & H6 & H7 & _).
  cbv zeta in *. rewrite H3, H4, H5, H6, H7.
  split; [reflexivity|]. split; [reflexivity|]. split; [reflexivity|].
  split; [|split; [|split]].
  - rewrite average_none. now rewrite length_close_times_of.
  - rewrite average_none. now rewrite length_close_times_of.
  - intros Hzero. now rewrite (close_times_of_all false issues Hzero).
  - intros Hzero. now rewrite (close_times_of_all true issues Hzero).
Qed.

End StatisticsFacts.

(** ** The statistics inside the report *)

Section ReportStatistics.

Variable custom_domains : list string.
Variable analysis_window_days : Z.
Variable now_commits now_issues now : Z.
Variable round2 : Q -> Q.

Let recent_commits := _filter_recent_commits analysis_window_days now_commits.
Let recent_issues := _filter_recent_issues analysis_window_days now_issues.
Let statistics := _calculate_repository_statistics analysis_window_days round2.

Lemma analysis_statistics (raw_commits : list commit_record)
    (raw_issues : list issue_record) (report : Report.t) :
  _analyze_contributor_concentration custom_domains analysis_window_days
    now_commits now_issues now statistics raw_commits raw_issues = Ok report ->
  exists d,
    aggregate custom_domains analysis_window_days now_commits now_issues now
      raw_commits raw_issues = Ok d
    /\ Report.total_active_contributors report = Z.of_nat (length d)
    /\ Report.recent_commits_analyzed report
       = Z.of_nat (length (recent_commits raw_commits))
    /\ Report.recent_issues_analyzed report
       = Z.of_nat (length (recent_issues raw_issues))
    /\ Report.repository_stats report
       = match d with
         | [] => None
         | _ :: _ =>
             Some (statistics (recent_issues raw_issues)
                     (recent_commits raw_commits))
         end.
Proof.
  unfold _analyze_contributor_concentration. intros H.
  bind_inv H. rename a into d, Ha into Hrun. exists d.
  split; [exact Hrun|].
  pose proof (sorted_contributors_perm d) as Hperm.
  destruct (sorted_contributors d) as [|first rest] eqn:Hsorted.
  - apply Permutation_nil in Hperm. subst d. injection H as <-.
    repeat apply conj; reflexivity.
  - cbv zeta in H. bind_inv H. injection H as <-.
    destruct d as [|entry d].
    { symmetry in Hperm. now apply Permutation_nil_cons in Hperm. }
    repeat apply conj; reflexivity.
Qed.

(** X20. In a report with at least one active contributor the statistics
    count the commits and the issues and pull requests of the window.  The
    commit frequency is the rounded number of commits per day of the window
    only if the window holds an issue or pull request; with none the
    frequency is reported as 0 although commits were counted. *)
Theorem commit_frequency_needs_an_issue (raw_commits : list commit_record)
    (raw_issues : list issue_record) (report : Report.t) :
  _analyze_contributor_concentration custom_domains analysis_window_days
    now_commits now_issues now
    (_calculate_repository_statistics analysis_window_days round2)
    raw_commits raw_issues = Ok report ->
  0 < Report.total_active_contributors report ->
  exists s,
    Report.repository_stats report = Some s
    /\ Report.total_commits s = Report.recent_commits_analyzed report
    /\ Report.total_issues s + Report.total_prs s
       = Report.recent_issues_analyzed report
    /\ (Report.recent_issues_analyzed report = 0 ->
        Report.commit_frequency_per_day s = 0%Q /\ 0 < Report.total_commits s)
    /\ (0 < Report.recent_issues_analyzed report -> 0 < analysis_window_days ->
        Report.commit_frequency_per_day s
        = round2 (PyNum.truediv (Report.total_commits s) analysis_window_days)).
Proof.
  intros Hrun Hactive. fold statistics in Hrun.
  destruct (analysis_statistics _ _ _ Hrun)
    as (d & Hagg & Hlen & Hcommits & Hissues & Hstats).
  destruct d as [|entry d]; [cbn [length] in Hlen; lia|].
  exists (statistics (recent_issues raw_issues) (recent_commits raw_commits)).
  split; [exact Hstats|]. rewrite Hcommits, Hissues.
  destruct (statistics_fields analysis_window_days round2
              (recent_issues raw_issues) (recent_commits raw_commits))
    as (K1 & K2 & _ & _ & _ & _ & _ & K8).
  cbv zeta in K1, K2, K8. fold statistics in K1, K2, K8.
  split; [exact K8|]. split.
  { rewrite K1, K2. apply kept_are_dated. }
  split.
  - intros Hnone.
    assert (Hempty : recent_issues raw_issues = []).
    { destruct (recent_issues raw_issues); [reflexivity | cbn [length] in Hnone; lia]. }
    split.
    + unfold statistics, _calculate_repository_statistics. rewrite Hempty.
      reflexivity.
    + rewrite K8.
      destruct (aggregate_spec _ _ _ _ _ _ _ _ Hagg) as (d0 & Hfold & _ & Hkeys & _).
      destruct (fold_records_spec _ _ _ _ _ _ _ _ Hfold) as (_ & Hlogins & _).
      assert (Hin : In (fst entry) (Ledger.keys d0)).
      { rewrite <- Hkeys. destruct entry. now left. }
      apply Hlogins in Hin. fold recent_issues in Hin. rewrite Hempty in Hin.
      destruct Hin as [(commit & Hcommit & _) | (issue & [] & _)].
      fold recent_commits in Hcommit.
      destruct (recent_commits raw_commits); [destruct Hcommit|].
      cbn [length]. lia.
  - intros Hsome Hwindow.
    unfold statistics, _calculate_repository_statistics.
    destruct (recent_issues raw_issues) as [|issue issues] eqn:E;
      [cbn [length] in Hsome; lia|].
    cbv zeta. cbn [Report.commit_frequency_per_day Report.total_commits].
    destruct (Z.gtb_spec analysis_window_days 0); [reflexivity | lia].
Qed.

End ReportStatistics.

Lemma commit_frequency_needs_an_issue_witness :
  exists report s,
    _analyze_contributor_concentration [] 365 0 0 0
      (_calculate_repository_statistics 365 (fun x => x))
      twelve_commits [] = Ok report
    /\ Report.repository_stats report = Some s
    /\ Report.commit_frequency_per_day s = 0%Q
    /\ 0 < Report.total_commits s.
Proof.
  assert (Hrun : exists report,
            _analyze_contributor_concentration [] 365 0 0 0
              (_calculate_repository_statistics 365 (fun x => x))
              twelve_commits [] = Ok report).
  { eexists. vm_compute. reflexivity. }
  destruct Hrun as (report & Hrun). exists report.
  assert (Hactive : 0 < Report.total_active_contributors report).
  { revert Hrun. vm_compute. intros [= <-]. reflexivity. }
  assert (Hnone : Report.recent_issues_analyzed report = 0).
  { revert Hrun. vm_compute. intros [= <-]. reflexivity. }
  destruct (commit_frequency_needs_an_issue [] 365 0 0 0 (fun x => x)
              twelve_commits [] report Hrun Hactive)
    as (s & Hstats & _ & _ & Hfreq & _).
  exists s. split; [exact Hrun|]. split; [exact Hstats|]. exact (Hfreq Hnone).
Defined.

(** ** The summary of a batch *)

Lemma sum_ones_from (n : nat) (acc : Z) :
  fold_left Z.add (repeat 1 n) acc = acc + Z.of_nat n.
Proof.
  revert acc. induction n as [|n IH]; intros acc; [cbn; lia|].
  cbn [repeat fold_left]. rewrite IH. lia.
Qed.

Lemma count_if_where (cond : RiskAnalysis -> bool) (analyses : list RiskAnalysis) :
  count_if cond analyses = count_where cond analyses.
Proof.
  unfold count_if, count_where, PyList.sum.
  replace (map (fun _ => 1) (List.filter cond analyses))
    with (repeat 1 (length (List.filter cond analyses))).
  - rewrite sum_ones_from. lia.
  - induction (List.filter cond analyses) as [|a l IH]; [reflexivity|].
    cbn [length repeat map]. now rewrite IH.
Qed.

Lemma count_where_map {A B : Type} (f : A -> B) (p : B -> bool) (xs : list A) :
  count_where p (map f xs) = count_where (fun x => p (f x)) xs.
Proof.
  induction xs as [|x xs IH]; [reflexivity|].
  cbn [map]. rewrite !count_where_cons, IH. reflexivity.
Qed.

Lemma count_where_ext {A : Type} (p q : A -> bool) (xs : list A) :
  (forall x, p x = q x) -> count_where p xs = count_where q xs.
Proof.
  intros H. induction xs as [|x xs IH]; [reflexivity|].
  rewrite !count_where_cons, IH, H. reflexivity.
Qed.

(** A score meets exactly one of the three conditions of the summary, the
    one that its label names. *)
Lemma risk_level_cases (score : Q) :
  let high := PyNum.gt score (7 # 10) in
  let medium := PyNum.lt (3 # 10) score && Qle_bool score (7 # 10) in
  let low := Qle_bool score (3 # 10) in
  (high = true /\ medium = false /\ low = false
   /\ risk_level_of score = "High")
  \/ (high = false /\ medium = true /\ low = false
      /\ risk_level_of score = "Medium")
  \/ (high = false /\ medium = false /\ low = true
      /\ risk_level_of score = "Low").
Proof.
  cbv zeta. unfold risk_level_of, PyNum.gt, PyNum.lt.
  destruct (Qle_bool score (7 # 10)) eqn:E7;
    destruct (Qle_bool score (3 # 10)) eqn:E3; cbn [negb andb].
  - right. right. repeat apply conj; reflexivity.
  - right. left. repeat apply conj; reflexivity.
  - exfalso. apply Qle_bool_iff in E3.
    assert (score <= 7 # 10)%Q as H by lra.
    apply Qle_bool_iff in H. congruence.
  - left. repeat apply conj; reflexivity.
Qed.

Lemma summary_partition (analyses : list RiskAnalysis) :
  count_where (fun a => PyNum.gt (overall_risk_score a) (7 # 10)) analyses
  + count_where
      (fun a =>
         PyNum.lt (3 # 10) (overall_risk_score a)
         && Qle_bool (overall_risk_score a) (7 # 10))
      analyses
  + count_where (fun a => Qle_bool (overall_risk_score a) (3 # 10)) analyses
  = Z.of_nat (length analyses).
Proof.
  induction analyses as [|a analyses IH]; [reflexivity|].
  rewrite !count_where_cons. cbn [length]. rewrite Nat2Z.inj_succ.
  destruct (risk_level_cases (overall_risk_score a))
    as [(-> & -> & -> & _) | [(-> & -> & -> & _) | (-> & -> & -> & _)]]; lia.
Qed.

Section HandlerFacts.

Variable world : Type.
Variable analyze_single_repository :
  string -> world -> outcome RiskAnalysis * world.
Variable now_isoformat : world -> string.
Variable round3 : Q -> Q.

Let trace := call_trace world analyze_single_repository.

Lemma level_count (level : string) (cond : Q -> bool)
    (analyses : list RiskAnalysis) :
  (forall score, String.eqb (risk_level_of score) level = cond score) ->
  count_where (has_level level) (map (entry_of round3) analyses)
  = count_where (fun a => cond (overall_risk_score a)) analyses.
Proof.
  intros H. rewrite count_where_map. apply count_where_ext. intros a.
  unfold has_level. cbn [entry_of risk_level]. apply H.
Qed.

Lemma failed_reports_are_high (repo_urls : list string) (w : world) :
  count_where call_failed (trace repo_urls w)
  <= count_where (fun a => PyNum.gt (overall_risk_score a) (7 # 10))
       (zip_with (report_of now_isoformat) repo_urls (trace repo_urls w)).
Proof.
  revert w. induction repo_urls as [|u us IH]; intros w; [reflexivity|].
  unfold trace. cbn [call_trace]. cbv zeta. fold trace.
  cbn [zip_with]. rewrite !count_where_cons.
  specialize (IH (snd (analyze_single_repository u w))).
  destruct (analyze_single_repository u w) as [[analysis|e] w1];
    cbn [snd report_of] in *.
  - change (call_failed (Returned analysis, w1)) with false.
    destruct (PyNum.gt _ _); lia.
  - change (call_failed (@Raised RiskAnalysis e, w1)) with true.
    cbn [error_analysis overall_risk_score].
    change (PyNum.gt 1 (7 # 10)) with true. cbv iota. lia.
Qed.

(** X21. When every failure of a call is an [Exception], the tool handler
    of [app.py] answers a non-empty request with the results: one entry per
    requested repository, and a summary whose high, medium and low counts
    add up to the total, each entry being counted under the level it is
    labelled with.  A repository whose analysis failed is labelled and
    counted as high risk. *)
Theorem summary_counts_every_repository_once (repositories : list string)
    (w : world) :
  repositories <> [] ->
  Forall handled (call_trace world analyze_single_repository repositories w) ->
  exists summary entries w',
    handle_call_tool world analyze_single_repository now_isoformat round3
      "analyze_project_risk" (Some repositories) w
    = (Returned (Results summary entries), w')
    /\ length entries = length repositories
    /\ total_repositories summary = Z.of_nat (length repositories)
    /\ high_risk_count summary + medium_risk_count summary
       + low_risk_count summary = total_repositories summary
    /\ high_risk_count summary = count_where (has_level "High") entries
    /\ medium_risk_count summary = count_where (has_level "Medium") entries
    /\ low_risk_count summary = count_where (has_level "Low") entries
    /\ count_where call_failed
         (call_trace world analyze_single_repository repositories w)
       <= high_risk_count summary.
Proof.
  intros Hne Hall. fold trace in Hall |- *.
  destruct (analyze_loop_reports world analyze_single_repository now_isoformat
              repositories [] w Hall) as (w' & Hloop).
  cbn [app] in Hloop.
  set (analyses := zip_with (report_of now_isoformat) repositories
                     (trace repositories w)) in *.
  exists (summary_of analyses), (map (entry_of round3) analyses), w'.
  assert (Hlen : length analyses = length repositories).
  { unfold analyses, trace. rewrite length_zip_with, call_trace_length. lia. }
  split.
  { unfold handle_call_tool. rewrite String.eqb_refl. cbv zeta.
    change (default [] (Some repositories)) with repositories.
    unfold analyze_repositories. rewrite Hloop.
    destruct repositories as [|u us]; [congruence | reflexivity]. }
  split; [now rewrite length_map|].
  cbn [summary_of total_repositories high_risk_count medium_risk_count
       low_risk_count].
  rewrite !count_if_where, Hlen.
  split; [reflexivity|].
  split; [rewrite <- Hlen; apply summary_partition|].
  split; [|split; [|split]].
  - symmetry. apply (level_count "High" (fun s => PyNum.gt s (7 # 10))).
    intros score.
    destruct (risk_level_cases score)
      as [(-> & _ & _ & ->) | [(-> & _ & _ & ->) | (-> & _ & _ & ->)]];
      reflexivity.
  - symmetry.
    apply (level_count "Medium"
             (fun s => PyNum.lt (3 # 10) s && Qle_bool s (7 # 10))).
    intros score.
    destruct (risk_level_cases score)
      as [(_ & -> & _ & ->) | [(_ & -> & _ & ->) | (_ & -> & _ & ->)]];
      reflexivity.
  - symmetry. apply (level_count "Low" (fun s => Qle_bool s (3 # 10))).
    intros score.
    destruct (risk_level_cases score)
      as [(_ & _ & -> & ->) | [(_ & _ & -> & ->) | (_ & _ & -> & ->)]];
      reflexivity.
  - apply failed_reports_are_high.
Qed.

End HandlerFacts.

Lemma summary_counts_every_repository_once_witness :
  exists summary entries w',
    handle_call_tool nat sample_analyzer (fun _ => "") (fun x => x)
      "analyze_project_risk" (Some ["broken/repo"; "owner/repo"]) 0%nat
    = (Returned (Results summary entries), w')
    /\ high_risk_count summary = 1
    /\ low_risk_count summary = 1.
Proof.
  destruct (summary_counts_every_repository_once nat sample_analyzer
              (fun _ => "") (fun x => x) ["broken/repo"; "owner/repo"] 0%nat)
    as (summary & entries & w' & Hrun & _ & _ & _ & _ & _ & _ & _).
  - discriminate.
  - repeat constructor.
  - exists summary, entries, w'. split; [exact Hrun|].
    revert Hrun. vm_compute. intros [= <- _ _]. split; reflexivity.
Defined.

(** ** One repository *)

Section SingleFacts.

Variable world : Type.
Variable repo_data contributors_data : Type.
Variable custom_domains : list string.
Variable analysis_window_days : Z.
Variable _fetch_repository_data :
  string -> string -> world -> outcome repo_data * world.
Variable _fetch_commits_data :
  string -> string -> world -> outcome (list commit_record) * world.
Variable _fetch_contributors_data :
  string -> string -> world -> outcome contributors_data * world.
Variable _fetch_issues_data :
  string -> string -> world -> outcome (list issue_record) * world.
Variable _analyze_contributor_sentiment :
  string -> string -> ledger -> world -> outcome unit * world.
Variable read_clock : world -> Z * world.
Variable now_isoformat : world -> string.
Variable exn_message : exn -> string.
Variable url_exn_message : url_exn -> string.
Variable format_1f : Q -> string.
Variable round2 : Q -> Q.

Let run :=
  analyze_single_repository world repo_data contributors_data custom_domains
    analysis_window_days _fetch_repository_data _fetch_commits_data
    _fetch_contributors_data _fetch_issues_data _analyze_contributor_sentiment
    read_clock now_isoformat exn_message url_exn_message format_1f round2.

Let run_concentration :=
  analyze_concentration world custom_domains analysis_window_days
    _analyze_contributor_sentiment read_clock exn_message round2.

(** X22. An identifier that the parser rejects makes the analysis of that
    repository fail before any request is sent or the clock is read: the
    world is left as it was.  In a batch the repository gets the report of
    a failed analysis, with risk score 1.0 and the recommendation
    ["Unable to analyze repository"]. *)
Theorem malformed_identifier_fails_before_any_request (repo_url : string)
    (e : url_exn) (w : world) :
  _parse_github_url repo_url = ParseRaise e ->
  analyze_single_repository world repo_data contributors_data custom_domains
    analysis_window_days _fetch_repository_data _fetch_commits_data
    _fetch_contributors_data _fetch_issues_data _analyze_contributor_sentiment
    read_clock now_isoformat exn_message url_exn_message format_1f round2
    repo_url w
  = (Raised (raised_with (url_exn_message e)), w)
  /\ analyze_repositories world
       (analyze_single_repository world repo_data contributors_data
          custom_domains analysis_window_days _fetch_repository_data
          _fetch_commits_data _fetch_contributors_data _fetch_issues_data
          _analyze_contributor_sentiment read_clock now_isoformat exn_message
          url_exn_message format_1f round2)
       now_isoformat [repo_url] w
     = (Returned
          [{| repository := repo_url;
              overall_risk_score := 1;
              risk_factors := ErrorOnly (url_exn_message e);
              recommendations := ["Unable to analyze repository"];
              analysis_date := now_isoformat w |}],
        w).
Proof.
  intros Hparse. fold run.
  assert (Hrun : run repo_url w = (Raised (raised_with (url_exn_message e)), w)).
  { unfold run, analyze_single_repository. rewrite Hparse. reflexivity. }
  split; [exact Hrun|].
  unfold analyze_repositories. cbn [analyze_loop]. rewrite Hrun.
  reflexivity.
Qed.

Lemma analyze_concentration_inv (owner repo : string)
    (commits : list commit_record) (issues : list issue_record) (w w' : world)
    (report : Report.t) :
  run_concentration owner repo commits issues w = (Returned report, w') ->
  exists now_commits now_issues now,
    _analyze_contributor_concentration custom_domains analysis_window_days
      now_commits now_issues now
      (_calculate_repository_statistics analysis_window_days round2)
      commits issues = Ok report.
Proof.
  unfold run_concentration, analyze_concentration.
  destruct (read_clock w) as [now_commits w1].
  destruct (read_clock w1) as [now_issues w2].
  destruct (read_clock w2) as [now w3].
  exists now_commits, now_issues, now.
  destruct (aggregate _ _ _ _ _ _ _) as [d|e]; [|discriminate].
  destruct (_analyze_contributor_sentiment owner repo d w3) as [[[]|e] w4];
    [|discriminate].
  destruct (_analyze_contributor_concentration _ _ _ _ _ _ _ _) as [r|e];
    [|discriminate].
  congruence.
Qed.

(** X23. An analysis that returns names the submitted identifier, which the
    parser accepted, and carries the report of the contributor analysis as
    its risk factors.  Its overall score is the concentration risk of that
    report, a number between 0 and 1: the fallback 0.5 is never used.  Its
    recommendations are those generated from the report, and there is at
    least one. *)
Theorem overall_score_is_concentration_risk (repo_url : string) (w w' : world)
    (analysis : RiskAnalysis) :
  analyze_single_repository world repo_data contributors_data custom_domains
    analysis_window_days _fetch_repository_data _fetch_commits_data
    _fetch_contributors_data _fetch_issues_data _analyze_contributor_sentiment
    read_clock now_isoformat exn_message url_exn_message format_1f round2
    repo_url w
  = (Returned analysis, w') ->
  repository analysis = repo_url
  /\ (exists owner repo, _parse_github_url repo_url = Parsed owner repo)
  /\ exists report,
       risk_factors analysis = Factors report
       /\ overall_risk_score analysis
          = Report.contributor_concentration_risk report
       /\ (0 <= overall_risk_score analysis <= 1)%Q
       /\ recommendations analysis = _generate_recommendations format_1f report
       /\ recommendations analysis <> [].
Proof.
  fold run. unfold run, analyze_single_repository. fold run_concentration.
  destruct (_parse_github_url repo_url) as [owner repo|e]; [|discriminate].
  destruct (_fetch_repository_data owner repo w) as [[data|e] w1];
    [|discriminate].
  destruct (_fetch_commits_data owner repo w1) as [[commits_data|e] w2];
    [|discriminate].
  destruct (_fetch_contributors_data owner repo w2) as [[contributors|e] w3];
    [|discriminate].
  destruct (_fetch_issues_data owner repo w3) as [[issues_data|e] w4];
    [|discriminate].
  destruct (run_concentration owner repo commits_data issues_data w4)
    as [[report|e] w5] eqn:Hrun; [|discriminate].
  cbv zeta. intros [= <- <-].
  cbn [repository risk_factors overall_risk_score recommendations].
  split; [reflexivity|]. split; [eauto|].
  exists report. split; [reflexivity|]. split; [reflexivity|].
  destruct (analyze_concentration_inv _ _ _ _ _ _ _ Hrun)
    as (now_commits & now_issues & now & Hreport).
  split.
  - destruct (analysis_inv _ _ _ _ _ _ _ _ _ Hreport) as (d & _ & _ & Hcases).
    destruct Hcases
      as [(_ & -> & _) | (first & rest & infos & _ & _ & _ & -> & _)].
    + lra.
    + apply concentration_risk_range.
  - split; [reflexivity|].
    destruct (generate_shape format_1f report) as (L & -> & _).
    destruct L; discriminate.
Qed.

End SingleFacts.

Lemma malformed_identifier_fails_before_any_request_witness :
  sample_single 365 "owner" 0%nat
  = (Raised (raised_with "malformed identifier"), 0%nat).
Proof.
  apply (malformed_identifier_fails_before_any_request nat unit unit [] 365
           (quiet_fetch tt) (quiet_fetch twelve_commits) (quiet_fetch tt)
           (quiet_fetch []) no_sentiment still_clock (fun _ => "")
           (fun _ => "division by zero") (fun _ => "malformed identifier")
           (fun _ => "") (fun x => x) "owner" UrlValueError 0%nat).
  reflexivity.
Defined.

Lemma overall_score_is_concentration_risk_witness :
  exists analysis w',
    sample_single 365 "owner/repo" 0%nat = (Returned analysis, w')
    /\ (0 <= overall_risk_score analysis <= 1)%Q.
Proof.
  assert (Hrun : exists analysis w',
            sample_single 365 "owner/repo" 0%nat = (Returned analysis, w')).
  { eexists. eexists. vm_compute. reflexivity. }
  destruct Hrun as (analysis & w' & Hrun). exists analysis, w'.
  split; [exact Hrun|].
  destruct (overall_score_is_concentration_risk nat unit unit [] 365
              (quiet_fetch tt) (quiet_fetch twelve_commits) (quiet_fetch tt)
              (quiet_fetch []) no_sentiment still_clock (fun _ => "")
              (fun _ => "division by zero") (fun _ => "malformed identifier")
              (fun _ => "") (fun x => x) "owner/repo" 0%nat w' analysis Hrun)
    as (_ & _ & report & _ & _ & Hrange & _).
  exact Hrange.
Defined.

(** ** Paged fetches *)

Section PagedFetchFacts.

Variable world : Type.
Variable A : Type.
Variable get_page : nat -> world -> page_response A * world.

Let fetch := fetch_pages world A get_page.

Lemma fetch_pages_unfold (limit fuel page : nat) (all_items : list A)
    (w : world) :
  fetch limit (S fuel) page all_items w
  = if (length all_items <? limit)%nat then
      match get_page page w with
      | (StatusError, w') => Some (Returned [], w')
      | (RequestFailed e, w') => Some (Raised e, w')
      | (PageItems items, w') =>
          match items with
          | [] => Some (Returned all_items, w')
          | _ :: _ =>
              if (length items <? per_page)%nat
              then Some (Returned (all_items ++ items)%list, w')
              else fetch limit fuel (page + 1) (all_items ++ items)%list w'
          end
      end
    else Some (Returned all_items, w).
Proof. reflexivity. Qed.

Lemma fetch_pages_done (limit fuel page : nat) (all_items : list A) (w : world) :
  (limit <= length all_items)%nat ->
  fetch limit fuel page all_items w = Some (Returned all_items, w).
Proof.
  intros H. destruct fuel; unfold fetch; cbn [fetch_pages];
    destruct (Nat.ltb_spec (length all_items) limit); try lia; reflexivity.
Qed.

(** Every round of the loop that goes on adds a full page, so the fuel
    that covers the limit is enough, and more fuel changes nothing. *)
Lemma fetch_pages_enough (limit fuel page : nat) (all_items : list A)
    (w : world) :
  (limit <= length all_items + fuel * per_page)%nat ->
  exists r,
    fetch limit fuel page all_items w = Some r
    /\ forall more, (fuel <= more)%nat ->
         fetch limit more page all_items w = Some r.
Proof.
  revert page all_items w. induction fuel as [|fuel IH];
    intros page all_items w Hfuel.
  - exists (Returned all_items, w).
    split; [|intros more _]; apply fetch_pages_done; lia.
  - destruct (Nat.ltb_spec (length all_items) limit) as [Hlt|Hge].
    + rewrite fetch_pages_unfold.
      destruct (Nat.ltb_spec (length all_items) limit) as [_|]; [|lia].
      destruct (get_page page w) as [[items| |e] w'] eqn:Hget.
      * destruct items as [|item items].
        { eexists. split; [reflexivity|]. intros [|more] Hmore; [lia|].
          rewrite fetch_pages_unfold, Hget.
          destruct (Nat.ltb_spec (length all_items) limit); [reflexivity | lia]. }
        destruct (Nat.ltb_spec (length (item :: items)) per_page) as [Hshort|Hfull].
        { eexists. split; [reflexivity|]. intros [|more] Hmore; [lia|].
          rewrite fetch_pages_unfold, Hget.
          destruct (Nat.ltb_spec (length all_items) limit); [|lia].
          destruct (Nat.ltb_spec (length (item :: items)) per_page);
            [reflexivity | lia]. }
        destruct (IH (page + 1)%nat (all_items ++ item :: items)%list w')
          as (r & Hr & Hmore).
        { rewrite length_app. lia. }
        exists r. split; [exact Hr|]. intros [|more] Hle; [lia|].
        rewrite fetch_pages_unfold, Hget.
        destruct (Nat.ltb_spec (length all_items) limit); [|lia].
        destruct (Nat.ltb_spec (length (item :: items)) per_page); [lia|].
        apply Hmore. lia.
      * eexists. split; [reflexivity|]. intros [|more] Hmore; [lia|].
        rewrite fetch_pages_unfold, Hget.
        destruct (Nat.ltb_spec (length all_items) limit); [reflexivity | lia].
      * eexists. split; [reflexivity|]. intros [|more] Hmore; [lia|].
        rewrite fetch_pages_unfold, Hget.
        destruct (Nat.ltb_spec (length all_items) limit); [reflexivity | lia].
    + exists (Returned all_items, w).
      split; [|intros more _]; apply fetch_pages_done; lia.
Qed.

(** X24. The paging loops end whatever the server answers: the commit
    fetch is over after at most five page requests and the contributor
    fetch after at most two, each with a result, a list or a raised
    failure. *)
Theorem paged_fetches_end (fuel : nat) (w : world) :
  (5 <= fuel)%nat ->
  (exists r,
     _fetch_commits_data world A get_page 5 w = Some r
     /\ _fetch_commits_data world A get_page fuel w = Some r)
  /\ (exists r,
        _fetch_contributors_data world A get_page 2 w = Some r
        /\ _fetch_contributors_data world A get_page fuel w = Some r).
Proof.
  intros Hfuel. unfold _fetch_commits_data, _fetch_contributors_data.
  fold fetch. split.
  - destruct (fetch_pages_enough 500 5 1 [] w) as (r & Hr & Hmore).
    { unfold per_page. cbn [length]. lia. }
    exists r. split; [exact Hr | apply Hmore; lia].
  - destruct (fetch_pages_enough 200 2 1 [] w) as (r & Hr & Hmore).
    { unfold per_page. cbn [length]. lia. }
    exists r. split; [exact Hr | apply Hmore; lia].
Qed.

Lemma full_pages_length (k page : nat) (w w' : world) (items : list A) :
  full_pages world A get_page k page w = Some (items, w') ->
  (k * per_page <= length items)%nat.
Proof.
  revert page w w' items. induction k as [|k IH]; intros page w w' items.
  - intros [= <- _]. cbn. lia.
  - cbn [full_pages]. destruct (get_page page w) as [[first| |e] w1];
      try discriminate.
    destruct (Nat.ltb_spec (length first) per_page); [discriminate|].
    destruct (full_pages world A get_page k (page + 1) w1) as [[rest w2]|] eqn:E;
      [|discriminate].
    intros [= <- _]. rewrite length_app. specialize (IH _ _ _ _ E). lia.
Qed.

(** After [k] full pages the loop stands at page [page + k] with their
    items, if it has not reached the limit before. *)
Lemma fetch_after_full_pages (limit k fuel page : nat)
    (all_items items : list A) (w w' : world) :
  full_pages world A get_page k page w = Some (items, w') ->
  (length (all_items ++ items) < limit + per_page)%nat ->
  (length (all_items ++ items) < limit \/ k = 0)%nat ->
  fetch limit (k + fuel) page all_items w
  = fetch limit fuel (page + k) (all_items ++ items)%list w'.
Proof.
  revert page all_items items w w'. induction k as [|k IH];
    intros page all_items items w w'.
  - intros [= <- <-] _ _. rewrite app_nil_r, Nat.add_0_r. reflexivity.
  - cbn [full_pages]. destruct (get_page page w) as [[first| |e] w1] eqn:Hget;
      try discriminate.
    destruct (Nat.ltb_spec (length first) per_page) as [|Hfull]; [discriminate|].
    destruct (full_pages world A get_page k (page + 1) w1) as [[rest w2]|] eqn:E;
      [|discriminate].
    intros [= <- <-] Hbound [Hlimit|]; [|lia].
    change (S k + fuel)%nat with (S (k + fuel)).
    rewrite fetch_pages_unfold, Hget.
    rewrite length_app in Hlimit.
    destruct (Nat.ltb_spec (length all_items) limit); [|lia].
    destruct first as [|item first]; [unfold per_page in Hfull; cbn in Hfull; lia|].
    destruct (Nat.ltb_spec (length (item :: first)) per_page); [lia|].
    rewrite (IH (page + 1)%nat (all_items ++ item :: first)%list rest w1 w2 E).
    + rewrite <- app_assoc. f_equal. lia.
    + rewrite <- app_assoc. exact Hbound.
    + rewrite <- app_assoc. left. rewrite length_app. exact Hlimit.
Qed.

(** X25. An HTTP error status on a later page throws away the pages
    fetched before: when the first [k] pages are full, the limit of 500 is
    not yet reached and the next request is answered with an error status,
    the commit fetch returns the empty list. *)
Theorem status_error_discards_fetched_pages (k fuel : nat) (w w1 w2 : world)
    (items : list A) :
  full_pages world A get_page k 1 w = Some (items, w1) ->
  (length items < 500)%nat ->
  get_page (1 + k) w1 = (StatusError, w2) ->
  (k < fuel)%nat ->
  _fetch_commits_data world A get_page fuel w = Some (Returned [], w2).
Proof.
  intros Hfull Hlimit Hget Hfuel. unfold _fetch_commits_data. fold fetch.
  replace fuel with (k + S (fuel - k - 1))%nat by lia.
  rewrite (fetch_after_full_pages 500 k (S (fuel - k - 1)) 1 [] items w w1 Hfull).
  - cbn [app]. rewrite fetch_pages_unfold, Hget.
    destruct (Nat.ltb_spec (length items) 500); [reflexivity | lia].
  - cbn [app]. unfold per_page. lia.
  - cbn [app]. left. exact Hlimit.
Qed.

(** The list grows by full pages of exactly [per_page] items when the
    server sends no more than it was asked for. *)
Lemma fetch_pages_bound (j limit_pages fuel page : nat) (all_items items : list A)
    (w w' : world) :
  (forall page w items w',
     get_page page w = (PageItems items, w') ->
     (length items <= per_page)%nat) ->
  length all_items = (j * per_page)%nat ->
  (j <= limit_pages)%nat ->
  fetch (limit_pages * per_page) fuel page all_items w
  = Some (Returned items, w') ->
  (length items <= limit_pages * per_page)%nat.
Proof.
  intros Hserver. revert j page all_items w.
  induction fuel as [|fuel IH]; intros j page all_items w Hlen Hj.
  - unfold fetch. cbn [fetch_pages].
    destruct (Nat.ltb_spec (length all_items) (limit_pages * per_page));
      [discriminate|].
    intros [= <- _]. rewrite Hlen. unfold per_page. nia.
  - rewrite fetch_pages_unfold.
    destruct (Nat.ltb_spec (length all_items) (limit_pages * per_page))
      as [Hlt|Hge].
    + assert (Hjlt : (j < limit_pages)%nat) by (unfold per_page in *; nia).
      destruct (get_page page w) as [[got| |e] w1] eqn:Hget.
      * specialize (Hserver _ _ _ _ Hget).
        destruct got as [|item got].
        { intros [= <- _]. unfold per_page in *. nia. }
        destruct (Nat.ltb_spec (length (item :: got)) per_page) as [Hshort|Hfull].
        { intros [= <- _]. rewrite length_app. unfold per_page in *. nia. }
        apply (IH (S j)); [|lia].
        rewrite length_app. unfold per_page in *. lia.
      * intros [= <- _]. cbn. lia.
      * discriminate.
    + intros [= <- _]. rewrite Hlen. unfold per_page. nia.
Qed.

(** X26. When the server sends at most the hundred items per page that it
    is asked for, the commit fetch returns at most 500 commits and the
    contributor fetch at most 200 contributors. *)
Theorem fetched_lists_are_capped (fuel : nat) (w w' : world) (items : list A) :
  (forall page w items w',
     get_page page w = (PageItems items, w') -> (length items <= 100)%nat) ->
  (_fetch_commits_data world A get_page fuel w = Some (Returned items, w') ->
   (length items <= 500)%nat)
  /\ (_fetch_contributors_data world A get_page fuel w
      = Some (Returned items, w') ->
      (length items <= 200)%nat).
Proof.
  intros Hserver. unfold _fetch_commits_data, _fetch_contributors_data.
  fold fetch. split; intros Hrun.
  - apply (fetch_pages_bound 0 5 fuel 1 [] items w w' Hserver eq_refl
             ltac:(lia) Hrun).
  - apply (fetch_pages_bound 0 2 fuel 1 [] items w w' Hserver eq_refl
             ltac:(lia) Hrun).
Qed.

End PagedFetchFacts.

Lemma paged_fetches_end_witness :
  (exists r,
     _fetch_commits_data nat nat endless_pages 5 0%nat = Some r
     /\ _fetch_commits_data nat nat endless_pages 7 0%nat = Some r)
  /\ (exists r,
        _fetch_contributors_data nat nat endless_pages 2 0%nat = Some r
        /\ _fetch_contributors_data nat nat endless_pages 7 0%nat = Some r).
Proof. apply (paged_fetches_end nat nat endless_pages 7 0%nat). lia. Defined.

Lemma status_error_discards_fetched_pages_witness :
  _fetch_commits_data nat nat failing_second_page 5 0%nat
  = Some (Returned [], 2%nat).
Proof.
  apply (status_error_discards_fetched_pages nat nat failing_second_page 1 5
           0%nat 1%nat 2%nat (repeat 1%nat 100 ++ [])%list).
  - reflexivity.
  - rewrite length_app, repeat_length. cbn. lia.
  - reflexivity.
  - lia.
Defined.

Lemma fetched_lists_are_capped_witness :
  (length (repeat 1%nat 100 ++ repeat 2%nat 100 ++ repeat 3%nat 100
           ++ repeat 4%nat 100 ++ repeat 5%nat 100) <= 500)%nat.
Proof.
  apply (proj1 (fetched_lists_are_capped nat nat endless_pages 5 0%nat 5%nat
                  _ ltac:(intros page w items w' [= <- _];
                          cbn [length]; lia))).
  reflexivity.
Defined.
